(** * postgres-mcp-server: query safety, formatting and history

    A shallow embedding of the read-only PostgreSQL tool server
    ([src/postgres_mcp]): the lexical query validator and the identifier
    sanitizer ([validators.py]), the validated request and configuration
    models ([types.py]), the result formatters ([formatters.py]), the
    bounded query history ([history.py]) and the two tool handlers that
    compose them ([tools.py]).

    Conventions of the embedding.
    - A Python [str] is a Rocq [string]; a character is a code point
      below 256 (the Latin-1 block), which is what [ascii] holds.
    - A Python [int] is a [Z]; a Python [float] is a [pyfloat]: a finite
      value (kept as an exact rational), an infinity or NaN, compared the
      way IEEE 754 compares them.
    - A function that may raise returns a [result]; the exception it
      raises is the argument of [Raise].
    - Module-level singletons and the calls made to the outside (the
      pool, the history buffer) live in a [World] that handlers thread
      through.
    - The handlers are given twice. [query_database_tool] and
      [get_query_history_tool] run in a process whose QUERY_HISTORY_SIZE
      is unset or a valid size, held in the world as a number.
      [query_database_tool_env] and [get_query_history_tool_env] read
      the text of the variable, so that creating the history may raise.
      The two agree wherever the history is there or the number in the
      world is the one the text gives ([HistoryEnvFacts]). *)

From Stdlib Require Import String Ascii List Bool Arith NArith ZArith QArith Lia.
From Stdlib Require Import DecimalString.
Import ListNotations.
Local Close Scope Q_scope.
Local Open Scope list_scope.
Local Open Scope string_scope.

Set Implicit Arguments.

(* ================================================================== *)
(** * Part I: the model *)
(* ================================================================== *)

(** ** Python values, exceptions and results *)

Module Py.

(** Exceptions the modelled code raises or lets through. *)
Inductive exn : Type :=
| ValueError (msg : string)
| TypeError (msg : string)
| KeyError (key : string)
| ValidationError (title : string) (errors : list (string * string))
    (* pydantic: model name, then (field, message) per failing field *)
| DriverError (cls : string) (msg : string)
    (* any other exception of the database driver, with its text *)
| OverflowError (msg : string).

Inductive result (A : Type) : Type :=
| Ok (a : A)
| Raise (e : exn).
Arguments Ok {A} a.
Arguments Raise {A} e.

Definition bind {A B : Type} (r : result A) (k : A -> result B) : result B :=
  match r with
  | Ok a => k a
  | Raise e => Raise e
  end.

Definition is_ok {A : Type} (r : result A) : bool :=
  match r with Ok _ => true | Raise _ => false end.

Fixpoint mapM {A B : Type} (f : A -> result B) (l : list A) : result (list B) :=
  match l with
  | [] => Ok []
  | x :: l' =>
      bind (f x) (fun y => bind (mapM f l') (fun ys => Ok (y :: ys)))
  end.

(** [float]: IEEE 754 comparison against an [int] constant is exact in
    Python, and every comparison with NaN is false. *)
Inductive pyfloat : Type :=
| Finite (q : Q)
| PosInf
| NegInf
| NaN.

Definition float_le_int (v : pyfloat) (n : Z) : bool :=
  match v with
  | Finite q => Qle_bool q (inject_Z n)
  | NegInf => true
  | PosInf => false
  | NaN => false
  end.

Definition float_gt_int (v : pyfloat) (n : Z) : bool :=
  match v with
  | Finite q => negb (Qle_bool q (inject_Z n))
  | PosInf => true
  | NegInf => false
  | NaN => false
  end.

(** The order of the extended reals on the floats that are numbers;
    NaN is in no relation with anything. *)
Definition float_le (v : pyfloat) (n : Z) : Prop :=
  match v with
  | Finite q => (q <= inject_Z n)%Q
  | NegInf => True
  | PosInf => False
  | NaN => False
  end.

Definition float_gt (v : pyfloat) (n : Z) : Prop :=
  match v with
  | Finite q => (inject_Z n < q)%Q
  | PosInf => True
  | NegInf => False
  | NaN => False
  end.

(** "v lies in (lo, hi]". *)
Definition float_in_left_open (v : pyfloat) (lo hi : Z) : Prop :=
  float_gt v lo /\ float_le v hi.

End Py.
Export Py.

Declare Scope py_scope.
Notation "x <- c ;; k" := (Py.bind c (fun x => k))
  (at level 61, c at next level, right associativity) : py_scope.
Local Open Scope py_scope.

(** ** Characters and the fragments of [re] the validators use *)

Module Re.

Definition LF : ascii := ascii_of_nat 10.
Definition code (c : ascii) : N := N_of_ascii c.

Definition in_range (lo hi : N) (c : ascii) : bool :=
  ((lo <=? code c) && (code c <=? hi))%N.

Definition is_upper (c : ascii) : bool := in_range 65 90 c.
Definition is_lower (c : ascii) : bool := in_range 97 122 c.
Definition is_digit (c : ascii) : bool := in_range 48 57 c.
Definition is_ascii_letter (c : ascii) : bool := is_upper c || is_lower c.

(** The class [[a-zA-Z0-9_\.]]. *)
Definition is_identifier_char (c : ascii) : bool :=
  is_lower c || is_upper c || is_digit c || (c =? "_")%char || (c =? ".")%char.

(** [\w] on a [str] pattern: alphanumeric in the Unicode sense, or the
    underscore. Below 256 the non-ASCII alphanumerics are the ordinal
    indicators, superscript digits, micro sign, vulgar fractions and
    the accented letters (all of C0..FF but the two operators). *)
Definition is_word_char (c : ascii) : bool :=
  is_ascii_letter c || is_digit c || (c =? "_")%char
  || (code c =? 170)%N || in_range 178 179 c || (code c =? 181)%N
  || in_range 185 186 c || in_range 188 190 c
  || in_range 192 214 c || in_range 216 246 c || in_range 248 255 c.

(** [str.isspace], which is what [str.strip()] removes. *)
Definition is_space (c : ascii) : bool :=
  in_range 9 13 c || in_range 28 32 c || (code c =? 133)%N || (code c =? 160)%N.

(** Lower-casing of the 26 capitals: bit 5 is set. *)
Definition ascii_lower (c : ascii) : ascii :=
  if is_upper c then
    match c with
    | Ascii b0 b1 b2 b3 b4 _ b6 b7 => Ascii b0 b1 b2 b3 b4 true b6 b7
    end
  else c.

(** [re.IGNORECASE] on a literal ASCII letter [p] of the pattern: the
    text character matches when both have the same lower case. *)
Definition ci_char_match (p c : ascii) : bool :=
  (ascii_lower p =? ascii_lower c)%char.

Definition head (s : string) : option ascii :=
  match s with
  | EmptyString => None
  | String c _ => Some c
  end.

Fixpoint last_or (prev : option ascii) (s : string) : option ascii :=
  match s with
  | EmptyString => prev
  | String c s' => last_or (Some c) s'
  end.

Fixpoint all_chars (p : ascii -> bool) (s : string) : bool :=
  match s with
  | EmptyString => true
  | String c s' => p c && all_chars p s'
  end.

Fixpoint drop_while (p : ascii -> bool) (s : string) : string :=
  match s with
  | EmptyString => EmptyString
  | String c s' => if p c then drop_while p s' else s
  end.

Fixpoint take_while (p : ascii -> bool) (s : string) : string :=
  match s with
  | EmptyString => EmptyString
  | String c s' => if p c then String c (take_while p s') else EmptyString
  end.

(** [str.lstrip()], [str.rstrip()] and [str.strip()] with no argument. *)
Definition lstrip (s : string) : string := drop_while is_space s.

Fixpoint rstrip (s : string) : string :=
  match s with
  | EmptyString => EmptyString
  | String c s' =>
      match rstrip s' with
      | EmptyString => if is_space c then EmptyString else String c EmptyString
      | r => String c r
      end
  end.

Definition strip (s : string) : string := rstrip (lstrip s).

(** [re.sub(pattern, "", s)] for a pattern that never matches the empty
    string and looks at nothing before its start: [match_len s] is the
    length of the match that starts at the head of [s], if there is one.
    The scan goes left to right; a match is dropped and the scan resumes
    right after it; a character where no match starts is kept. [skip] is
    the number of characters of the current match still to drop. *)
Fixpoint sub_delete (match_len : string -> option nat) (skip : nat)
         (s : string) : string :=
  match s with
  | EmptyString => EmptyString
  | String c s' =>
      match skip with
      | S k => sub_delete match_len k s'
      | O =>
          match match_len s with
          | Some (S k) => sub_delete match_len k s'
          | _ => String c (sub_delete match_len 0 s')
          end
      end
  end.

(** [.*] without [re.DOTALL]: the run of characters up to the next
    line feed. *)
Fixpoint line_rest_len (s : string) : nat :=
  match s with
  | EmptyString => 0
  | String c s' => if (c =? LF)%char then 0 else S (line_rest_len s')
  end.

(** [--.*$] with [re.MULTILINE]: two dashes and the rest of the line;
    [$] then holds, at the line feed or at the end of the text. *)
Definition line_comment_at (s : string) : option nat :=
  match s with
  | String c1 (String c2 r) =>
      if ((c1 =? "-") && (c2 =? "-"))%char then Some (2 + line_rest_len r)
      else None
  | _ => None
  end.

(** [.*?\*/] with [re.DOTALL]: the shortest run that ends in the first
    star-slash; the length includes the two closing characters. *)
Fixpoint block_end_len (s : string) : option nat :=
  match s with
  | EmptyString => None
  | String c s' =>
      match s' with
      | String d _ =>
          if ((c =? "*") && (d =? "/"))%char then Some 2
          else option_map S (block_end_len s')
      | EmptyString => None
      end
  end.

(** [/\*.*?\*/] with [re.DOTALL]. *)
Definition block_comment_at (s : string) : option nat :=
  match s with
  | String c1 (String c2 r) =>
      if ((c1 =? "/") && (c2 =? "*"))%char
      then option_map (fun n => 2 + n) (block_end_len r)
      else None
  | _ => None
  end.

(** [\b]: exactly one of the two neighbours is a word character; the
    outside of the text counts as a non-word character. *)
Definition is_word_opt (o : option ascii) : bool :=
  match o with
  | Some c => is_word_char c
  | None => false
  end.

Definition at_word_boundary (prev next : option ascii) : bool :=
  xorb (is_word_opt prev) (is_word_opt next).

(** The literal [lit] under [re.IGNORECASE] at the head of [s]: the last
    character consumed (or [prev] when [lit] is empty) and what follows. *)
Fixpoint match_literal_ci (lit : string) (prev : option ascii) (s : string)
  : option (option ascii * string) :=
  match lit with
  | EmptyString => Some (prev, s)
  | String p lit' =>
      match s with
      | String c s' =>
          if ci_char_match p c then match_literal_ci lit' (Some c) s' else None
      | EmptyString => None
      end
  end.

(** The pattern [\b<keyword>\b] tried at one position: [prev] is the
    character before it, [s] the text from it on. *)
Definition word_pattern_at (keyword : string) (prev : option ascii)
           (s : string) : bool :=
  at_word_boundary prev (head s)
  && match match_literal_ci keyword prev s with
     | Some (last, rest) => at_word_boundary last (head rest)
     | None => false
     end.

(** [re.search(rf"\b{keyword}\b", s, re.IGNORECASE)] as a truth value:
    every start position is tried, left to right. *)
Fixpoint search_word_from (keyword : string) (prev : option ascii)
         (s : string) : bool :=
  word_pattern_at keyword prev s
  || match s with
     | EmptyString => false
     | String c s' => search_word_from keyword (Some c) s'
     end.

Definition search_word (keyword s : string) : bool :=
  search_word_from keyword None s.

(** [$] without [re.MULTILINE]: the end of the text, or just before a
    line feed that ends the text. *)
Definition at_end_anchor (s : string) : bool :=
  (s =? EmptyString) || (s =? String LF EmptyString).

(** [re.match(r"^[a-zA-Z0-9_\.]+$", s)] as a truth value: one class
    character, the longest run of them, then the end anchor (a shorter
    run stops before a class character, where [$] cannot hold). *)
Definition match_identifier (s : string) : bool :=
  match s with
  | String c s' =>
      is_identifier_char c && at_end_anchor (drop_while is_identifier_char s')
  | EmptyString => false
  end.

End Re.

(** ** validators.py *)

Definition FORBIDDEN_KEYWORDS : list string :=
  [ "INSERT"; "UPDATE"; "DELETE"; "DROP"; "CREATE"; "ALTER";
    "TRUNCATE"; "GRANT"; "REVOKE"; "EXECUTE"; "CALL"; "COPY" ].

Definition remove_sql_comments (query : string) : string :=
  let query := Re.sub_delete Re.line_comment_at 0 query in
  let query := Re.sub_delete Re.block_comment_at 0 query in
  query.

Definition forbidden_keyword_message (keyword : string) : string :=
  "Query contains forbidden keyword: " ++ keyword
  ++ ". Only SELECT queries and read-only operations are allowed.".

Definition validate_query (query : string) : result unit :=
  if (query =? "") || (Re.strip query =? "") then
    Raise (ValueError "Query cannot be empty")
  else
    let cleaned_query := remove_sql_comments query in
    match find (fun keyword => Re.search_word keyword cleaned_query)
               FORBIDDEN_KEYWORDS with
    | Some keyword => Raise (ValueError (forbidden_keyword_message keyword))
    | None => Ok tt
    end.

Definition invalid_identifier_message (identifier : string) : string :=
  "Invalid identifier '" ++ identifier
  ++ "'. Only alphanumeric characters, underscores, and dots are allowed.".

Definition sanitize_identifier (identifier : string) : result string :=
  if (identifier =? "") then Raise (ValueError "Identifier cannot be empty")
  else if negb (Re.match_identifier identifier) then
    Raise (ValueError (invalid_identifier_message identifier))
  else Ok identifier.

Definition validate_timeout (timeout : pyfloat) : result unit :=
  if float_le_int timeout 0 then Raise (ValueError "Timeout must be positive")
  else if float_gt_int timeout 300 then
    Raise (ValueError "Timeout cannot exceed 300 seconds (5 minutes)")
  else Ok tt.

(** *** What the validator is checked against *)

(** [mid] is [keyword] up to the case of ASCII letters. *)
Fixpoint ci_equal (keyword mid : string) : bool :=
  match keyword, mid with
  | EmptyString, EmptyString => true
  | String p k', String c m' => Re.ci_char_match p c && ci_equal k' m'
  | _, _ => false
  end.

(** [keyword] occurs in [text], in any letter case, as a whole word: the
    character before the occurrence and the one after it, where there is
    one, is not a word character. *)
Definition occurs_as_word (keyword text : string) : Prop :=
  exists pre mid post,
    text = pre ++ mid ++ post
    /\ ci_equal keyword mid = true
    /\ Re.is_word_opt (Re.last_or None pre) = false
    /\ Re.is_word_opt (Re.head post) = false.


(** [validate_query] raises the error that names [keyword]. *)
Definition rejects_naming (query keyword : string) : Prop :=
  validate_query query = Raise (ValueError (forbidden_keyword_message keyword)).

(** Every character of [s] is of the class [[A-Za-z0-9_.]]. *)
Definition within_identifier_charset (s : string) : Prop :=
  Re.all_chars Re.is_identifier_char s = true.

(** ** Result values and the library functions taken as given *)

(** [datetime.date], [datetime.datetime] and [decimal.Decimal] by their
    fields; the code only passes them on to the library. *)
Record date : Type := mk_date { year : Z; month : Z; day : Z }.

Record datetime : Type := mk_datetime {
  on_date : date;
  hour : Z;
  minute : Z;
  second : Z;
  microsecond : Z;
  utcoffset_minutes : option Z
}.

Inductive Decimal : Type :=
| DecFinite (negative : bool) (coefficient : N) (exponent : Z)
| DecInfinity (negative : bool)
| DecNaN (signaling : bool).

(** Any other object that the driver decodes a column to (a UUID, a
    time of day, an interval, a list, ...): the name of its type and a
    text that tells it from the other objects of that type. The code
    never looks inside such an object; it hands it to [str] and to
    [json.dumps]. *)
Record PyObject : Type := mk_object {
  type_name : string;
  object_text : string
}.

(** A cell of a result row. [VOther] is an object of none of the types
    before it. *)
Inductive value : Type :=
| VNone
| VBool (b : bool)
| VInt (n : Z)
| VFloat (f : pyfloat)
| VStr (s : string)
| VBytes (b : list Byte.byte)
| VDate (d : date)
| VDatetime (d : datetime)
| VDecimal (d : Decimal)
| VOther (o : PyObject).

(** A row is a [dict]: keys in insertion order. *)
Definition Row : Type := list (string * value).

Definition keys (row : Row) : list string := map fst row.

Fixpoint dict_get (row : Row) (key : string) : option value :=
  match row with
  | [] => None
  | (k, v) :: row' => if (k =? key) then Some v else dict_get row' key
  end.

(** The functions of the Python runtime and of its libraries that the
    code calls and whose text output is not decided by this repository. *)
Class PyRuntime : Type := {
  date_isoformat : date -> string;
  datetime_isoformat : datetime -> string;
  datetime_str : datetime -> string;
  Decimal_str : Decimal -> string;
  float_of_Decimal : Decimal -> result pyfloat;
    (* [float(d)]: raises ValueError on a signaling NaN *)
  bytes_decode_replace : list Byte.byte -> string;
    (* [b.decode("utf-8", errors="replace")] *)
  bytes_repr : list Byte.byte -> string;
  repr_str : string -> string;
  float_repr : pyfloat -> string;
    (* [repr] of a finite float *)
  json_encode_str : string -> string;
    (* a JSON string literal, [ensure_ascii=True] *)
  csv_writerow : list string -> string;
    (* one record of [csv.writer], default dialect, with its terminator *)
  validation_error_str : string -> list (string * string) -> string;
    (* [str] of a pydantic ValidationError *)
  round2 : pyfloat -> pyfloat;
    (* [round(x, 2)] *)
  object_str : PyObject -> string;
    (* [str] of an object of another type *)
  object_json : PyObject -> result string;
    (* what [json.dumps(..., indent=2)] writes for such an object as a
       value of a row, or the TypeError it raises when the type is not
       one it knows *)
  set_order : list string -> list string
    (* the order in which this process iterates over a set of these
       strings *)
}.

Section Builtins.
Context {rt : PyRuntime}.

Definition int_str (n : Z) : string := NilZero.string_of_int (Z.to_int n).

Definition float_str (f : pyfloat) : string :=
  match f with
  | Finite _ => float_repr f
  | PosInf => "inf"
  | NegInf => "-inf"
  | NaN => "nan"
  end.

(** The builtin [str]. *)
Definition py_str (v : value) : string :=
  match v with
  | VNone => "None"
  | VBool true => "True"
  | VBool false => "False"
  | VInt n => int_str n
  | VFloat f => float_str f
  | VStr s => s
  | VBytes b => bytes_repr b
  | VDate d => date_isoformat d
  | VDatetime d => datetime_str d
  | VDecimal d => Decimal_str d
  | VOther o => object_str o
  end.

(** [str(e)] for an exception. *)
Definition str_exn (e : exn) : string :=
  match e with
  | ValueError msg => msg
  | TypeError msg => msg
  | KeyError key => repr_str key
  | ValidationError title errors => validation_error_str title errors
  | DriverError _ msg => msg
  | OverflowError msg => msg
  end.

End Builtins.

(** ** pydantic: field validation with all errors collected *)

Module Pydantic.

Definition error : Type := (string * string)%type.

Inductive validated (A : Type) : Type :=
| Valid (a : A)
| Invalid (errors : list error).
Arguments Valid {A} a.
Arguments Invalid {A} errors.

Definition is_valid {A : Type} (v : validated A) : bool :=
  match v with Valid _ => true | Invalid _ => false end.

(** The fields of a model are validated one after the other and every
    failure is reported, in field order. *)
Definition ap {A B : Type} (f : validated (A -> B)) (x : validated A)
  : validated B :=
  match f, x with
  | Valid g, Valid a => Valid (g a)
  | Valid _, Invalid e => Invalid e
  | Invalid e, Valid _ => Invalid e
  | Invalid e1, Invalid e2 => Invalid (e1 ++ e2)%list
  end.

(** A [field_validator]: a ValueError it raises becomes the error of
    the field. The validators of [types.py] raise nothing else. *)
Definition run_validator {A : Type} (name : string)
           (validator : A -> result A) (v : A) : validated A :=
  match validator v with
  | Ok v' => Valid v'
  | Raise (ValueError msg) => Invalid [(name, "Value error, " ++ msg)]
  | Raise _ => Invalid [(name, "Value error")]
  end.

(** [Field(...)]: a required field. *)
Definition required {A : Type} (name : string) (validator : A -> result A)
           (raw : option A) : validated A :=
  match raw with
  | None => Invalid [(name, "Field required")]
  | Some v => run_validator name validator v
  end.

(** [Field(default)]: the default is taken as it is, not validated. *)
Definition with_default {A : Type} (name : string) (default : A)
           (validator : A -> result A) (raw : option A) : validated A :=
  match raw with
  | None => Valid default
  | Some v => run_validator name validator v
  end.

Definition no_validator {A : Type} (v : A) : result A := Ok v.

Definition construct {A : Type} (title : string) (v : validated A) : result A :=
  match v with
  | Valid a => Ok a
  | Invalid errors => Raise (ValidationError title errors)
  end.

End Pydantic.

Notation "f <*> x" := (Pydantic.ap f x) (at level 50, left associativity) : py_scope.

(** ** types.py *)

Inductive OutputFormat : Type := JSON | CSV | MARKDOWN.

Definition OutputFormat_value (f : OutputFormat) : string :=
  match f with
  | JSON => "json"
  | CSV => "csv"
  | MARKDOWN => "markdown"
  end.

(** Validation of an enum field from the text of its value. *)
Definition OutputFormat_parse (name : string) (raw : string)
  : Pydantic.validated OutputFormat :=
  if (raw =? "json") then Pydantic.Valid JSON
  else if (raw =? "csv") then Pydantic.Valid CSV
  else if (raw =? "markdown") then Pydantic.Valid MARKDOWN
  else Pydantic.Invalid [(name, "Input should be 'json', 'csv' or 'markdown'")].

Module DatabaseConfig.

(** The keyword arguments of the constructor; [None] is an argument
    that is not given. *)
Record kwargs : Type := mk_kwargs {
  kw_host : option string;
  kw_port : option Z;
  kw_database : option string;
  kw_user : option string;
  kw_password : option string;
  kw_pool_min_size : option Z;
  kw_pool_max_size : option Z;
  kw_command_timeout : option pyfloat;
  kw_connection_timeout : option pyfloat
}.

Record t : Type := mk {
  host : string;
  port : Z;
  database : string;
  user : string;
  password : string;
  pool_min_size : Z;
  pool_max_size : Z;
  command_timeout : pyfloat;
  connection_timeout : pyfloat
}.

Definition validate_port (v : Z) : result Z :=
  if negb ((1 <=? v)%Z && (v <=? 65535)%Z) then
    Raise (ValueError "Port must be between 1 and 65535")
  else Ok v.

Definition validate_pool_size (v : Z) : result Z :=
  if (v <? 1)%Z then Raise (ValueError "Pool size must be at least 1")
  else Ok v.

Definition validate_timeout (v : pyfloat) : result pyfloat :=
  if float_le_int v 0 then Raise (ValueError "Timeout must be positive")
  else Ok v.

Definition fields (a : kwargs) : Pydantic.validated t :=
  Pydantic.Valid mk
  <*> Pydantic.required "host" Pydantic.no_validator (kw_host a)
  <*> Pydantic.with_default "port" 5432%Z validate_port (kw_port a)
  <*> Pydantic.required "database" Pydantic.no_validator (kw_database a)
  <*> Pydantic.required "user" Pydantic.no_validator (kw_user a)
  <*> Pydantic.required "password" Pydantic.no_validator (kw_password a)
  <*> Pydantic.with_default "pool_min_size" 2%Z validate_pool_size
        (kw_pool_min_size a)
  <*> Pydantic.with_default "pool_max_size" 10%Z validate_pool_size
        (kw_pool_max_size a)
  <*> Pydantic.with_default "command_timeout" (Finite 60) validate_timeout
        (kw_command_timeout a)
  <*> Pydantic.with_default "connection_timeout" (Finite 10) validate_timeout
        (kw_connection_timeout a).

(** The constructor call: every field validated, then the object built. *)
Definition new (a : kwargs) : result t :=
  Pydantic.construct "DatabaseConfig" (fields a).

(** A required field is not given. *)
Definition required_absent (a : kwargs) : Prop :=
  kw_host a = None \/ kw_database a = None \/ kw_user a = None
  \/ kw_password a = None.

(** A field is given a value outside the bound of that field: a port
    within 1..65535, a pool size of at least 1, a timeout above 0. *)
Definition bound_violated (a : kwargs) : Prop :=
  (exists v, kw_port a = Some v /\ ~ (1 <= v <= 65535)%Z)
  \/ (exists v, kw_pool_min_size a = Some v /\ (v < 1)%Z)
  \/ (exists v, kw_pool_max_size a = Some v /\ (v < 1)%Z)
  \/ (exists v, kw_command_timeout a = Some v /\ ~ float_gt v 0)
  \/ (exists v, kw_connection_timeout a = Some v /\ ~ float_gt v 0).

(** The timeouts that are given are numbers. *)
Definition timeouts_are_numbers (a : kwargs) : Prop :=
  kw_command_timeout a <> Some NaN /\ kw_connection_timeout a <> Some NaN.

End DatabaseConfig.

Module QueryDatabaseInput.

(** The [args] dict of the tool call, by key; [None] is a key that is
    absent (for [timeout], also a JSON null). *)
Record kwargs : Type := mk_kwargs {
  kw_query : option string;
  kw_format : option string;
  kw_timeout : option pyfloat
}.

Record t : Type := mk {
  query : string;
  format : OutputFormat;
  timeout : option pyfloat
}.

Definition validate_timeout (v : option pyfloat) : result (option pyfloat) :=
  match v with
  | Some x =>
      if float_le_int x 0 then Raise (ValueError "Timeout must be positive")
      else if float_gt_int x 300 then
        Raise (ValueError "Timeout cannot exceed 300 seconds")
      else Ok v
  | None => Ok v
  end.

Definition format_field (raw : option string) : Pydantic.validated OutputFormat :=
  match raw with
  | None => Pydantic.Valid JSON
  | Some s => OutputFormat_parse "format" s
  end.

Definition timeout_field (raw : option pyfloat)
  : Pydantic.validated (option pyfloat) :=
  match raw with
  | None => Pydantic.Valid None
  | Some x => Pydantic.run_validator "timeout" validate_timeout (Some x)
  end.

Definition fields (a : kwargs) : Pydantic.validated t :=
  Pydantic.Valid mk
  <*> Pydantic.required "query" Pydantic.no_validator (kw_query a)
  <*> format_field (kw_format a)
  <*> timeout_field (kw_timeout a).

(** The constructor call on the unpacked [args]. *)
Definition new (a : kwargs) : result t :=
  Pydantic.construct "QueryDatabaseInput" (fields a).

End QueryDatabaseInput.

Module GetQueryHistoryInput.

Record kwargs : Type := mk_kwargs { kw_limit : option Z }.

Record t : Type := mk { limit : Z }.

Definition validate_limit (v : Z) : result Z :=
  if (v <? 1)%Z then Raise (ValueError "Limit must be at least 1")
  else if (v >? 100)%Z then Raise (ValueError "Limit cannot exceed 100")
  else Ok v.

Definition fields (a : kwargs) : Pydantic.validated t :=
  Pydantic.Valid mk
  <*> Pydantic.with_default "limit" 20%Z validate_limit (kw_limit a).

(** The constructor call on the unpacked [args]. *)
Definition new (a : kwargs) : result t :=
  Pydantic.construct "GetQueryHistoryInput" (fields a).

End GetQueryHistoryInput.

Module QueryHistoryEntry.

Record t : Type := mk {
  query : string;
  timestamp : datetime;
  execution_time_ms : pyfloat;
  row_count : Z;
  format : OutputFormat;
  success : bool;
  error : option string
}.

End QueryHistoryEntry.

(** ** formatters.py *)

Definition NL : string := String Re.LF EmptyString.

Fixpoint join (sep : string) (parts : list string) : string :=
  match parts with
  | [] => ""
  | [p] => p
  | p :: rest => p ++ sep ++ join sep rest
  end.

Fixpoint repeat_str (s : string) (n : nat) : string :=
  match n with
  | O => ""
  | S n' => s ++ repeat_str s n'
  end.

(** [s.ljust(width)]. *)
Definition ljust (s : string) (width : nat) : string :=
  s ++ repeat_str " " (width - String.length s).

Fixpoint map2 {A B C : Type} (f : A -> B -> C) (l : list A) (m : list B) : list C :=
  match l, m with
  | a :: l', b :: m' => f a b :: map2 f l' m'
  | _, _ => []
  end.

Section Formatters.
Context {rt : PyRuntime}.

Definition serialize_value (v : value) : result value :=
  match v with
  | VDatetime d => Ok (VStr (datetime_isoformat d))
  | VDate d => Ok (VStr (date_isoformat d))
  | VDecimal d => f <- float_of_Decimal d ;; Ok (VFloat f)
  | VBytes b => Ok (VStr (bytes_decode_replace b))
  | VNone => Ok VNone
  | VBool _ | VInt _ | VFloat _ | VStr _ | VOther _ => Ok v
  end.

(** [{key: serialize_value(value) for key, value in row.items()}]. *)
Definition serialize_row (row : Row) : result Row :=
  mapM (fun kv => v <- serialize_value (snd kv) ;; Ok (fst kv, v)) row.

(** *** [json.dumps(rows, indent=2)] *)

Definition json_float (f : pyfloat) : string :=
  match f with
  | Finite _ => float_repr f
  | PosInf => "Infinity"
  | NegInf => "-Infinity"
  | NaN => "NaN"
  end.

Definition json_scalar (v : value) : result string :=
  match v with
  | VNone => Ok "null"
  | VBool true => Ok "true"
  | VBool false => Ok "false"
  | VInt n => Ok (int_str n)
  | VFloat f => Ok (json_float f)
  | VStr s => Ok (json_encode_str s)
  | VBytes _ => Raise (TypeError "Object of type bytes is not JSON serializable")
  | VDate _ => Raise (TypeError "Object of type date is not JSON serializable")
  | VDatetime _ =>
      Raise (TypeError "Object of type datetime is not JSON serializable")
  | VDecimal _ =>
      Raise (TypeError "Object of type Decimal is not JSON serializable")
  | VOther o => object_json o
  end.

Definition json_object (row : Row) : result string :=
  match row with
  | [] => Ok "{}"
  | _ =>
      items <- mapM (fun kv =>
                       t <- json_scalar (snd kv) ;;
                       Ok ("    " ++ json_encode_str (fst kv) ++ ": " ++ t)) row ;;
      Ok ("{" ++ NL ++ join ("," ++ NL) items ++ NL ++ "  }")
  end.

Definition json_dumps_indent2 (rows : list Row) : result string :=
  match rows with
  | [] => Ok "[]"
  | _ =>
      objects <- mapM json_object rows ;;
      Ok ("[" ++ NL ++ join ("," ++ NL) (map (fun o => "  " ++ o) objects)
          ++ NL ++ "]")
  end.

Definition format_as_json (rows : list Row) : result string :=
  serialized_rows <- mapM serialize_row rows ;;
  json_dumps_indent2 serialized_rows.

(** *** [csv.DictWriter] *)

(** What the writer puts in a cell: nothing for [None] and for a
    missing key ([restval]), the value's [str] otherwise. *)
Definition csv_cell (v : option value) : string :=
  match v with
  | None => ""
  | Some VNone => ""
  | Some x => py_str x
  end.

(** [DictWriter._dict_to_list] with [extrasaction="raise"]. The unknown
    keys are a set; the error text lists them in the order of its
    iteration. *)
Definition dict_to_list (fieldnames : list string) (rowdict : Row)
  : result (list string) :=
  let wrong_fields :=
    filter (fun k => negb (existsb (String.eqb k) fieldnames)) (keys rowdict) in
  match wrong_fields with
  | [] => Ok (map (fun key => csv_cell (dict_get rowdict key)) fieldnames)
  | _ =>
      Raise (ValueError ("dict contains fields not in fieldnames: "
                         ++ join ", " (map repr_str (set_order wrong_fields))))
  end.

Definition format_as_csv (rows : list Row) : result string :=
  match rows with
  | [] => Ok ""
  | first :: _ =>
      let columns := keys first in
      let header := csv_writerow columns in
      lines <- mapM (fun row =>
                       serialized_row <- serialize_row row ;;
                       cells <- dict_to_list columns serialized_row ;;
                       Ok (csv_writerow cells)) rows ;;
      Ok (header ++ String.concat "" lines)
  end.

(** *** Markdown *)

(** [str(serialize_value(row[col]))]. *)
Definition markdown_cell (row : Row) (col : string) : result string :=
  match dict_get row col with
  | None => Raise (KeyError col)
  | Some v => s <- serialize_value v ;; Ok (py_str s)
  end.

Definition markdown_line (parts : list string) : string :=
  "|" ++ join "|" parts ++ "|".

Definition format_as_markdown (rows : list Row) : result string :=
  match rows with
  | [] => Ok "No results"
  | first :: _ =>
      let columns := keys first in
      (* the cell texts, row by row, in the order the source computes them *)
      cells <- mapM (fun row => mapM (markdown_cell row) columns) rows ;;
      let col_widths :=
        fold_left (fun widths row_cells =>
                     map2 Nat.max widths (map String.length row_cells))
                  cells (map String.length columns) in
      let pad := fun text width => " " ++ ljust text width ++ " " in
      let header_parts := map2 pad columns col_widths in
      let separator_parts := map (fun width => repeat_str "-" (width + 2)) col_widths in
      let row_lines :=
        map (fun row_cells => markdown_line (map2 pad row_cells col_widths)) cells in
      Ok (join NL (markdown_line header_parts
                   :: markdown_line separator_parts :: row_lines))
  end.

Definition format_rows (rows : list Row) (format_type : OutputFormat)
  : result string :=
  match format_type with
  | JSON => format_as_json rows
  | CSV => format_as_csv rows
  | MARKDOWN => format_as_markdown rows
  end.

End Formatters.

(** ** history.py *)

(** [l[:stop]]: a negative [stop] counts from the end. *)
Definition slice_to {A : Type} (l : list A) (stop : Z) : list A :=
  if (0 <=? stop)%Z then firstn (Z.to_nat stop) l
  else firstn (length l - Z.to_nat (- stop)) l.

(** [collections.deque.append] on a deque built with [maxlen]: the item
    goes to the right end, and when that makes the deque longer than
    [maxlen] the leftmost item is discarded. *)
Definition deque_append {A : Type} (maxlen : nat) (d : list A) (x : A) : list A :=
  let d' := (d ++ [x])%list in
  if (maxlen <? length d')%nat then tl d' else d'.

(** The last [n] items of a list. *)
Definition lastn {A : Type} (n : nat) (l : list A) : list A :=
  skipn (length l - n) l.

Module QueryHistory.

(** The deque, oldest entry first, and its [maxlen]. *)
Record t : Type := mk {
  maxlen : nat;
  _history : list QueryHistoryEntry.t
}.

(** [QueryHistory(max_size)]. *)
Definition init (max_size : nat) : t := mk max_size [].

(** [self._history.append(entry)]. *)
Definition record (self : t) (entry : QueryHistoryEntry.t) : t :=
  mk (maxlen self) (deque_append (maxlen self) (_history self) entry).

(** [now] is what [datetime.now()] returns in the call. *)
Definition add_query (self : t) (now : datetime) (query : string)
           (execution_time_ms : pyfloat) (row_count : Z)
           (format_type : OutputFormat) (success : bool)
           (error : option string) : t :=
  let entry :=
    QueryHistoryEntry.mk query now execution_time_ms row_count format_type
                         success error in
  record self entry.

Definition get_recent (self : t) (limit : Z) : list QueryHistoryEntry.t :=
  let all_entries := _history self in
  let all_entries := rev all_entries in
  slice_to all_entries limit.

Definition clear (self : t) : t := mk (maxlen self) [].

Definition get_count (self : t) : Z := Z.of_nat (length (_history self)).

(** The operations that change a history. *)
Inductive op : Type :=
| OpRecord (entry : QueryHistoryEntry.t)
| OpClear.

Definition apply (self : t) (o : op) : t :=
  match o with
  | OpRecord entry => record self entry
  | OpClear => clear self
  end.

Definition run (self : t) (ops : list op) : t := fold_left apply ops self.

(** The invariant of the buffer. *)
Definition bounded (self : t) : Prop := length (_history self) <= maxlen self.

(** [entries] recorded one after the other, the head first. *)
Definition record_all (self : t) (entries : list QueryHistoryEntry.t) : t :=
  fold_left record entries self.

End QueryHistory.

(** ** tools.py, with the singletons of database.py and history.py *)

(** The pool as the handlers see it: [execute_readonly_query] answers a
    statement and an optional timeout with rows or with an exception. *)
Record DatabasePool : Type := {
  execute_readonly_query : string -> option pyfloat -> result (list Row)
}.

(** The calls a handler makes to the pool and to the history buffer. *)
Inductive event : Type :=
| DbExecute (query : string) (timeout : option pyfloat)
| HistoryAppend (entry : QueryHistoryEntry.t)
| HistoryRead (limit : Z).

Record World : Type := mkWorld {
  _db_pool : option DatabasePool;
  QUERY_HISTORY_SIZE : nat;
    (* the capacity that the environment variable stands for, used when
       the history is first needed; the text of the variable, and a text
       that is not a capacity, are with the handlers of the last section
       of this part *)
  _query_history : option QueryHistory.t;
  trace : list event
    (* the calls made so far, oldest first *)
}.

Definition get_database_pool (w : World) : result DatabasePool :=
  match _db_pool w with
  | None =>
      Raise (ValueError "Database pool not initialized. Call initialize_pool() first.")
  | Some pool => Ok pool
  end.

Definition set_query_history (w : World) (h : QueryHistory.t) : World :=
  mkWorld (_db_pool w) (QUERY_HISTORY_SIZE w) (Some h) (trace w).

Definition emit (w : World) (e : event) : World :=
  mkWorld (_db_pool w) (QUERY_HISTORY_SIZE w) (_query_history w)
          (trace w ++ [e])%list.

(** The global history, created on first use, in a process whose
    QUERY_HISTORY_SIZE is unset or the text of a capacity. *)
Definition get_query_history (w : World) : QueryHistory.t * World :=
  match _query_history w with
  | Some h => (h, w)
  | None =>
      let h := QueryHistory.init (QUERY_HISTORY_SIZE w) in
      (h, set_query_history w h)
  end.

(** [get_query_history().add_query(...)]: the singleton is updated in
    place. *)
Definition history_add_query (w : World) (now : datetime) (query : string)
           (execution_time_ms : pyfloat) (row_count : Z)
           (format_type : OutputFormat) (success : bool)
           (error : option string) : World :=
  let '(h, w) := get_query_history w in
  let entry :=
    QueryHistoryEntry.mk query now execution_time_ms row_count format_type
                         success error in
  emit (set_query_history
          w (QueryHistory.add_query h now query execution_time_ms row_count
                                    format_type success error))
       (HistoryAppend entry).

(** What the clock gives during one call: the elapsed time the handler
    measures, in milliseconds, and the time of day when it records. *)
Record Clock : Type := {
  elapsed_ms : pyfloat;
  now : datetime
}.

Module QueryResult.

Record t : Type := mk {
  rows : list Row;
  row_count : Z;
  columns : list string;
  execution_time_ms : pyfloat;
  format : string;
  formatted_output : string
}.

End QueryResult.

Module HistoryItem.

Record t : Type := mk {
  query : string;
  timestamp : string;
  execution_time_ms : pyfloat;
  row_count : Z;
  format : string;
  success : bool;
  error : option string
}.

End HistoryItem.

Section Tools.
Context {rt : PyRuntime}.

Definition query_database_tool (args : QueryDatabaseInput.kwargs)
           (clock : Clock) (w : World) : result QueryResult.t * World :=
  (* Validate input *)
  match QueryDatabaseInput.new args with
  | Raise e => (Raise e, w)
  | Ok input_data =>
      (* Validate query *)
      match validate_query (QueryDatabaseInput.query input_data) with
      | Raise e => (Raise e, w)
      | Ok _ =>
          (* Get database pool *)
          match get_database_pool w with
          | Raise e => (Raise e, w)
          | Ok db =>
              (* try: *)
              let w :=
                emit w (DbExecute (QueryDatabaseInput.query input_data)
                                  (QueryDatabaseInput.timeout input_data)) in
              let attempt :=
                rows <- execute_readonly_query
                          db (QueryDatabaseInput.query input_data)
                          (QueryDatabaseInput.timeout input_data) ;;
                let columns :=
                  match rows with
                  | first :: _ => keys first
                  | [] => []
                  end in
                formatted_output <-
                  format_rows rows (QueryDatabaseInput.format input_data) ;;
                Ok (rows, columns, formatted_output) in
              match attempt with
              | Ok (rows, columns, formatted_output) =>
                  let w :=
                    history_add_query
                      w (now clock) (QueryDatabaseInput.query input_data)
                      (elapsed_ms clock) (Z.of_nat (length rows))
                      (QueryDatabaseInput.format input_data) true None in
                  (Ok (QueryResult.mk
                         rows (Z.of_nat (length rows)) columns
                         (round2 (elapsed_ms clock))
                         (OutputFormat_value (QueryDatabaseInput.format input_data))
                         formatted_output),
                   w)
              | Raise e =>
                  (* except Exception as e: *)
                  let w :=
                    history_add_query
                      w (now clock) (QueryDatabaseInput.query input_data)
                      (elapsed_ms clock) 0%Z
                      (QueryDatabaseInput.format input_data) false
                      (Some (str_exn e)) in
                  (Raise e, w)
              end
          end
      end
  end.

Definition history_item (entry : QueryHistoryEntry.t) : HistoryItem.t :=
  HistoryItem.mk
    (QueryHistoryEntry.query entry)
    (datetime_isoformat (QueryHistoryEntry.timestamp entry))
    (QueryHistoryEntry.execution_time_ms entry)
    (QueryHistoryEntry.row_count entry)
    (OutputFormat_value (QueryHistoryEntry.format entry))
    (QueryHistoryEntry.success entry)
    (QueryHistoryEntry.error entry).

Definition get_query_history_tool (args : GetQueryHistoryInput.kwargs)
           (w : World) : result (list HistoryItem.t) * World :=
  match GetQueryHistoryInput.new args with
  | Raise e => (Raise e, w)
  | Ok input_data =>
      let '(history, w) := get_query_history w in
      let w := emit w (HistoryRead (GetQueryHistoryInput.limit input_data)) in
      let recent_queries :=
        QueryHistory.get_recent history (GetQueryHistoryInput.limit input_data) in
      (Ok (map history_item recent_queries), w)
  end.

End Tools.

(** *** What the handlers are checked against *)

(** The entries that the calls of a trace appended to the history. *)
Definition appended (tr : list event) : list QueryHistoryEntry.t :=
  flat_map (fun e => match e with HistoryAppend x => [x] | _ => [] end) tr.

(** The history buffer a handler finds in [w]. *)
Definition history_of (w : World) : QueryHistory.t := fst (get_query_history w).

(** ** Sample data *)

Module Sample.

(** A runtime with fixed outputs, for running the model on examples. *)
Definition runtime : PyRuntime := {|
  date_isoformat := fun _ => "2024-01-01";
  datetime_isoformat := fun _ => "2024-01-01T00:00:00";
  datetime_str := fun _ => "2024-01-01 00:00:00";
  Decimal_str := fun _ => "0";
  float_of_Decimal := fun _ => Ok (Finite 0);
  bytes_decode_replace := fun _ => "";
  bytes_repr := fun _ => "b''";
  repr_str := fun s => "'" ++ s ++ "'";
  float_repr := fun _ => "0.0";
  json_encode_str := fun s => String (ascii_of_nat 34) s ++ String (ascii_of_nat 34) "";
  csv_writerow := fun cells => join "," cells ++ String (ascii_of_nat 13) NL;
  validation_error_str := fun title _ => "1 validation error for " ++ title;
  round2 := fun x => x;
  object_str := fun o => object_text o;
  object_json := fun o =>
    Raise (TypeError ("Object of type " ++ type_name o
                      ++ " is not JSON serializable"));
  set_order := fun l => l
|}.

Definition midnight : datetime :=
  mk_datetime (mk_date 2024 1 1) 0 0 0 0 None.

Definition clock : Clock := {| elapsed_ms := Finite 3; now := midnight |}.

(** The [n]-th query of a session. *)
Definition entry (n : Z) : QueryHistoryEntry.t :=
  QueryHistoryEntry.mk ("SELECT " ++ int_str n) midnight (Finite 1) 1 JSON true None.

(** A pool that answers every statement with the one row [x = 1]. *)
Definition pool_one_row : DatabasePool :=
  {| execute_readonly_query := fun _ _ => Ok [[("x", VInt 1)]] |}.

(** A pool on which every statement times out. *)
Definition pool_timeout : DatabasePool :=
  {| execute_readonly_query := fun _ _ =>
       Raise (ValueError "Query execution timeout after 1.0 seconds") |}.

(** A pool that sets the statement timeout the way database.py does,
    from [int(timeout * 1000)], which raises on NaN once the connection
    is leased and the transaction is open. *)
Definition pool_sets_timeout : DatabasePool :=
  {| execute_readonly_query := fun _ timeout =>
       match timeout with
       | Some NaN => Raise (ValueError "cannot convert float NaN to integer")
       | _ => Ok [[("x", VInt 1)]]
       end |}.

Definition world (pool : DatabasePool) : World :=
  mkWorld (Some pool) 100 None [].

End Sample.

(** ** Notions used to state further properties *)

(** [out] is [s] with some of its characters deleted, the others kept in
    their order. *)
Inductive deleted_from : string -> string -> Prop :=
| deleted_nil : deleted_from "" ""
| deleted_keep (c : ascii) (out s : string) :
    deleted_from out s -> deleted_from (String c out) (String c s)
| deleted_drop (c : ascii) (out s : string) :
    deleted_from out s -> deleted_from out (String c s).

(** [needle] occurs in [s]. *)
Definition contains_text (needle s : string) : Prop :=
  exists pre post, s = pre ++ needle ++ post.

(** The 26 capitals of [s] put in lower case. *)
Fixpoint lower_string (s : string) : string :=
  match s with
  | EmptyString => EmptyString
  | String c s' => String (Re.ascii_lower c) (lower_string s')
  end.

(** [c] is a character of [s]. *)
Fixpoint char_in (c : ascii) (s : string) : Prop :=
  match s with
  | EmptyString => False
  | String d s' => d = c \/ char_in c s'
  end.

(** The history buffer of [w], if there is one yet, is within its
    capacity. *)
Definition world_history_bounded (w : World) : Prop :=
  match _query_history w with
  | Some h => QueryHistory.bounded h
  | None => True
  end.

(** Every cell of [rows] is one that [serialize_value] returns a value
    for. *)
Definition serializable_rows (rt : PyRuntime) (rows : list Row) : Prop :=
  forall row, In row rows ->
  forall kv, In kv row -> is_ok (serialize_value (snd kv)) = true.

(** Every cell of [rows] is one that [format_as_json] can write: a
    Decimal must be one that [float] accepts, an object of another type
    must be one that [json.dumps] knows; the other kinds of cell are
    under no condition. *)
Definition json_serializable_rows (rt : PyRuntime) (rows : list Row) : Prop :=
  forall row, In row rows ->
  forall kv, In kv row ->
  match snd kv with
  | VDecimal d => is_ok (float_of_Decimal d) = true
  | VOther o => is_ok (object_json o) = true
  | _ => True
  end.

(** The columns of a row set: the keys of its first row. *)
Definition columns_of (rows : list Row) : list string :=
  match rows with
  | first :: _ => keys first
  | [] => []
  end.

(** ** config.py *)

(** The process environment as [os.getenv] reads it, once the .env file
    is loaded. *)
Definition Environ : Type := string -> option string.

(** [int(s)] and [float(s)] on the text of a variable; both raise
    ValueError on a text that is not a number. *)
Class PyNumberParsing : Type := {
  int_of_str : string -> result Z;
  float_of_str : string -> result pyfloat
}.

(** [os.getenv(name, default)]. *)
Definition getenv_default (env : Environ) (name default : string) : string :=
  match env name with
  | Some v => v
  | None => default
  end.

(** The truth value of an optional [str]: [None] and the empty string
    are false. *)
Definition truthy (o : option string) : bool :=
  match o with
  | Some s => negb (s =? "")
  | None => false
  end.

(** A keyword argument of type [str] that is passed in any case, with
    [None] when the variable is unset. *)
Definition str_argument (name : string) (o : option string)
  : Pydantic.validated string :=
  match o with
  | Some s => Pydantic.Valid s
  | None => Pydantic.Invalid [(name, "Input should be a valid string")]
  end.

Definition missing_variables_message (missing : list string) : string :=
  "Missing required environment variables: " ++ join ", " missing
  ++ ". Please create a .env file based on .env.example".

Section Config.
Context {np : PyNumberParsing}.

(** [get_config()]; the cache keeps the first configuration returned,
    and the environment is read once. *)
Definition get_config (env : Environ) : result DatabaseConfig.t :=
  let host := env "POSTGRES_HOST" in
  let database := env "POSTGRES_DATABASE" in
  let user := env "POSTGRES_USER" in
  let password := env "POSTGRES_PASSWORD" in
  if negb (truthy host && truthy database && truthy user) then
    let missing :=
      ((if negb (truthy host) then ["POSTGRES_HOST"] else [])
       ++ (if negb (truthy database) then ["POSTGRES_DATABASE"] else [])
       ++ (if negb (truthy user) then ["POSTGRES_USER"] else []))%list in
    Raise (ValueError (missing_variables_message missing))
  else
    port <- int_of_str (getenv_default env "POSTGRES_PORT" "5432") ;;
    pool_min_size <- int_of_str (getenv_default env "POSTGRES_POOL_MIN_SIZE" "2") ;;
    pool_max_size <- int_of_str (getenv_default env "POSTGRES_POOL_MAX_SIZE" "10") ;;
    command_timeout <-
      float_of_str (getenv_default env "POSTGRES_COMMAND_TIMEOUT" "60.0") ;;
    connection_timeout <-
      float_of_str (getenv_default env "POSTGRES_CONNECTION_TIMEOUT" "10.0") ;;
    Pydantic.construct
      "DatabaseConfig"
      (Pydantic.Valid DatabaseConfig.mk
       <*> str_argument "host" host
       <*> Pydantic.run_validator "port" DatabaseConfig.validate_port port
       <*> str_argument "database" database
       <*> str_argument "user" user
       <*> str_argument "password" password
       <*> Pydantic.run_validator "pool_min_size"
             DatabaseConfig.validate_pool_size pool_min_size
       <*> Pydantic.run_validator "pool_max_size"
             DatabaseConfig.validate_pool_size pool_max_size
       <*> Pydantic.run_validator "command_timeout"
             DatabaseConfig.validate_timeout command_timeout
       <*> Pydantic.run_validator "connection_timeout"
             DatabaseConfig.validate_timeout connection_timeout).

End Config.

(** The three variables that [get_config] asks for by name. *)
Definition REQUIRED_VARIABLES : list string :=
  ["POSTGRES_HOST"; "POSTGRES_DATABASE"; "POSTGRES_USER"].

Module SampleEnv.

(** Number parsing on the few texts the examples use. *)
Definition parsing : PyNumberParsing := {|
  int_of_str := fun s =>
    if (s =? "5432") then Ok 5432%Z
    else if (s =? "2") then Ok 2%Z
    else if (s =? "10") then Ok 10%Z
    else Raise (ValueError ("invalid literal for int() with base 10: '" ++ s ++ "'"));
  float_of_str := fun s =>
    if (s =? "60.0") then Ok (Finite 60)
    else if (s =? "10.0") then Ok (Finite 10)
    else Raise (ValueError ("could not convert string to float: '" ++ s ++ "'"))
|}.

Definition complete : Environ := fun name =>
  if (name =? "POSTGRES_HOST") then Some "localhost"
  else if (name =? "POSTGRES_DATABASE") then Some "app"
  else if (name =? "POSTGRES_USER") then Some "reader"
  else if (name =? "POSTGRES_PASSWORD") then Some "secret"
  else None.

(** No password, and a port that is not a number. *)
Definition no_password : Environ := fun name =>
  if (name =? "POSTGRES_HOST") then Some "localhost"
  else if (name =? "POSTGRES_DATABASE") then Some "app"
  else if (name =? "POSTGRES_USER") then Some "reader"
  else None.

(** An empty host, no user, and a port that is not a number. *)
Definition incomplete : Environ := fun name =>
  if (name =? "POSTGRES_HOST") then Some ""
  else if (name =? "POSTGRES_DATABASE") then Some "app"
  else if (name =? "POSTGRES_PORT") then Some "five"
  else None.

End SampleEnv.

(** ** tools.py, with the history created from the environment *)

(** [sys.maxsize] of a 64-bit build. *)
Definition PY_SSIZE_T_MAX : Z := 9223372036854775807.

(** [deque(maxlen=max_size)]: the capacity of the deque, or the error
    for a size that is negative or does not fit a machine word. *)
Definition deque_maxlen (max_size : Z) : result nat :=
  if (max_size <? 0)%Z then Raise (ValueError "maxlen must be non-negative")
  else if (PY_SSIZE_T_MAX <? max_size)%Z then
    Raise (OverflowError "Python int too large to convert to C ssize_t")
  else Ok (Z.to_nat max_size).

Section HistoryFromEnvironment.
Context {rt : PyRuntime} {np : PyNumberParsing}.

(** config.py. *)
Definition get_query_history_size (env : Environ) : result Z :=
  int_of_str (getenv_default env "QUERY_HISTORY_SIZE" "100").

(** [QueryHistory()]: [max_size] is left to the configuration. *)
Definition new_query_history (env : Environ) : result QueryHistory.t :=
  max_size <- get_query_history_size env ;;
  maxlen <- deque_maxlen max_size ;;
  Ok (QueryHistory.init maxlen).

(** [get_query_history()]: the global history, created on first use from
    the environment; when that raises, the global stays unset. The field
    [QUERY_HISTORY_SIZE] of the world is not looked at. *)
Definition get_query_history_env (env : Environ) (w : World)
  : result (QueryHistory.t * World) :=
  match _query_history w with
  | Some h => Ok (h, w)
  | None =>
      h <- new_query_history env ;;
      Ok (h, set_query_history w h)
  end.

(** [get_query_history().add_query(...)]. *)
Definition history_add_query_env (env : Environ) (w : World) (now : datetime)
           (query : string) (execution_time_ms : pyfloat) (row_count : Z)
           (format_type : OutputFormat) (success : bool)
           (error : option string) : result World :=
  found <- get_query_history_env env w ;;
  let '(h, w) := found in
  let entry :=
    QueryHistoryEntry.mk query now execution_time_ms row_count format_type
                         success error in
  Ok (emit (set_query_history
              w (QueryHistory.add_query h now query execution_time_ms row_count
                                        format_type success error))
           (HistoryAppend entry)).

Definition query_database_tool_env (env : Environ)
           (args : QueryDatabaseInput.kwargs) (clock : Clock) (w : World)
  : result QueryResult.t * World :=
  (* Validate input *)
  match QueryDatabaseInput.new args with
  | Raise e => (Raise e, w)
  | Ok input_data =>
      (* Validate query *)
      match validate_query (QueryDatabaseInput.query input_data) with
      | Raise e => (Raise e, w)
      | Ok _ =>
          (* Get database pool *)
          match get_database_pool w with
          | Raise e => (Raise e, w)
          | Ok db =>
              (* try: *)
              let w :=
                emit w (DbExecute (QueryDatabaseInput.query input_data)
                                  (QueryDatabaseInput.timeout input_data)) in
              let attempt :=
                rows <- execute_readonly_query
                          db (QueryDatabaseInput.query input_data)
                          (QueryDatabaseInput.timeout input_data) ;;
                let columns :=
                  match rows with
                  | first :: _ => keys first
                  | [] => []
                  end in
                formatted_output <-
                  format_rows rows (QueryDatabaseInput.format input_data) ;;
                (* Track in history *)
                w <- history_add_query_env
                       env w (now clock) (QueryDatabaseInput.query input_data)
                       (elapsed_ms clock) (Z.of_nat (length rows))
                       (QueryDatabaseInput.format input_data) true None ;;
                Ok (QueryResult.mk
                      rows (Z.of_nat (length rows)) columns
                      (round2 (elapsed_ms clock))
                      (OutputFormat_value (QueryDatabaseInput.format input_data))
                      formatted_output,
                    w) in
              match attempt with
              | Ok (result, w) => (Ok result, w)
              | Raise e =>
                  (* except Exception as e: *)
                  match history_add_query_env
                          env w (now clock) (QueryDatabaseInput.query input_data)
                          (elapsed_ms clock) 0%Z
                          (QueryDatabaseInput.format input_data) false
                          (Some (str_exn e)) with
                  | Ok w => (Raise e, w)
                  | Raise e' => (Raise e', w)
                  end
              end
          end
      end
  end.

Definition get_query_history_tool_env (env : Environ)
           (args : GetQueryHistoryInput.kwargs) (w : World)
  : result (list HistoryItem.t) * World :=
  match GetQueryHistoryInput.new args with
  | Raise e => (Raise e, w)
  | Ok input_data =>
      match get_query_history_env env w with
      | Raise e => (Raise e, w)
      | Ok (history, w) =>
          let w := emit w (HistoryRead (GetQueryHistoryInput.limit input_data)) in
          let recent_queries :=
            QueryHistory.get_recent history
                                    (GetQueryHistoryInput.limit input_data) in
          (Ok (map history_item recent_queries), w)
      end
  end.

End HistoryFromEnvironment.

(** The history is there, or the environment gives it a capacity:
    QUERY_HISTORY_SIZE is unset or a text that [int] reads as a size
    that [deque] takes. *)
Definition history_usable (np : PyNumberParsing) (env : Environ) (w : World)
  : Prop :=
  _query_history w <> None
  \/ exists n, get_query_history_size env = Ok n
               /\ (0 <= n <= PY_SSIZE_T_MAX)%Z.

(** The capacity in [w] is the one that the environment gives. *)
Definition capacity_from (np : PyNumberParsing) (env : Environ) (w : World)
  : Prop :=
  new_query_history env = Ok (QueryHistory.init (QUERY_HISTORY_SIZE w)).

Module SampleHistory.

(** Number parsing on the sizes the examples use. *)
Definition parsing : PyNumberParsing := {|
  int_of_str := fun s =>
    if (s =? "100") then Ok 100%Z
    else if (s =? "2") then Ok 2%Z
    else if (s =? "-1") then Ok (-1)%Z
    else Raise (ValueError ("invalid literal for int() with base 10: '" ++ s ++ "'"));
  float_of_str := fun s =>
    Raise (ValueError ("could not convert string to float: '" ++ s ++ "'"))
|}.

(** QUERY_HISTORY_SIZE is unset. *)
Definition unset : Environ := fun _ => None.

(** QUERY_HISTORY_SIZE is a text that is not a number. *)
Definition size_many : Environ := fun name =>
  if (name =? "QUERY_HISTORY_SIZE") then Some "many" else None.

(** QUERY_HISTORY_SIZE is a negative number. *)
Definition size_negative : Environ := fun name =>
  if (name =? "QUERY_HISTORY_SIZE") then Some "-1" else None.

(** A world whose history of capacity 2 is full. *)
Definition world_full (pool : DatabasePool) : World :=
  mkWorld (Some pool) 2
          (Some (QueryHistory.mk 2 [Sample.entry 0; Sample.entry 1])) [].

End SampleHistory.

(* ================================================================== *)
(** * Part II: properties *)
(* ================================================================== *)

Unset Implicit Arguments.

(** ** Strings *)

Lemma string_app_assoc (a b c : string) : (a ++ b) ++ c = a ++ b ++ c.
Proof. induction a as [|x a IH]; simpl; [reflexivity | now rewrite IH]. Qed.

Lemma string_app_length (a b : string) :
  String.length (a ++ b) = String.length a + String.length b.
Proof. induction a as [|x a IH]; simpl; [reflexivity | now rewrite IH]. Qed.



(** ** Characters *)

Module ReFacts.
Import Re.

Ltac each_char c :=
  destruct c as [b0 b1 b2 b3 b4 b5 b6 b7];
  destruct b0, b1, b2, b3, b4, b5, b6, b7;
  vm_compute; try reflexivity; try discriminate; auto.

Lemma lower_of_letter (c : ascii) :
  is_ascii_letter c = true -> is_ascii_letter (ascii_lower c) = true.
Proof. each_char c. Qed.

Lemma letter_of_lower (c : ascii) :
  is_ascii_letter (ascii_lower c) = true -> is_ascii_letter c = true.
Proof. each_char c. Qed.

Lemma letter_is_word (c : ascii) :
  is_ascii_letter c = true -> is_word_char c = true.
Proof. unfold is_word_char; intros ->; reflexivity. Qed.



Lemma identifier_char_not_LF (c : ascii) :
  is_identifier_char c = true -> (c =? LF)%char = false.
Proof. each_char c. Qed.

(** A text character that matches a letter of the pattern is a letter. *)
Lemma ci_match_letter (p c : ascii) :
  is_ascii_letter p = true -> ci_char_match p c = true ->
  is_ascii_letter c = true.
Proof.
  unfold ci_char_match; intros Hp H.
  apply Ascii.eqb_eq in H. apply letter_of_lower. rewrite <- H.
  now apply lower_of_letter.
Qed.

(** *** The literal under IGNORECASE *)

Lemma match_literal_ci_spec (lit : string) :
  forall prev s last rest,
    match_literal_ci lit prev s = Some (last, rest) <->
    exists mid, s = mid ++ rest /\ ci_equal lit mid = true
                /\ last = last_or prev mid.
Proof.
  induction lit as [|p lit IH]; intros prev s last rest; simpl.
  - split.
    + intros H; injection H as <- <-. exists ""; auto.
    + intros ([|c mid] & -> & Hci & ->); simpl in *; [reflexivity | discriminate].
  - destruct s as [|c s].
    + split; [discriminate |].
      intros ([|c mid] & Hs & Hci & _); simpl in *; discriminate.
    + destruct (ci_char_match p c) eqn:Hpc.
      * rewrite IH. split.
        -- intros (mid & -> & Hci & ->). exists (String c mid); simpl.
           rewrite Hpc; auto.
        -- intros ([|d mid] & Hs & Hci & ->); simpl in *; [discriminate |].
           injection Hs as <- ->.
           apply andb_true_iff in Hci as [_ Hci]. exists mid; auto.
      * split; [discriminate |].
        intros ([|d mid] & Hs & Hci & _); simpl in *; [discriminate |].
        injection Hs as <- ->. rewrite Hpc in Hci. discriminate.
Qed.

(** An occurrence of an all-letter keyword starts and ends with a word
    character. *)
Lemma ci_equal_letters (kw : string) :
  forall mid prev,
    kw <> "" -> all_chars is_ascii_letter kw = true ->
    ci_equal kw mid = true ->
    is_word_opt (head mid) = true /\ is_word_opt (last_or prev mid) = true
    /\ (forall rest, head (mid ++ rest) = head mid).
Proof.
  induction kw as [|p kw IH]; intros mid prev Hne Hall Hci; [congruence |].
  destruct mid as [|c mid]; simpl in Hci; [discriminate |].
  simpl in Hall. apply andb_true_iff in Hall as [Hp Hall].
  apply andb_true_iff in Hci as [Hpc Hci].
  pose proof (letter_is_word _ (ci_match_letter _ _ Hp Hpc)) as Hc.
  simpl. split; [exact Hc | split; [| reflexivity]].
  destruct kw as [|p' kw].
  - destruct mid; simpl in Hci; [exact Hc | discriminate].
  - apply (IH mid (Some c)); [discriminate | exact Hall | exact Hci].
Qed.

Section Keyword.
Variable kw : string.
Hypothesis kw_nonempty : kw <> "".
Hypothesis kw_letters : all_chars is_ascii_letter kw = true.

Lemma word_pattern_at_spec (prev : option ascii) (s : string) :
  word_pattern_at kw prev s = true <->
  exists mid post, s = mid ++ post /\ ci_equal kw mid = true
                   /\ is_word_opt prev = false
                   /\ is_word_opt (head post) = false.
Proof.
  unfold word_pattern_at, at_word_boundary. split.
  - intros H. apply andb_true_iff in H as [Hb H].
    destruct (match_literal_ci kw prev s) as [[last rest]|] eqn:Hm;
      [| discriminate].
    apply match_literal_ci_spec in Hm as (mid & -> & Hci & ->).
    destruct (ci_equal_letters kw mid prev kw_nonempty kw_letters Hci)
      as (Hh & Hl & Hhd).
    rewrite Hhd, Hh in Hb. rewrite Hl in H.
    exists mid, rest. repeat split; auto.
    + now destruct (is_word_opt prev).
    + now destruct (is_word_opt (head rest)).
  - intros (mid & post & -> & Hci & Hprev & Hpost).
    destruct (ci_equal_letters kw mid prev kw_nonempty kw_letters Hci)
      as (Hh & Hl & Hhd).
    rewrite Hhd, Hh, Hprev. simpl.
    assert (Hm : match_literal_ci kw prev (mid ++ post)
                 = Some (last_or prev mid, post))
      by (apply match_literal_ci_spec; exists mid; auto).
    rewrite Hm, Hl, Hpost. reflexivity.
Qed.

Lemma search_word_from_spec (s : string) :
  forall prev,
    search_word_from kw prev s = true <->
    exists pre mid post,
      s = pre ++ mid ++ post /\ ci_equal kw mid = true
      /\ is_word_opt (last_or prev pre) = false
      /\ is_word_opt (head post) = false.
Proof.
  induction s as [|c s IH]; intros prev; simpl.
  - rewrite orb_false_r, word_pattern_at_spec. split.
    + intros (mid & post & Hs & Hci & Hp & Hq).
      exists "", mid, post; auto.
    + intros ([|x pre] & mid & post & Hs & Hci & Hp & Hq);
        [| discriminate].
      exists mid, post; auto.
  - rewrite orb_true_iff, word_pattern_at_spec, IH. split.
    + intros [(mid & post & Hs & Hci & Hp & Hq)
             | (pre & mid & post & Hs & Hci & Hp & Hq)].
      * exists "", mid, post; auto.
      * exists (String c pre), mid, post; simpl; rewrite Hs; auto.
    + intros ([|x pre] & mid & post & Hs & Hci & Hp & Hq); simpl in *.
      * left. exists mid, post; auto.
      * injection Hs as <- ->. right. exists pre, mid, post; auto.
Qed.

(** The search of the validator against the occurrence it stands for. *)
Lemma search_word_spec (text : string) :
  search_word kw text = true <-> occurs_as_word kw text.
Proof. apply search_word_from_spec. Qed.


End Keyword.

(** *** Blank text *)

Lemma rstrip_empty (s : string) :
  rstrip s = "" -> all_chars is_space s = true.
Proof.
  induction s as [|c s IH]; simpl; [reflexivity |].
  destruct (rstrip s); [| discriminate].
  destruct (is_space c); [intros _; now apply IH | discriminate].
Qed.

Lemma rstrip_blank (s : string) :
  all_chars is_space s = true -> rstrip s = "".
Proof.
  induction s as [|c s IH]; simpl; [reflexivity |].
  intros H. apply andb_true_iff in H as [Hc Hs].
  now rewrite (IH Hs), Hc.
Qed.

Lemma drop_while_blank (s : string) :
  all_chars is_space (drop_while is_space s) = true ->
  all_chars is_space s = true.
Proof.
  induction s as [|c s IH]; simpl; [reflexivity |].
  destruct (is_space c) eqn:Hc; simpl; [exact IH |].
  now rewrite Hc.
Qed.

Lemma strip_empty_iff (s : string) :
  strip s = "" <-> all_chars is_space s = true.
Proof.
  unfold strip, lstrip. split.
  - intros H. now apply drop_while_blank, rstrip_empty.
  - intros H. apply rstrip_blank.
    induction s as [|c s IH]; simpl in *; [reflexivity |].
    apply andb_true_iff in H as [Hc Hs]. rewrite Hc. now apply IH.
Qed.




(** *** The identifier pattern *)

Lemma drop_while_all (p : ascii -> bool) (s : string) :
  all_chars p s = true -> drop_while p s = "".
Proof.
  induction s as [|c s IH]; simpl; [reflexivity |].
  intros H. apply andb_true_iff in H as [Hc Hs]. now rewrite Hc, IH.
Qed.

Lemma match_identifier_within (s : string) :
  s <> "" -> all_chars is_identifier_char s = true ->
  match_identifier s = true.
Proof.
  destruct s as [|c s]; [congruence |]. simpl. intros _ H.
  apply andb_true_iff in H as [Hc Hs].
  now rewrite Hc, (drop_while_all _ _ Hs).
Qed.

End ReFacts.

(** ** validators.py *)

Lemma forbidden_keyword_shape (kw : string) :
  In kw FORBIDDEN_KEYWORDS ->
  kw <> "" /\ Re.all_chars Re.is_ascii_letter kw = true.
Proof.
  unfold FORBIDDEN_KEYWORDS; simpl.
  intros H; repeat (destruct H as [<- | H]; [split; [discriminate | reflexivity] |]).
  contradiction.
Qed.

Lemma search_forbidden_keyword (kw text : string) :
  In kw FORBIDDEN_KEYWORDS ->
  (Re.search_word kw text = true <-> occurs_as_word kw text).
Proof.
  intros Hin. destruct (forbidden_keyword_shape _ Hin) as [Hne Hall].
  now apply ReFacts.search_word_spec.
Qed.



Lemma validate_query_blank (q : string) :
  Re.strip q = "" -> validate_query q = Raise (ValueError "Query cannot be empty").
Proof.
  intros H. unfold validate_query. rewrite H. simpl.
  now rewrite orb_true_r.
Qed.

Lemma validate_query_not_blank (q : string) :
  Re.strip q <> "" ->
  validate_query q =
  match find (fun keyword => Re.search_word keyword (remove_sql_comments q))
             FORBIDDEN_KEYWORDS with
  | Some keyword => Raise (ValueError (forbidden_keyword_message keyword))
  | None => Ok tt
  end.
Proof.
  intros H. unfold validate_query.
  assert (Hq : (q =? "") = false).
  { destruct (String.eqb_spec q ""); [subst; now elim H | reflexivity]. }
  assert (Hs : (Re.strip q =? "") = false).
  { destruct (String.eqb_spec (Re.strip q) ""); [contradiction | reflexivity]. }
  now rewrite Hq, Hs.
Qed.





Example remove_sql_comments_line :
  remove_sql_comments
    ("a--b" ++ String (ascii_of_nat 13) NL ++ "c -- d" ++ NL ++ "--" ++ NL ++ "e")
  = "a" ++ NL ++ "c " ++ NL ++ NL ++ "e".
Proof. reflexivity. Qed.

Example remove_sql_comments_block :
  remove_sql_comments "a/*/b*/c/**/d/*e" = "acd/*e".
Proof. reflexivity. Qed.

(** A comment marker inside a string literal starts a comment all the
    same, and stripping a comment can bring a keyword together: the check
    is on the text that is left. *)
Example validate_query_after_stripping :
  validate_query "SELECT '--'; DROP TABLE t" = Ok tt
  /\ rejects_naming "SELECT 1; DR/**/OP TABLE t" "DROP".
Proof. split; reflexivity. Qed.

Example validate_query_first_keyword :
  rejects_naming "DROP TABLE t; INSERT INTO t VALUES (1)" "INSERT".
Proof. reflexivity. Qed.

Example validate_query_blank_text :
  validate_query ("  " ++ NL) = Raise (ValueError "Query cannot be empty").
Proof. reflexivity. Qed.



(** *** [sanitize_identifier] *)

Lemma take_drop_while (p : ascii -> bool) (s : string) :
  s = Re.take_while p s ++ Re.drop_while p s
  /\ Re.all_chars p (Re.take_while p s) = true.
Proof.
  induction s as [|c s [IH1 IH2]]; simpl; [auto |].
  destruct (p c) eqn:Hc; simpl; [| auto].
  rewrite Hc, IH2. split; [now rewrite <- IH1 | reflexivity].
Qed.

Lemma drop_while_app_LF (s : string) :
  Re.all_chars Re.is_identifier_char s = true ->
  Re.drop_while Re.is_identifier_char (s ++ NL) = NL.
Proof.
  induction s as [|c s IH]; simpl; [reflexivity |].
  intros H. apply andb_true_iff in H as [Hc Hs]. now rewrite Hc, IH.
Qed.

(** The identifiers of the charset are returned unchanged. *)
Lemma sanitize_identifier_within_charset (identifier : string) :
  identifier <> "" -> within_identifier_charset identifier ->
  sanitize_identifier identifier = Ok identifier.
Proof.
  intros Hne Hin. unfold sanitize_identifier.
  destruct (String.eqb_spec identifier ""); [contradiction |].
  now rewrite (ReFacts.match_identifier_within _ Hne Hin).
Qed.

(** What [sanitize_identifier] lets through: the identifiers of the
    charset, and those followed by one line feed. *)
Lemma sanitize_identifier_ok_iff (identifier : string) :
  sanitize_identifier identifier = Ok identifier <->
  exists body,
    body <> "" /\ within_identifier_charset body
    /\ (identifier = body \/ identifier = body ++ NL).
Proof.
  unfold sanitize_identifier, within_identifier_charset. split.
  - destruct (String.eqb_spec identifier ""); [discriminate |].
    destruct (Re.match_identifier identifier) eqn:Hm; [| discriminate].
    intros _. destruct identifier as [|c s]; [discriminate |].
    simpl in Hm. apply andb_true_iff in Hm as [Hc Hend].
    destruct (take_drop_while Re.is_identifier_char s) as [Hs Hall].
    exists (String c (Re.take_while Re.is_identifier_char s)).
    split; [discriminate |]. simpl. rewrite Hc, Hall. split; [reflexivity |].
    unfold Re.at_end_anchor in Hend. apply orb_true_iff in Hend as [He | He];
      apply String.eqb_eq in He; rewrite He in Hs.
    + left. f_equal. rewrite Hs at 1. clear.
      induction (Re.take_while _ s) as [|x t IH]; simpl; congruence.
    + right. now f_equal.
  - intros (body & Hne & Hall & [-> | ->]).
    + now apply sanitize_identifier_within_charset.
    + destruct body as [|c s]; [congruence |]. simpl in *.
      apply andb_true_iff in Hall as [Hc Hs].
      unfold Re.match_identifier.
      now rewrite Hc, (drop_while_app_LF _ Hs).
Qed.

Lemma all_chars_app (p : ascii -> bool) (a b : string) :
  Re.all_chars p (a ++ b) = Re.all_chars p a && Re.all_chars p b.
Proof.
  induction a as [|x a IH]; simpl; [reflexivity |].
  now rewrite IH, andb_assoc.
Qed.

Lemma app_cons_eq_app_LF (pre : string) :
  forall (c : ascii) (post body : string),
    pre ++ String c post = body ++ NL ->
    (post = "" /\ c = Re.LF /\ pre = body)
    \/ exists post', post = post' ++ NL /\ body = pre ++ String c post'.
Proof.
  induction pre as [|a pre IH]; intros c post [|b body] H; simpl in H.
  - injection H as -> <-. auto.
  - injection H as -> ->. right. now exists body.
  - injection H as _ H. destruct pre; discriminate.
  - injection H as -> H. destruct (IH _ _ _ H) as [(-> & -> & ->) | (post' & -> & ->)].
    + auto.
    + right. now exists post'.
Qed.

(** Apart from a line feed that ends the identifier, a character outside
    the charset makes [sanitize_identifier] raise. *)
Lemma sanitize_identifier_rejects (pre post : string) (c : ascii) :
  Re.is_identifier_char c = false ->
  c <> Re.LF \/ post <> "" ->
  sanitize_identifier (pre ++ String c post)
  = Raise (ValueError (invalid_identifier_message (pre ++ String c post))).
Proof.
  intros Hc Hpos.
  destruct (sanitize_identifier (pre ++ String c post)) as [r|e] eqn:Hs.
  - assert (Hr : r = pre ++ String c post).
    { unfold sanitize_identifier in Hs.
      destruct (_ =? "")%string; [discriminate |].
      destruct (negb _); [discriminate | congruence]. }
    subst r. apply sanitize_identifier_ok_iff in Hs
      as (body & _ & Hall & [Hb | Hb]); unfold within_identifier_charset in Hall.
    + rewrite <- Hb, all_chars_app in Hall. simpl in Hall.
      rewrite Hc, andb_false_r in Hall. discriminate.
    + apply app_cons_eq_app_LF in Hb as [(-> & -> & _) | (post' & _ & ->)].
      * destruct Hpos; congruence.
      * rewrite all_chars_app in Hall. simpl in Hall.
        rewrite Hc, andb_false_r in Hall. discriminate.
  - unfold sanitize_identifier in Hs.
    destruct (String.eqb_spec (pre ++ String c post) "") as [He | _].
    + destruct pre; discriminate.
    + destruct (negb _); congruence.
Qed.

(** C3. An identifier that ends in a line feed after characters of
    [[A-Za-z0-9_.]] holds a character outside that set and is returned
    all the same: the end anchor of the pattern also holds just before
    a final line feed. *)
Theorem sanitize_identifier_trailing_newline :
  let identifier := "users" ++ NL in
  ~ within_identifier_charset identifier
  /\ Re.is_identifier_char Re.LF = false
  /\ sanitize_identifier identifier = Ok identifier.
Proof.
  simpl. split; [| split; reflexivity].
  unfold within_identifier_charset. vm_compute. discriminate.
Qed.

(** ** history.py *)

Module HistoryFacts.
Import QueryHistory.

Lemma deque_append_lastn {A : Type} (n : nat) (d : list A) (x : A) :
  length d <= n -> deque_append n d x = lastn n (d ++ [x]).
Proof.
  intros Hd. unfold deque_append, lastn. rewrite length_app; simpl.
  destruct (Nat.ltb_spec n (length d + 1)) as [Hlt | Hge].
  - replace (length d + 1 - n) with 1 by lia.
    now destruct (d ++ [x])%list.
  - now replace (length d + 1 - n) with 0 by lia.
Qed.

Lemma lastn_length {A : Type} (n : nat) (l : list A) :
  length (lastn n l) = Nat.min n (length l).
Proof. unfold lastn. rewrite length_skipn. lia. Qed.

Lemma lastn_app_lastn {A : Type} (n : nat) (a b : list A) :
  lastn n (lastn n a ++ b) = lastn n (a ++ b).
Proof.
  unfold lastn at 1 3. rewrite !length_app, lastn_length.
  unfold lastn.
  destruct (Nat.le_gt_cases (length a) n) as [Hle | Hgt].
  - replace (length a - n) with 0 by lia. simpl.
    now replace (Nat.min n (length a)) with (length a) by lia.
  - replace (Nat.min n (length a)) with n by lia.
    rewrite !skipn_app, !skipn_skipn, length_skipn.
    replace (n + length b - n + (length a - n))
      with (length a + length b - n) by lia.
    replace (n + length b - n - (length a - (length a - n)))
      with (length a + length b - n - length a) by lia.
    reflexivity.
Qed.

Lemma record_bounded (h : t) (e : QueryHistoryEntry.t) :
  bounded h -> bounded (record h e).
Proof.
  unfold bounded, record; simpl. intros Hb.
  rewrite (deque_append_lastn _ _ _ Hb), lastn_length. lia.
Qed.

Lemma apply_bounded (h : t) (o : op) : bounded h -> bounded (apply h o).
Proof.
  destruct o; simpl; [apply record_bounded |].
  unfold bounded; simpl; lia.
Qed.

Lemma apply_maxlen (h : t) (o : op) : maxlen (apply h o) = maxlen h.
Proof. now destruct o. Qed.

Lemma run_bounded (ops : list op) :
  forall h, bounded h -> bounded (run h ops) /\ maxlen (run h ops) = maxlen h.
Proof.
  induction ops as [|o ops IH]; intros h Hb; simpl; [auto |].
  destruct (IH (apply h o) (apply_bounded _ _ Hb)) as [H1 H2].
  split; [exact H1 |]. now rewrite H2, apply_maxlen.
Qed.

Lemma record_all_history (entries : list QueryHistoryEntry.t) :
  forall h,
    bounded h ->
    maxlen (record_all h entries) = maxlen h
    /\ _history (record_all h entries)
       = lastn (maxlen h) (_history h ++ entries).
Proof.
  induction entries as [|e entries IH]; intros h Hb; simpl.
  - split; [reflexivity |]. rewrite app_nil_r. unfold lastn.
    unfold bounded in Hb. now replace (length (_history h) - maxlen h) with 0 by lia.
  - destruct (IH (record h e) (record_bounded _ _ Hb)) as [Hm Hh].
    split; [exact Hm |]. rewrite Hh. simpl.
    rewrite (deque_append_lastn _ _ _ Hb), lastn_app_lastn.
    now rewrite <- app_assoc.
Qed.

(** Once as many entries as the capacity have been recorded, the buffer
    holds the newest of them and nothing else. *)
Lemma record_all_newest (h : t) (older newest : list QueryHistoryEntry.t) :
  bounded h -> length newest = maxlen h ->
  _history (record_all h (older ++ newest)) = newest.
Proof.
  intros Hb Hn.
  destruct (record_all_history (older ++ newest) h Hb) as [_ ->].
  unfold lastn. rewrite app_assoc, length_app, Hn.
  replace (length (_history h ++ older) + maxlen h - maxlen h)
    with (length (_history h ++ older)) by lia.
  rewrite skipn_app, skipn_all, Nat.sub_diag. reflexivity.
Qed.

Lemma get_recent_nonneg (h : t) (limit : Z) :
  (0 <= limit)%Z ->
  get_recent h limit = firstn (Z.to_nat limit) (rev (_history h)).
Proof.
  intros Hl. unfold get_recent, slice_to.
  now destruct (Z.leb_spec 0 limit); [| lia].
Qed.

End HistoryFacts.

(** C4, as the code has it. A history of capacity C never holds more than C
    entries, whatever is recorded or cleared; after C+1 insertions it
    holds the C newest, so the oldest inserted entry is gone; for every
    limit that is not negative, [get_recent] returns the first entries of
    the newest-first order, at most min(limit, C) of them; and
    [get_recent(C)] after C+1 insertions is the C newest entries in
    reverse insertion order. *)
Theorem history_bounded_newest_first :
  forall (C : nat),
    (forall ops,
        let h := QueryHistory.run (QueryHistory.init C) ops in
        QueryHistory.maxlen h = C
        /\ length (QueryHistory._history h) <= C
        /\ (QueryHistory.get_count h <= Z.of_nat C)%Z)
    /\ (forall ops oldest newest,
           length newest = C ->
           let h := QueryHistory.run (QueryHistory.init C) ops in
           let h' := QueryHistory.record_all h (oldest :: newest) in
           QueryHistory._history h' = newest
           /\ (~ In oldest newest -> ~ In oldest (QueryHistory._history h'))
           /\ QueryHistory.get_recent h' (Z.of_nat C) = rev newest)
    /\ (forall ops limit,
           (0 <= limit)%Z ->
           let h := QueryHistory.run (QueryHistory.init C) ops in
           (Z.of_nat (length (QueryHistory.get_recent h limit))
            <= Z.min limit (Z.of_nat C))%Z
           /\ exists older,
               rev (QueryHistory._history h)
               = (QueryHistory.get_recent h limit ++ older)%list).
Proof.
  intros C.
  assert (Hinit : QueryHistory.bounded (QueryHistory.init C))
    by (unfold QueryHistory.bounded; simpl; lia).
  split; [| split].
  - intros ops h.
    destruct (HistoryFacts.run_bounded ops _ Hinit) as [Hb Hm].
    fold h in Hb, Hm. unfold QueryHistory.bounded in Hb. simpl in Hm.
    unfold QueryHistory.get_count. rewrite Hm in Hb. repeat split; [exact Hm | exact Hb | lia].
  - intros ops oldest newest Hn h h'.
    destruct (HistoryFacts.run_bounded ops _ Hinit) as [Hb Hm].
    fold h in Hb, Hm. simpl in Hm.
    assert (Hh : QueryHistory._history h' = newest).
    { unfold h'. change (oldest :: newest) with ([oldest] ++ newest)%list.
      apply HistoryFacts.record_all_newest; [exact Hb | congruence]. }
    rewrite Hh. repeat split; [auto |].
    rewrite HistoryFacts.get_recent_nonneg by lia.
    rewrite Hh, Nat2Z.id, <- Hn, <- length_rev. apply firstn_all.
  - intros ops limit Hl h.
    destruct (HistoryFacts.run_bounded ops _ Hinit) as [Hb Hm].
    fold h in Hb, Hm. unfold QueryHistory.bounded in Hb. simpl in Hm.
    rewrite HistoryFacts.get_recent_nonneg by exact Hl. split.
    + rewrite length_firstn, length_rev. lia.
    + exists (skipn (Z.to_nat limit) (rev (QueryHistory._history h))).
      now rewrite firstn_skipn.
Qed.

(** ** Floats *)

Lemma float_le_int_spec (v : pyfloat) (n : Z) :
  float_le_int v n = true <-> float_le v n.
Proof.
  destruct v; simpl; try (split; [discriminate | contradiction]);
    try tauto.
  apply Qle_bool_iff.
Qed.

Lemma float_gt_int_spec (v : pyfloat) (n : Z) :
  float_gt_int v n = true <-> float_gt v n.
Proof.
  destruct v; simpl; try (split; [discriminate | contradiction]);
    try tauto.
  rewrite negb_true_iff, <- not_true_iff_false, Qle_bool_iff.
  split; [apply Qnot_le_lt | apply Qlt_not_le].
Qed.

(** A float that is a number is below or equal, or above, never both. *)
Lemma float_le_or_gt (v : pyfloat) (n : Z) :
  v <> NaN -> (float_le v n \/ float_gt v n) /\ ~ (float_le v n /\ float_gt v n).
Proof.
  destruct v as [q | | |]; simpl; try tauto; intros _.
  split.
  - destruct (Qlt_le_dec (inject_Z n) q); auto.
  - intros [H1 H2]. exact (Qlt_not_le _ _ H2 H1).
Qed.

(** ** pydantic *)

Module PydanticFacts.
Import Pydantic.

Lemma is_valid_ap {A B : Type} (f : validated (A -> B)) (x : validated A) :
  is_valid (f <*> x) = is_valid f && is_valid x.
Proof. now destruct f, x. Qed.

Lemma construct_is_ok {A : Type} (title : string) (v : validated A) :
  is_ok (construct title v) = is_valid v.
Proof. now destruct v. Qed.

Lemma construct_raises {A : Type} (title : string) (v : validated A) :
  is_valid v = false ->
  exists errors, construct title v = Raise (ValidationError title errors).
Proof. destruct v; [discriminate | intros _; simpl; eauto]. Qed.

Lemma run_validator_is_valid {A : Type} (name : string)
      (validator : A -> result A) (v : A) :
  is_valid (run_validator name validator v) = is_ok (validator v).
Proof.
  unfold run_validator. destruct (validator v) as [|e]; [reflexivity |].
  now destruct e.
Qed.

Lemma required_is_valid {A : Type} (name : string) (raw : option A) :
  is_valid (required name no_validator raw)
  = match raw with Some _ => true | None => false end.
Proof. now destruct raw. Qed.

Lemma with_default_is_valid {A : Type} (name : string) (d : A)
      (validator : A -> result A) (raw : option A) :
  is_valid (with_default name d validator raw)
  = match raw with Some v => is_ok (validator v) | None => true end.
Proof. destruct raw; [apply run_validator_is_valid | reflexivity]. Qed.

End PydanticFacts.

(** ** types.py: DatabaseConfig *)

Module ConfigFacts.
Import DatabaseConfig.

Lemma validate_port_ok (v : Z) :
  is_ok (validate_port v) = true <-> (1 <= v <= 65535)%Z.
Proof.
  unfold validate_port.
  destruct (Z.leb_spec 1 v), (Z.leb_spec v 65535); simpl; split;
    intros; try discriminate; try reflexivity; lia.
Qed.

Lemma validate_pool_size_ok (v : Z) :
  is_ok (validate_pool_size v) = true <-> (1 <= v)%Z.
Proof.
  unfold validate_pool_size.
  destruct (Z.ltb_spec v 1); simpl; split;
    intros; try discriminate; try reflexivity; lia.
Qed.

Lemma validate_timeout_ok (v : pyfloat) :
  is_ok (validate_timeout v) = true <-> ~ float_le v 0.
Proof.
  unfold validate_timeout. rewrite <- float_le_int_spec.
  destruct (float_le_int v 0); simpl; split;
    intros; try discriminate; try reflexivity; congruence.
Qed.

(** The constructor succeeds exactly when every field passes. *)
Lemma new_is_ok (a : kwargs) :
  is_ok (new a) = true <->
  kw_host a <> None /\ kw_database a <> None /\ kw_user a <> None
  /\ kw_password a <> None
  /\ (forall v, kw_port a = Some v -> (1 <= v <= 65535)%Z)
  /\ (forall v, kw_pool_min_size a = Some v -> (1 <= v)%Z)
  /\ (forall v, kw_pool_max_size a = Some v -> (1 <= v)%Z)
  /\ (forall v, kw_command_timeout a = Some v -> ~ float_le v 0)
  /\ (forall v, kw_connection_timeout a = Some v -> ~ float_le v 0).
Proof.
  unfold new, fields.
  rewrite PydanticFacts.construct_is_ok, !PydanticFacts.is_valid_ap,
    !PydanticFacts.required_is_valid, !PydanticFacts.with_default_is_valid.
  simpl. rewrite !andb_true_iff.
  destruct a as [h p d u pw mn mx ct cn]; simpl.
  assert (Hopt : forall (A : Type) (o : option A),
             match o with Some _ => true | None => false end = true
             <-> o <> None)
    by (intros A [x|]; split; congruence).
  assert (Hfld : forall (A : Type) (o : option A) (f : A -> bool) (P : A -> Prop),
             (forall v, f v = true <-> P v) ->
             (match o with Some v => f v | None => true end = true
              <-> forall v, o = Some v -> P v)).
  { intros A [x|] f P HP; split; intros H.
    - intros v [= <-]. now apply HP.
    - apply HP. now apply H.
    - intros v [=].
    - reflexivity. }
  rewrite !Hopt.
  rewrite (Hfld _ p _ _ validate_port_ok),
    (Hfld _ mn _ _ validate_pool_size_ok),
    (Hfld _ mx _ _ validate_pool_size_ok),
    (Hfld _ ct _ _ validate_timeout_ok),
    (Hfld _ cn _ _ validate_timeout_ok).
  tauto.
Qed.

End ConfigFacts.


(** C5, as the code has it. Where the timeouts that are given are
    numbers, constructing a [DatabaseConfig] fails exactly when a
    required field (host, database, user, password) is absent or a given
    value is outside the bound of its own field: port within 1..65535,
    pool_min_size at least 1, pool_max_size at least 1, command_timeout
    above 0, connection_timeout above 0. The two pool sizes are not
    compared with each other. Nothing is said of a timeout that is
    NaN. *)
Theorem config_construction_fails_iff :
  forall a,
    DatabaseConfig.timeouts_are_numbers a ->
    ((DatabaseConfig.required_absent a \/ DatabaseConfig.bound_violated a)
     <-> exists errors,
         DatabaseConfig.new a = Raise (ValidationError "DatabaseConfig" errors)).
Proof.
  intros a [Hnum_ct Hnum_cn]. split.
  - intros H.
    apply PydanticFacts.construct_raises.
    rewrite <- (PydanticFacts.construct_is_ok "DatabaseConfig").
    fold (DatabaseConfig.new a).
    destruct (is_ok (DatabaseConfig.new a)) eqn:Hok; [| reflexivity].
    apply ConfigFacts.new_is_ok in Hok
      as (Hh & Hd & Hu & Hpw & Hp & Hmn & Hmx & Hct & Hcn).
    unfold DatabaseConfig.required_absent, DatabaseConfig.bound_violated in H.
    destruct H as [[H | [H | [H | H]]]
                  | [(v & E & H) | [(v & E & H) | [(v & E & H)
                  | [(v & E & H) | (v & E & H)]]]]];
      try contradiction.
    + elim H. now apply Hp.
    + specialize (Hmn _ E). lia.
    + specialize (Hmx _ E). lia.
    + assert (Hv : v <> NaN) by congruence.
      destruct (float_le_or_gt v 0 Hv) as [[Hle | Hgt] _];
        [elim (Hct _ E Hle) | elim (H Hgt)].
    + assert (Hv : v <> NaN) by congruence.
      destruct (float_le_or_gt v 0 Hv) as [[Hle | Hgt] _];
        [elim (Hcn _ E Hle) | elim (H Hgt)].
  - intros [errors H].
    assert (Hno : ~ is_ok (DatabaseConfig.new a) = true)
      by (rewrite H; discriminate).
    rewrite ConfigFacts.new_is_ok in Hno.
    unfold DatabaseConfig.required_absent, DatabaseConfig.bound_violated.
    clear Hnum_ct Hnum_cn.
    destruct a as [h p d u pw mn mx ct cn]; simpl in *.
    destruct h as [h|]; [| auto].
    destruct d as [d|]; [| auto].
    destruct u as [u|]; [| auto].
    destruct pw as [pw|]; [| auto 6].
    right.
    assert (Hp : (forall v, p = Some v -> (1 <= v <= 65535)%Z)
                 \/ exists v, p = Some v /\ ~ (1 <= v <= 65535)%Z).
    { destruct p as [v|]; [| left; intros v [=]].
      destruct (Z_le_dec 1 v), (Z_le_dec v 65535);
        try (right; exists v; split; [reflexivity | lia]).
      left. intros v' [= <-]. lia. }
    destruct Hp as [Hp | Hp]; [| auto].
    assert (Hsize : forall o : option Z,
               (forall v, o = Some v -> (1 <= v)%Z)
               \/ exists v, o = Some v /\ (v < 1)%Z).
    { intros [v|]; [| left; intros v [=]].
      destruct (Z_le_dec 1 v);
        [left; intros v' [= <-]; lia | right; exists v; split; [reflexivity | lia]]. }
    destruct (Hsize mn) as [Hmn | Hmn]; [| auto].
    destruct (Hsize mx) as [Hmx | Hmx]; [| auto 6].
    assert (Htime : forall o : option pyfloat,
               (forall v, o = Some v -> ~ float_le v 0)
               \/ exists v, o = Some v /\ ~ float_gt v 0).
    { intros [v|]; [| left; intros v [=]].
      destruct (float_le_int v 0) eqn:E.
      - right. exists v. split; [reflexivity |].
        apply float_le_int_spec in E. intros Hgt.
        assert (Hv : v <> NaN) by (intros ->; exact E).
        exact (proj2 (float_le_or_gt v 0 Hv) (conj E Hgt)).
      - left. intros v' [= <-] Hv. apply float_le_int_spec in Hv. congruence. }
    destruct (Htime ct) as [Hct | Hct]; [| auto 8].
    destruct (Htime cn) as [Hcn | Hcn]; [| auto 8].
    elim Hno.
    repeat match goal with |- _ /\ _ => split end;
      try discriminate; assumption.
Qed.

(** C5, the claim as stated, fails: a configuration whose pool_max_size is
    below its pool_min_size is constructed. *)
Lemma config_pool_max_below_min_constructs :
  let a := DatabaseConfig.mk_kwargs
             (Some "localhost") None (Some "app") (Some "reader")
             (Some "secret") (Some 5%Z) (Some 2%Z) None None in
  (2 < 5)%Z
  /\ DatabaseConfig.new a
     = Ok (DatabaseConfig.mk "localhost" 5432 "app" "reader" "secret" 5 2
                             (Finite 60) (Finite 10)).
Proof. simpl. split; reflexivity. Qed.

(** ** formatters.py *)

(** C6. The empty row set formats to the empty string as CSV, to the text
    [No results] as Markdown and to [[]] as JSON, whatever the runtime. *)
Theorem format_empty_row_set :
  forall (rt : PyRuntime),
    format_as_csv [] = Ok ""
    /\ format_as_markdown [] = Ok "No results"
    /\ format_as_json [] = Ok "[]"
    /\ format_rows [] CSV = Ok ""
    /\ format_rows [] MARKDOWN = Ok "No results"
    /\ format_rows [] JSON = Ok "[]".
Proof. intros rt. repeat split; reflexivity. Qed.

(** With rows, the CSV text starts with the header record. *)
Example format_as_csv_one_row :
  format_as_csv (rt := Sample.runtime) [[("x", VInt 1); ("y", VNone)]]
  = Ok ("x,y" ++ String (ascii_of_nat 13) NL ++ "1," ++ String (ascii_of_nat 13) NL).
Proof. reflexivity. Qed.

Example format_as_markdown_one_row :
  format_as_markdown (rt := Sample.runtime)
    [[("id", VInt 7); ("name", VStr "ada")]; [("id", VInt 12); ("name", VNone)]]
  = Ok ("| id | name |" ++ NL ++ "|----|------|" ++ NL
        ++ "| 7  | ada  |" ++ NL ++ "| 12 | None |").
Proof. reflexivity. Qed.

Example format_as_json_one_row :
  format_as_json (rt := Sample.runtime) [[("x", VInt 1); ("y", VNone)]]
  = Ok ("[" ++ NL ++ "  {" ++ NL ++ "    " ++ @json_encode_str Sample.runtime "x" ++ ": 1,"
        ++ NL ++ "    " ++ @json_encode_str Sample.runtime "y" ++ ": null" ++ NL ++ "  }"
        ++ NL ++ "]").
Proof. reflexivity. Qed.

(** A serialized value is left as it is by [serialize_value]. *)
Lemma serialize_value_fixed (rt : PyRuntime) (v w : value) :
  serialize_value v = Ok w -> serialize_value w = Ok w.
Proof.
  destruct v; simpl; try (intros [= <-]; reflexivity).
  destruct (float_of_Decimal d); simpl; [| discriminate].
  intros [= <-]; reflexivity.
Qed.

(** C9. [serialize_value] is idempotent: serializing what it returned
    returns the same, for a date or datetime, a Decimal, bytes, None and
    every value that is passed through; where it raises, so does the
    composition. *)
Theorem serialize_value_idempotent :
  forall (rt : PyRuntime) (v : value),
    (w <- serialize_value v ;; serialize_value w) = serialize_value v.
Proof.
  intros rt v. destruct (serialize_value v) as [w|e] eqn:H; simpl.
  - now apply (serialize_value_fixed rt v).
  - reflexivity.
Qed.

(** ** tools.py *)

Module ToolFacts.

Section WithRuntime.
Context {rt : PyRuntime}.

Lemma trace_history_add_query (w : World) (now : datetime) (q : string)
      (ms : pyfloat) (n : Z) (f : OutputFormat) (ok : bool) (err : option string) :
  trace (history_add_query w now q ms n f ok err)
  = (trace w ++ [HistoryAppend (QueryHistoryEntry.mk q now ms n f ok err)])%list.
Proof.
  unfold history_add_query, get_query_history.
  now destruct (_query_history w).
Qed.

Lemma history_history_add_query (w : World) (now : datetime) (q : string)
      (ms : pyfloat) (n : Z) (f : OutputFormat) (ok : bool) (err : option string) :
  _query_history (history_add_query w now q ms n f ok err)
  = Some (QueryHistory.record (history_of w)
                              (QueryHistoryEntry.mk q now ms n f ok err)).
Proof.
  unfold history_add_query, history_of, get_query_history.
  now destruct (_query_history w).
Qed.

Lemma history_of_emit (w : World) (e : event) :
  history_of (emit w e) = history_of w.
Proof.
  unfold history_of, get_query_history, emit; simpl.
  now destruct (_query_history w).
Qed.

(** The handler once the arguments and the query are accepted and the
    pool is there: what is left is the [try] block. *)
Lemma query_database_tool_try (args : QueryDatabaseInput.kwargs)
      (clock : Clock) (w : World) (input : QueryDatabaseInput.t)
      (db : DatabasePool) :
  QueryDatabaseInput.new args = Ok input ->
  validate_query (QueryDatabaseInput.query input) = Ok tt ->
  _db_pool w = Some db ->
  let q := QueryDatabaseInput.query input in
  let fmt := QueryDatabaseInput.format input in
  let w1 := emit w (DbExecute q (QueryDatabaseInput.timeout input)) in
  query_database_tool args clock w =
  match (rows <- execute_readonly_query db q (QueryDatabaseInput.timeout input) ;;
         formatted_output <- format_rows rows fmt ;;
         Ok (rows, formatted_output)) with
  | Ok (rows, formatted_output) =>
      (Ok (QueryResult.mk rows (Z.of_nat (length rows))
                          match rows with first :: _ => keys first | [] => [] end
                          (round2 (elapsed_ms clock))
                          (OutputFormat_value fmt) formatted_output),
       history_add_query w1 (now clock) q (elapsed_ms clock)
                         (Z.of_nat (length rows)) fmt true None)
  | Raise e =>
      (Raise e,
       history_add_query w1 (now clock) q (elapsed_ms clock) 0%Z fmt false
                         (Some (str_exn e)))
  end.
Proof.
  intros Hnew Hval Hpool. unfold query_database_tool, get_database_pool.
  rewrite Hnew, Hval, Hpool. simpl.
  destruct (execute_readonly_query db _ _) as [rows|e]; simpl; [| reflexivity].
  destruct (format_rows rows _) as [out|e]; reflexivity.
Qed.

(** A call that returns a result went through the [try] block. *)
Lemma query_database_tool_ok_inv (args : QueryDatabaseInput.kwargs)
      (clock : Clock) (w w' : World) (res : QueryResult.t) :
  query_database_tool args clock w = (Ok res, w') ->
  exists input db,
    QueryDatabaseInput.new args = Ok input
    /\ validate_query (QueryDatabaseInput.query input) = Ok tt
    /\ _db_pool w = Some db.
Proof.
  unfold query_database_tool, get_database_pool. intros H.
  destruct (QueryDatabaseInput.new args) as [input|]; [| discriminate].
  destruct (validate_query _) as [[]|] eqn:Hval; [| discriminate].
  destruct (_db_pool w) as [db|]; [| discriminate].
  now exists input, db.
Qed.

Lemma timeout_field_is_valid (x : pyfloat) :
  Pydantic.is_valid (QueryDatabaseInput.timeout_field (Some x))
  = negb (float_le_int x 0) && negb (float_gt_int x 300).
Proof.
  unfold QueryDatabaseInput.timeout_field.
  rewrite PydanticFacts.run_validator_is_valid. simpl.
  destruct (float_le_int x 0); [reflexivity |].
  now destruct (float_gt_int x 300).
Qed.

Lemma query_input_invalid (args : QueryDatabaseInput.kwargs) :
  Pydantic.is_valid (QueryDatabaseInput.fields args) = false ->
  forall clock w,
  exists errors,
    query_database_tool args clock w
    = (Raise (ValidationError "QueryDatabaseInput" errors), w).
Proof.
  intros H clock w. unfold query_database_tool, QueryDatabaseInput.new.
  destruct (PydanticFacts.construct_raises "QueryDatabaseInput" _ H) as [errors ->].
  now exists errors.
Qed.

Lemma validate_limit_ok (v : Z) :
  is_ok (GetQueryHistoryInput.validate_limit v) = true <-> (1 <= v <= 100)%Z.
Proof.
  unfold GetQueryHistoryInput.validate_limit.
  destruct (Z.ltb_spec v 1); simpl; [split; [discriminate | lia] |].
  destruct (Z.gtb_spec v 100); simpl; split; intros;
    try discriminate; try reflexivity; lia.
Qed.

Lemma validate_limit_value (v : Z) :
  (1 <= v <= 100)%Z -> GetQueryHistoryInput.validate_limit v = Ok v.
Proof.
  intros H. unfold GetQueryHistoryInput.validate_limit.
  destruct (Z.ltb_spec v 1); [lia |].
  now destruct (Z.gtb_spec v 100); [lia |].
Qed.

End WithRuntime.

End ToolFacts.

(** The timeout check on the floats that are numbers: accepted exactly
    within (0, 300]. *)
Lemma timeout_number_accepted_iff (x : pyfloat) :
  x <> NaN ->
  (QueryDatabaseInput.validate_timeout (Some x) = Ok (Some x)
   <-> float_in_left_open x 0 300).
Proof.
  intros Hx. unfold QueryDatabaseInput.validate_timeout, float_in_left_open.
  destruct (float_le_or_gt x 0 Hx) as [H0 H0'].
  destruct (float_le_or_gt x 300 Hx) as [H3 H3'].
  rewrite <- !float_le_int_spec, <- !float_gt_int_spec in *.
  destruct (float_le_int x 0), (float_gt_int x 300),
    (float_gt_int x 0), (float_le_int x 300);
    split; intros H; try discriminate; try reflexivity;
    try tauto; try (destruct H; discriminate);
    try (destruct H0; discriminate); try (destruct H3; discriminate).
Qed.

(** A timeout at or below 0, or above 300, stops the call in the
    validation of its arguments: nothing is executed, nothing recorded. *)
Lemma query_database_timeout_rejected (rt : PyRuntime)
      (args : QueryDatabaseInput.kwargs) (clock : Clock) (w : World)
      (x : pyfloat) :
  QueryDatabaseInput.kw_timeout args = Some x ->
  float_le x 0 \/ float_gt x 300 ->
  exists errors,
    query_database_tool args clock w
    = (Raise (ValidationError "QueryDatabaseInput" errors), w).
Proof.
  intros Hx Hbad. apply ToolFacts.query_input_invalid.
  unfold QueryDatabaseInput.fields.
  rewrite !PydanticFacts.is_valid_ap, Hx, ToolFacts.timeout_field_is_valid.
  rewrite <- float_le_int_spec, <- float_gt_int_spec in Hbad.
  destruct Hbad as [-> | ->]; simpl; now rewrite ?andb_false_r.
Qed.

(** The validator of validators.py draws the same line. *)
Lemma validate_timeout_number_ok_iff (x : pyfloat) :
  x <> NaN -> (validate_timeout x = Ok tt <-> float_in_left_open x 0 300).
Proof.
  intros Hx. rewrite <- (timeout_number_accepted_iff x Hx).
  unfold validate_timeout, QueryDatabaseInput.validate_timeout.
  destruct (float_le_int x 0); [split; discriminate |].
  destruct (float_gt_int x 300); split; intros; try discriminate; reflexivity.
Qed.

(** C8. A timeout that is NaN is outside (0, 300] and passes both
    comparisons of the validator: the arguments are accepted, the
    statement goes to the pool with that timeout, and the failure that
    follows there is recorded as a failed execution. *)
Theorem query_database_timeout_nan_accepted :
  let args := QueryDatabaseInput.mk_kwargs (Some "SELECT 1") None (Some NaN) in
  let run := query_database_tool (rt := Sample.runtime) args Sample.clock
               (Sample.world Sample.pool_sets_timeout) in
  ~ float_in_left_open NaN 0 300
  /\ QueryDatabaseInput.validate_timeout (Some NaN) = Ok (Some NaN)
  /\ validate_timeout NaN = Ok tt
  /\ QueryDatabaseInput.new args
     = Ok (QueryDatabaseInput.mk "SELECT 1" JSON (Some NaN))
  /\ fst run = Raise (ValueError "cannot convert float NaN to integer")
  /\ trace (snd run)
     = [DbExecute "SELECT 1" (Some NaN);
        HistoryAppend
          (QueryHistoryEntry.mk "SELECT 1" Sample.midnight (Finite 3) 0 JSON
                                false
                                (Some "cannot convert float NaN to integer"))].
Proof.
  simpl. split; [intros [[] _] | repeat split; reflexivity].
Qed.

(** C7. [get_query_history] with a limit below 1 or above 100 stops in
    the validation of its arguments, before the history is asked
    anything: the world is the same and its trace has no new read. With
    a limit within [1, 100] the history is read once with that limit.
    Without a limit the call is the one with limit 20. *)
Theorem get_query_history_limit_validated :
  forall (rt : PyRuntime) (w : World),
    (forall l,
        (l < 1 \/ 100 < l)%Z ->
        exists errors,
          get_query_history_tool (GetQueryHistoryInput.mk_kwargs (Some l)) w
          = (Raise (ValidationError "GetQueryHistoryInput" errors), w))
    /\ (forall l,
           (1 <= l <= 100)%Z ->
           let run := get_query_history_tool
                        (GetQueryHistoryInput.mk_kwargs (Some l)) w in
           fst run = Ok (map history_item
                             (QueryHistory.get_recent (history_of w) l))
           /\ trace (snd run) = (trace w ++ [HistoryRead l])%list)
    /\ get_query_history_tool (GetQueryHistoryInput.mk_kwargs None) w
       = get_query_history_tool (GetQueryHistoryInput.mk_kwargs (Some 20%Z)) w.
Proof.
  intros rt w. split; [| split].
  - intros l Hl. unfold get_query_history_tool, GetQueryHistoryInput.new.
    destruct (PydanticFacts.construct_raises
                "GetQueryHistoryInput"
                (GetQueryHistoryInput.fields (GetQueryHistoryInput.mk_kwargs (Some l))))
      as [errors ->]; [| now exists errors].
    unfold GetQueryHistoryInput.fields.
    rewrite PydanticFacts.is_valid_ap, PydanticFacts.with_default_is_valid.
    simpl. apply not_true_iff_false. rewrite ToolFacts.validate_limit_ok. lia.
  - intros l Hl run. unfold run, get_query_history_tool, GetQueryHistoryInput.new,
      GetQueryHistoryInput.fields, history_of. simpl.
    unfold Pydantic.run_validator.
    rewrite (ToolFacts.validate_limit_value l Hl). simpl.
    unfold get_query_history. now destruct (_query_history w).
  - reflexivity.
Qed.

Lemma get_query_history_limit_validated_witness :
  (exists errors,
      get_query_history_tool (rt := Sample.runtime)
        (GetQueryHistoryInput.mk_kwargs (Some 0%Z))
        (Sample.world Sample.pool_one_row)
      = (Raise (ValidationError "GetQueryHistoryInput" errors),
         Sample.world Sample.pool_one_row))
  /\ (exists errors,
         get_query_history_tool (rt := Sample.runtime)
           (GetQueryHistoryInput.mk_kwargs (Some 101%Z))
           (Sample.world Sample.pool_one_row)
         = (Raise (ValidationError "GetQueryHistoryInput" errors),
            Sample.world Sample.pool_one_row)).
Proof.
  split.
  - apply (proj1 (get_query_history_limit_validated
                    Sample.runtime (Sample.world Sample.pool_one_row)) 0%Z).
    lia.
  - apply (proj1 (get_query_history_limit_validated
                    Sample.runtime (Sample.world Sample.pool_one_row)) 101%Z).
    lia.
Defined.

(** C10. A call that returns a result returns the rows the pool gave,
    their number as row_count, and as columns the keys of the first row
    in their order, or no column when there is no row. *)
Theorem query_database_row_count_and_columns :
  forall (rt : PyRuntime) (args : QueryDatabaseInput.kwargs) (clock : Clock)
         (w w' : World) (res : QueryResult.t),
    query_database_tool args clock w = (Ok res, w') ->
    QueryResult.row_count res = Z.of_nat (length (QueryResult.rows res))
    /\ QueryResult.columns res
       = match QueryResult.rows res with
         | first :: _ => keys first
         | [] => []
         end
    /\ exists input db,
        QueryDatabaseInput.new args = Ok input
        /\ _db_pool w = Some db
        /\ execute_readonly_query db (QueryDatabaseInput.query input)
                                  (QueryDatabaseInput.timeout input)
           = Ok (QueryResult.rows res).
Proof.
  intros rt args clock w w' res H.
  destruct (ToolFacts.query_database_tool_ok_inv args clock w w' res H)
    as (input & db & Hnew & Hval & Hpool).
  rewrite (ToolFacts.query_database_tool_try args clock w input db Hnew Hval Hpool)
    in H.
  destruct (execute_readonly_query db _ _) as [rows|e] eqn:Hexec; simpl in H;
    [| discriminate].
  destruct (format_rows rows _) as [out|e]; simpl in H; [| discriminate].
  injection H as <- _. simpl. repeat split.
  exists input, db. auto.
Qed.

Lemma query_database_row_count_and_columns_witness :
  let args := QueryDatabaseInput.mk_kwargs (Some "SELECT 1 AS x") (Some "json") None in
  let run := query_database_tool (rt := Sample.runtime) args Sample.clock
               (Sample.world Sample.pool_one_row) in
  exists res,
    fst run = Ok res
    /\ QueryResult.rows res = [[("x", VInt 1)]]
    /\ QueryResult.row_count res = 1%Z
    /\ QueryResult.columns res = ["x"].
Proof.
  intros args run.
  pose (res := QueryResult.mk
                 [[("x", VInt 1)]] 1 ["x"] (Finite 3) "json"
                 ("[" ++ NL ++ "  {" ++ NL ++ "    "
                  ++ @json_encode_str Sample.runtime "x" ++ ": 1" ++ NL
                  ++ "  }" ++ NL ++ "]")).
  exists res.
  destruct (query_database_row_count_and_columns
              Sample.runtime args Sample.clock
              (Sample.world Sample.pool_one_row) (snd run) res eq_refl)
    as (Hcount & Hcols & _).
  split; [reflexivity | split; [reflexivity | split; [exact Hcount | exact Hcols]]].
Defined.

(** ** tools.py: the history created from the environment *)

Module HistoryEnvFacts.

Lemma deque_maxlen_ok (n : Z) :
  (0 <= n <= PY_SSIZE_T_MAX)%Z -> deque_maxlen n = Ok (Z.to_nat n).
Proof.
  intros H. unfold deque_maxlen.
  destruct (Z.ltb_spec n 0); [lia |].
  now destruct (Z.ltb_spec PY_SSIZE_T_MAX n); [lia |].
Qed.

Lemma deque_maxlen_ok_inv (n : Z) (c : nat) :
  deque_maxlen n = Ok c -> (0 <= n <= PY_SSIZE_T_MAX)%Z /\ c = Z.to_nat n.
Proof.
  unfold deque_maxlen.
  destruct (Z.ltb_spec n 0); [discriminate |].
  destruct (Z.ltb_spec PY_SSIZE_T_MAX n); [discriminate |].
  intros [= <-]. split; [lia | reflexivity].
Qed.

Section WithRuntime.
Context {rt : PyRuntime} {np : PyNumberParsing}.

(** The history can be had exactly when it is there or the environment
    gives it a capacity. *)
Lemma get_query_history_env_usable (env : Environ) (w : World) :
  history_usable np env w
  <-> exists h w0, get_query_history_env env w = Ok (h, w0).
Proof.
  unfold history_usable, get_query_history_env, new_query_history.
  destruct (_query_history w) as [h|].
  - split; [intros _; eauto | intros _; left; discriminate].
  - split.
    + intros [H | (n & Hn & Hrange)]; [now elim H |].
      rewrite Hn. simpl. rewrite (deque_maxlen_ok n Hrange). simpl. eauto.
    + intros (h & w0 & H). right.
      destruct (get_query_history_size env) as [n|]; simpl in H;
        [| discriminate].
      destruct (deque_maxlen n) as [c|] eqn:Hc; simpl in H; [| discriminate].
      exists n. split; [reflexivity | apply (deque_maxlen_ok_inv n c Hc)].
Qed.

Lemma get_query_history_env_unusable (env : Environ) (w : World) :
  ~ history_usable np env w ->
  _query_history w = None
  /\ exists e, get_query_history_env env w = Raise e.
Proof.
  intros H. rewrite get_query_history_env_usable in H.
  unfold get_query_history_env in *.
  destruct (_query_history w) as [h|]; [elim H; eauto |].
  split; [reflexivity |].
  destruct (new_query_history env) as [h|e]; simpl in *; [elim H | ]; eauto.
Qed.

Lemma get_query_history_env_emit (env : Environ) (w : World) (ev : event) :
  get_query_history_env env (emit w ev)
  = match get_query_history_env env w with
    | Ok (h, w0) => Ok (h, emit w0 ev)
    | Raise e => Raise e
    end.
Proof.
  unfold get_query_history_env, emit; simpl.
  destruct (_query_history w) eqn:E; [now rewrite <- E |].
  destruct (new_query_history env); [| reflexivity].
  simpl. unfold set_query_history. simpl. reflexivity.
Qed.

(** With the history at hand, [add_query] appends the entry. *)
Lemma history_add_query_env_ok (env : Environ) (w w0 : World)
      (h : QueryHistory.t) (now : datetime) (q : string) (ms : pyfloat)
      (n : Z) (f : OutputFormat) (ok : bool) (err : option string) :
  get_query_history_env env w = Ok (h, w0) ->
  let entry := QueryHistoryEntry.mk q now ms n f ok err in
  history_add_query_env env w now q ms n f ok err
  = Ok (emit (set_query_history w (QueryHistory.record h entry))
             (HistoryAppend entry)).
Proof.
  intros H entry. unfold history_add_query_env. rewrite H. simpl.
  unfold get_query_history_env in H.
  destruct (_query_history w); [now injection H as <- <- |].
  destruct (new_query_history env); simpl in H; [| discriminate].
  now injection H as <- <-.
Qed.

Lemma history_add_query_env_raise (env : Environ) (w : World) (e : exn)
      (now : datetime) (q : string) (ms : pyfloat)
      (n : Z) (f : OutputFormat) (ok : bool) (err : option string) :
  get_query_history_env env w = Raise e ->
  history_add_query_env env w now q ms n f ok err = Raise e.
Proof. intros H. unfold history_add_query_env. now rewrite H. Qed.

(** The handler once the arguments and the query are accepted and the
    pool is there, with the history at hand: the call to the pool, then
    one entry, of the success or of the failure. *)
Lemma query_database_tool_env_try (env : Environ)
      (args : QueryDatabaseInput.kwargs) (clock : Clock) (w w0 : World)
      (input : QueryDatabaseInput.t) (db : DatabasePool) (h : QueryHistory.t) :
  QueryDatabaseInput.new args = Ok input ->
  validate_query (QueryDatabaseInput.query input) = Ok tt ->
  _db_pool w = Some db ->
  get_query_history_env env w = Ok (h, w0) ->
  let q := QueryDatabaseInput.query input in
  let fmt := QueryDatabaseInput.format input in
  let w1 := emit w (DbExecute q (QueryDatabaseInput.timeout input)) in
  let recorded := fun entry =>
    emit (set_query_history w1 (QueryHistory.record h entry))
         (HistoryAppend entry) in
  query_database_tool_env env args clock w =
  match (rows <- execute_readonly_query db q (QueryDatabaseInput.timeout input) ;;
         formatted_output <- format_rows rows fmt ;;
         Ok (rows, formatted_output)) with
  | Ok (rows, formatted_output) =>
      (Ok (QueryResult.mk rows (Z.of_nat (length rows))
                          match rows with first :: _ => keys first | [] => [] end
                          (round2 (elapsed_ms clock))
                          (OutputFormat_value fmt) formatted_output),
       recorded (QueryHistoryEntry.mk q (now clock) (elapsed_ms clock)
                                      (Z.of_nat (length rows)) fmt true None))
  | Raise e =>
      (Raise e,
       recorded (QueryHistoryEntry.mk q (now clock) (elapsed_ms clock) 0%Z fmt
                                      false (Some (str_exn e))))
  end.
Proof.
  intros Hnew Hval Hpool Hh q fmt w1 recorded.
  assert (Hh1 : get_query_history_env env w1 = Ok (h, emit w0 (DbExecute q (QueryDatabaseInput.timeout input))))
    by (unfold w1; now rewrite get_query_history_env_emit, Hh).
  unfold query_database_tool_env, get_database_pool.
  rewrite Hnew, Hval, Hpool. fold q fmt w1.
  destruct (execute_readonly_query db q _) as [rows|e]; simpl.
  - destruct (format_rows rows fmt) as [out|e]; simpl.
    + now rewrite (history_add_query_env_ok env w1 _ h _ _ _ _ _ _ _ Hh1).
    + now rewrite (history_add_query_env_ok env w1 _ h _ _ _ _ _ _ _ Hh1).
  - now rewrite (history_add_query_env_ok env w1 _ h _ _ _ _ _ _ _ Hh1).
Qed.

(** The same call where the history cannot be had: the call to the
    pool, then the error of the history, and no entry. *)
Lemma query_database_tool_env_no_history (env : Environ)
      (args : QueryDatabaseInput.kwargs) (clock : Clock) (w : World)
      (input : QueryDatabaseInput.t) (db : DatabasePool) (e : exn) :
  QueryDatabaseInput.new args = Ok input ->
  validate_query (QueryDatabaseInput.query input) = Ok tt ->
  _db_pool w = Some db ->
  get_query_history_env env w = Raise e ->
  query_database_tool_env env args clock w
  = (Raise e,
     emit w (DbExecute (QueryDatabaseInput.query input)
                       (QueryDatabaseInput.timeout input))).
Proof.
  intros Hnew Hval Hpool Hh.
  assert (Hadd : forall ms n f ok err,
             history_add_query_env
               env (emit w (DbExecute (QueryDatabaseInput.query input)
                                      (QueryDatabaseInput.timeout input)))
               (now clock) (QueryDatabaseInput.query input) ms n f ok err
             = Raise e).
  { intros. apply history_add_query_env_raise.
    now rewrite get_query_history_env_emit, Hh. }
  unfold query_database_tool_env, get_database_pool.
  rewrite Hnew, Hval, Hpool.
  destruct (execute_readonly_query db _ _) as [rows|e0]; simpl.
  - destruct (format_rows rows _) as [out|e0]; simpl.
    + rewrite Hadd. simpl. now rewrite Hadd.
    + now rewrite Hadd.
  - now rewrite Hadd.
Qed.

(** A call stops before the [try] block, with the world as it was, or
    enters it. *)
Lemma query_database_tool_env_cases (env : Environ)
      (args : QueryDatabaseInput.kwargs) (clock : Clock) (w : World) :
  (exists e, query_database_tool_env env args clock w = (Raise e, w))
  \/ exists input db,
      QueryDatabaseInput.new args = Ok input
      /\ validate_query (QueryDatabaseInput.query input) = Ok tt
      /\ _db_pool w = Some db.
Proof.
  unfold query_database_tool_env, get_database_pool.
  destruct (QueryDatabaseInput.new args) as [input|e]; [| left; eauto].
  destruct (validate_query _) as [[]|e] eqn:Hval; [| left; eauto].
  destruct (_db_pool w) as [db|]; [| left; eauto].
  right. now exists input, db.
Qed.

(** Where the history is there, or the capacity in the world is the one
    of the environment, the handlers are those of the first model. *)
Lemma get_query_history_env_agrees (env : Environ) (w : World) :
  _query_history w <> None \/ capacity_from np env w ->
  get_query_history_env env w = Ok (get_query_history w).
Proof.
  unfold capacity_from, get_query_history_env, get_query_history.
  destruct (_query_history w); [reflexivity |].
  intros [H | ->]; [now elim H | reflexivity].
Qed.

Lemma history_add_query_env_agrees (env : Environ) (w : World)
      (now : datetime) (q : string) (ms : pyfloat)
      (n : Z) (f : OutputFormat) (ok : bool) (err : option string) :
  _query_history w <> None \/ capacity_from np env w ->
  history_add_query_env env w now q ms n f ok err
  = Ok (history_add_query w now q ms n f ok err).
Proof.
  intros H. unfold history_add_query_env, history_add_query.
  rewrite (get_query_history_env_agrees env w H). simpl.
  now destruct (get_query_history w).
Qed.

Lemma query_database_tool_env_agrees (env : Environ)
      (args : QueryDatabaseInput.kwargs) (clock : Clock) (w : World) :
  _query_history w <> None \/ capacity_from np env w ->
  query_database_tool_env env args clock w = query_database_tool args clock w.
Proof.
  intros H.
  assert (H1 : forall ev,
             _query_history (emit w ev) <> None
             \/ capacity_from np env (emit w ev)) by (intros ev; exact H).
  unfold query_database_tool_env, query_database_tool.
  destruct (QueryDatabaseInput.new args) as [input|e]; [| reflexivity].
  destruct (validate_query _) as [[]|e]; [| reflexivity].
  destruct (get_database_pool w) as [db|e]; [| reflexivity].
  destruct (execute_readonly_query db _ _) as [rows|e]; simpl.
  - destruct (format_rows rows _) as [out|e]; simpl;
      now rewrite (history_add_query_env_agrees env _ _ _ _ _ _ _ _ (H1 _)).
  - now rewrite (history_add_query_env_agrees env _ _ _ _ _ _ _ _ (H1 _)).
Qed.

Lemma get_query_history_tool_env_agrees (env : Environ)
      (args : GetQueryHistoryInput.kwargs) (w : World) :
  _query_history w <> None \/ capacity_from np env w ->
  get_query_history_tool_env env args w = get_query_history_tool args w.
Proof.
  intros H. unfold get_query_history_tool_env, get_query_history_tool.
  destruct (GetQueryHistoryInput.new args) as [input|e]; [| reflexivity].
  rewrite (get_query_history_env_agrees env w H).
  now destruct (get_query_history w).
Qed.

End WithRuntime.

End HistoryEnvFacts.

(** A negative QUERY_HISTORY_SIZE: the statement goes to the pool, which
    answers, and the call raises the error of [deque]; no entry is
    appended and the history is still not there. *)
Example query_database_history_size_negative :
  let args := QueryDatabaseInput.mk_kwargs (Some "SELECT 1") None None in
  let w := Sample.world Sample.pool_one_row in
  query_database_tool_env (rt := Sample.runtime) (np := SampleHistory.parsing)
                          SampleHistory.size_negative args Sample.clock w
  = (Raise (ValueError "maxlen must be non-negative"),
     emit w (DbExecute "SELECT 1" None)).
Proof. reflexivity. Qed.

(** With the variable unset the history gets the capacity 100. *)
Example new_query_history_default :
  new_query_history (np := SampleHistory.parsing) SampleHistory.unset
  = Ok (QueryHistory.init 100).
Proof. reflexivity. Qed.

(** C2, as the code has it. A call whose arguments and query pass
    validation, that finds the pool and then fails in the execution or in
    the formatting of the result, appends exactly one entry to the
    history, with row_count 0, success false and the text of the error,
    and raises that error to the caller, provided the history is there
    or can be created: QUERY_HISTORY_SIZE is unset or the text of a size
    that [deque] takes. Where it cannot be created, the call raises the
    error of creating it and nothing is appended. A call that fails
    before, in the validation of its arguments or of its query or for
    want of a pool, raises the error and leaves the history as it was:
    [DELETE FROM t] is refused with the error that names DELETE and
    nothing is recorded. *)
Theorem query_database_failure_recording :
  forall (rt : PyRuntime) (np : PyNumberParsing) (env : Environ)
         (args : QueryDatabaseInput.kwargs) (clock : Clock) (w : World),
    let run := query_database_tool_env env args clock w in
    (forall input db e,
        QueryDatabaseInput.new args = Ok input ->
        validate_query (QueryDatabaseInput.query input) = Ok tt ->
        _db_pool w = Some db ->
        (rows <- execute_readonly_query db (QueryDatabaseInput.query input)
                                        (QueryDatabaseInput.timeout input) ;;
         format_rows rows (QueryDatabaseInput.format input)) = Raise e ->
        let failed :=
          QueryHistoryEntry.mk (QueryDatabaseInput.query input) (now clock)
                               (elapsed_ms clock) 0
                               (QueryDatabaseInput.format input) false
                               (Some (str_exn e)) in
        (history_usable np env w ->
         exists h w0,
           get_query_history_env env w = Ok (h, w0)
           /\ fst run = Raise e
           /\ appended (trace (snd run)) = (appended (trace w) ++ [failed])%list
           /\ _query_history (snd run) = Some (QueryHistory.record h failed))
        /\ (~ history_usable np env w ->
            exists e',
              get_query_history_env env w = Raise e'
              /\ fst run = Raise e'
              /\ appended (trace (snd run)) = appended (trace w)
              /\ _query_history (snd run) = None))
    /\ (forall e,
           QueryDatabaseInput.new args = Raise e
           \/ (exists input,
                  QueryDatabaseInput.new args = Ok input
                  /\ validate_query (QueryDatabaseInput.query input) = Raise e) ->
           run = (Raise e, w))
    /\ (forall input,
           QueryDatabaseInput.new args = Ok input ->
           validate_query (QueryDatabaseInput.query input) = Ok tt ->
           _db_pool w = None ->
           exists msg, run = (Raise (ValueError msg), w))
    /\ query_database_tool_env
         env (QueryDatabaseInput.mk_kwargs (Some "DELETE FROM t") None None)
         clock w
       = (Raise (ValueError (forbidden_keyword_message "DELETE")), w).
Proof.
  intros rt np env args clock w run. unfold run. split; [| split; [| split]].
  - intros input db e Hnew Hval Hpool Hfail. cbv zeta. split.
    + intros Husable.
      apply HistoryEnvFacts.get_query_history_env_usable in Husable
        as (h & w0 & Hh).
      exists h, w0. split; [exact Hh |].
      rewrite (HistoryEnvFacts.query_database_tool_env_try
                 env args clock w w0 input db h Hnew Hval Hpool Hh).
      assert (Hattempt :
                (rows <- execute_readonly_query db (QueryDatabaseInput.query input)
                                                (QueryDatabaseInput.timeout input) ;;
                 formatted_output <-
                   format_rows rows (QueryDatabaseInput.format input) ;;
                 Ok (rows, formatted_output)) = Raise e).
      { destruct (execute_readonly_query db _ _) as [rows|e']; simpl in *;
          [| congruence].
        destruct (format_rows rows _); simpl; [discriminate | congruence]. }
      rewrite Hattempt. simpl.
      split; [reflexivity | split; [| reflexivity]].
      unfold appended. now rewrite !flat_map_app, app_nil_r.
    + intros Hno.
      apply HistoryEnvFacts.get_query_history_env_unusable in Hno
        as (Hnone & e' & Hh).
      exists e'. split; [exact Hh |].
      rewrite (HistoryEnvFacts.query_database_tool_env_no_history
                 env args clock w input db e' Hnew Hval Hpool Hh).
      simpl. split; [reflexivity | split; [| exact Hnone]].
      unfold appended. now rewrite flat_map_app, app_nil_r.
  - intros e [Hnew | (input & Hnew & Hval)]; unfold query_database_tool_env;
      rewrite Hnew; [reflexivity | now rewrite Hval].
  - intros input Hnew Hval Hpool.
    unfold query_database_tool_env, get_database_pool.
    rewrite Hnew, Hval, Hpool. eauto.
  - reflexivity.
Qed.

(** C2, the witness: a statement that times out, in a process where
    QUERY_HISTORY_SIZE is unset and in one where it is not a number. *)
Lemma query_database_failure_recording_witness :
  let args := QueryDatabaseInput.mk_kwargs (Some "SELECT pg_sleep(5)") None
                                           (Some (Finite 1)) in
  let w := Sample.world Sample.pool_timeout in
  let e := ValueError "Query execution timeout after 1.0 seconds" in
  let failed :=
    QueryHistoryEntry.mk "SELECT pg_sleep(5)" Sample.midnight (Finite 3) 0
                         JSON false
                         (Some "Query execution timeout after 1.0 seconds") in
  let run :=
    query_database_tool_env (rt := Sample.runtime) (np := SampleHistory.parsing)
                            SampleHistory.unset args Sample.clock w in
  let run_many :=
    query_database_tool_env (rt := Sample.runtime) (np := SampleHistory.parsing)
                            SampleHistory.size_many args Sample.clock w in
  (fst run = Raise e
   /\ appended (trace (snd run)) = [failed]
   /\ _query_history (snd run)
      = Some (QueryHistory.record (QueryHistory.init 100) failed))
  /\ (fst run_many
      = Raise (ValueError "invalid literal for int() with base 10: 'many'")
      /\ appended (trace (snd run_many)) = []
      /\ _query_history (snd run_many) = None).
Proof.
  intros args w e failed run run_many. split.
  - destruct (proj1 (proj1 (query_database_failure_recording
                              Sample.runtime SampleHistory.parsing
                              SampleHistory.unset args Sample.clock w)
                           (QueryDatabaseInput.mk "SELECT pg_sleep(5)" JSON
                                                  (Some (Finite 1)))
                           Sample.pool_timeout e eq_refl eq_refl eq_refl eq_refl))
      as (h & w0 & Hh & Hres & Happ & Hhist).
    + right. exists 100%Z. split; [reflexivity | vm_compute; split; discriminate].
    + injection Hh as <- <-.
      split; [exact Hres | split; [exact Happ | exact Hhist]].
  - destruct (proj2 (proj1 (query_database_failure_recording
                              Sample.runtime SampleHistory.parsing
                              SampleHistory.size_many args Sample.clock w)
                           (QueryDatabaseInput.mk "SELECT pg_sleep(5)" JSON
                                                  (Some (Finite 1)))
                           Sample.pool_timeout e eq_refl eq_refl eq_refl eq_refl))
      as (e' & He' & Hres & Happ & Hhist).
    + intros [H | (n & Hn & _)]; [now apply H | discriminate Hn].
    + injection He' as <-.
      split; [exact Hres | split; [exact Happ | exact Hhist]].
Defined.

(** C2, the claim as stated, fails: the call with [DELETE FROM t] is
    refused with the error that names DELETE, and no entry is appended to
    the history, which is not even created. *)
Lemma query_database_validation_failure_not_recorded :
  let args := QueryDatabaseInput.mk_kwargs (Some "DELETE FROM t") None None in
  let w := Sample.world Sample.pool_one_row in
  let run :=
    query_database_tool_env (rt := Sample.runtime) (np := SampleHistory.parsing)
                            SampleHistory.unset args Sample.clock w in
  fst run = Raise (ValueError (forbidden_keyword_message "DELETE"))
  /\ appended (trace (snd run)) = []
  /\ _query_history (snd run) = None
  /\ ~ (exists failed, appended (trace (snd run)) = [failed]).
Proof.
  simpl. repeat split. intros [failed H]. discriminate.
Qed.

(** C4, the witness: capacity 2, three insertions. *)
Lemma history_bounded_newest_first_witness :
  let h := QueryHistory.record_all
             (QueryHistory.init 2)
             [Sample.entry 0; Sample.entry 1; Sample.entry 2] in
  QueryHistory._history h = [Sample.entry 1; Sample.entry 2]
  /\ QueryHistory.get_recent h 2 = [Sample.entry 2; Sample.entry 1]
  /\ (Z.of_nat (length (QueryHistory.get_recent h 1)) <= Z.min 1 2)%Z.
Proof.
  intros h.
  destruct (proj1 (proj2 (history_bounded_newest_first 2))
                  [] (Sample.entry 0) [Sample.entry 1; Sample.entry 2] eq_refl)
    as (Hh & _ & Hrecent).
  destruct (proj2 (proj2 (history_bounded_newest_first 2))
                  [QueryHistory.OpRecord (Sample.entry 0);
                   QueryHistory.OpRecord (Sample.entry 1);
                   QueryHistory.OpRecord (Sample.entry 2)] 1%Z)
    as (Hlen & _); [lia |].
  split; [exact Hh | split; [exact Hrecent | exact Hlen]].
Defined.

(** C4, the claim as stated, fails for a negative limit: the slice then
    drops entries from the old end, and no list is as short as a negative
    bound asks. *)
Lemma get_recent_negative_limit_exceeds_bound :
  let h := QueryHistory.record_all
             (QueryHistory.init 2)
             [Sample.entry 0; Sample.entry 1; Sample.entry 2] in
  QueryHistory.get_recent h (-1) = [Sample.entry 2]
  /\ ~ (Z.of_nat (length (QueryHistory.get_recent h (-1)))
        <= Z.min (-1) (Z.of_nat (QueryHistory.maxlen h)))%Z.
Proof.
  simpl. split; [reflexivity |]. vm_compute. intros H. now apply H.
Qed.

(** C5, the witness: a port out of range, a missing password, and a
    command timeout of 0. *)
Lemma config_construction_fails_iff_witness :
  (exists errors,
      DatabaseConfig.new
        (DatabaseConfig.mk_kwargs (Some "localhost") (Some 70000%Z) (Some "app")
                                  (Some "reader") (Some "secret")
                                  None None None None)
      = Raise (ValidationError "DatabaseConfig" errors))
  /\ (exists errors,
         DatabaseConfig.new
           (DatabaseConfig.mk_kwargs (Some "localhost") None (Some "app")
                                     (Some "reader") None None None None None)
         = Raise (ValidationError "DatabaseConfig" errors))
  /\ (exists errors,
         DatabaseConfig.new
           (DatabaseConfig.mk_kwargs (Some "localhost") None (Some "app")
                                     (Some "reader") (Some "secret") None None
                                     (Some (Finite 0)) (Some (Finite 10)))
         = Raise (ValidationError "DatabaseConfig" errors)).
Proof.
  split; [| split].
  - refine (proj1 (config_construction_fails_iff _ _) _);
      [split; discriminate |].
    right. left. exists 70000%Z. split; [reflexivity | lia].
  - refine (proj1 (config_construction_fails_iff _ _) _);
      [split; discriminate |].
    left. right. right. right. reflexivity.
  - refine (proj1 (config_construction_fails_iff _ _) _);
      [split; discriminate |].
    right. right. right. right. left. exists (Finite 0).
    split; [reflexivity |]. vm_compute. intros H. discriminate H.
Defined.


(* ================================================================== *)
(** * Part III: further properties of the code *)
(* ================================================================== *)

(** ** validators.py: comment stripping *)

Module StripFacts.

Lemma deleted_from_refl (s : string) : deleted_from s s.
Proof. induction s; constructor; assumption. Qed.

Lemma deleted_from_trans (a b c : string) :
  deleted_from a b -> deleted_from b c -> deleted_from a c.
Proof.
  intros Hab Hbc. revert a Hab.
  induction Hbc as [|x b c Hbc IH|x b c Hbc IH]; intros a Hab.
  - exact Hab.
  - inversion Hab; subst.
    + apply deleted_keep. now apply IH.
    + apply deleted_drop. now apply IH.
  - apply deleted_drop. now apply IH.
Qed.

Lemma deleted_from_length (a b : string) :
  deleted_from a b -> String.length a <= String.length b.
Proof. induction 1; simpl; lia. Qed.

(** Whatever the pattern, the substitution only deletes. *)
Lemma sub_delete_deletes (match_len : string -> option nat) (s : string) :
  forall skip, deleted_from (Re.sub_delete match_len skip s) s.
Proof.
  induction s as [|c s IH]; intros skip; simpl; [constructor |].
  destruct skip as [|k]; [| apply deleted_drop, IH].
  destruct (match_len (String c s)) as [[|k]|].
  - apply deleted_keep, IH.
  - apply deleted_drop, IH.
  - apply deleted_keep, IH.
Qed.

(** Where the pattern matches at no position, nothing is deleted. *)
Lemma sub_delete_no_match (match_len : string -> option nat) (s : string) :
  (forall pre t, s = pre ++ t -> match_len t = None) ->
  Re.sub_delete match_len 0 s = s.
Proof.
  induction s as [|c s IH]; intros H; simpl; [reflexivity |].
  rewrite (H "" (String c s) eq_refl). f_equal. apply IH.
  intros pre t ->. now apply (H (String c pre)).
Qed.

Lemma line_comment_at_some (t : string) :
  Re.line_comment_at t <> None -> exists r, t = "--" ++ r.
Proof.
  destruct t as [|c1 [|c2 r]]; simpl; try congruence.
  destruct (Ascii.eqb_spec c1 "-"), (Ascii.eqb_spec c2 "-"); simpl;
    try congruence.
  subst. intros _. now exists r.
Qed.

Lemma block_comment_at_some (t : string) :
  Re.block_comment_at t <> None -> exists r, t = "/*" ++ r.
Proof.
  destruct t as [|c1 [|c2 r]]; simpl; try congruence.
  destruct (Ascii.eqb_spec c1 "/"), (Ascii.eqb_spec c2 "*"); simpl;
    try congruence.
  subst. intros _. now exists r.
Qed.

End StripFacts.

(** X1. Stripping comments only deletes characters: what is left is the
    query with some characters removed, the others in their order, so the
    result is never longer than the query. *)
Theorem remove_sql_comments_only_deletes :
  forall query,
    deleted_from (remove_sql_comments query) query
    /\ String.length (remove_sql_comments query) <= String.length query.
Proof.
  intros query.
  assert (H : deleted_from (remove_sql_comments query) query).
  { unfold remove_sql_comments.
    eapply StripFacts.deleted_from_trans; apply StripFacts.sub_delete_deletes. }
  split; [exact H | now apply StripFacts.deleted_from_length].
Qed.

(** X2. A query in which neither two dashes in a row nor a slash-star
    occurs comes out of the comment stripping unchanged. *)
Theorem remove_sql_comments_without_markers :
  forall query,
    ~ contains_text "--" query -> ~ contains_text "/*" query ->
    remove_sql_comments query = query.
Proof.
  intros query Hline Hblock. unfold remove_sql_comments.
  rewrite (StripFacts.sub_delete_no_match Re.line_comment_at query).
  - apply StripFacts.sub_delete_no_match. intros pre t ->.
    destruct (Re.block_comment_at t) eqn:E; [| reflexivity].
    destruct (StripFacts.block_comment_at_some t) as [r ->]; [congruence |].
    elim Hblock. now exists pre, r.
  - intros pre t ->.
    destruct (Re.line_comment_at t) eqn:E; [| reflexivity].
    destruct (StripFacts.line_comment_at_some t) as [r ->]; [congruence |].
    elim Hline. now exists pre, r.
Qed.

Lemma contains_text_chars (needle s : string) (c : ascii) :
  contains_text needle s -> char_in c needle -> char_in c s.
Proof.
  intros (pre & post & ->) Hc.
  induction pre as [|x pre IH]; simpl; [| now right].
  induction needle as [|y needle IH]; simpl in *; [contradiction |].
  destruct Hc as [-> | Hc]; [now left | right; now apply IH].
Qed.

Lemma remove_sql_comments_without_markers_witness :
  remove_sql_comments "SELECT name FROM t WHERE id = 1"
  = "SELECT name FROM t WHERE id = 1".
Proof.
  apply remove_sql_comments_without_markers.
  - intros H. apply (contains_text_chars _ _ "-"%char) in H; simpl in *;
      [| now left].
    repeat (destruct H as [H | H]; [discriminate |]). exact H.
  - intros H. apply (contains_text_chars _ _ "/"%char) in H; simpl in *;
      [| now left].
    repeat (destruct H as [H | H]; [discriminate |]). exact H.
Defined.

(** ** validators.py: letter case *)

Module CaseFacts.
Import Re.

Lemma lower_idem (c : ascii) : ascii_lower (ascii_lower c) = ascii_lower c.
Proof. ReFacts.each_char c. Qed.

Lemma lower_is_space (c : ascii) : is_space (ascii_lower c) = is_space c.
Proof. ReFacts.each_char c. Qed.

Lemma lower_is_word (c : ascii) : is_word_char (ascii_lower c) = is_word_char c.
Proof. ReFacts.each_char c. Qed.

Lemma lower_eqb_dash (c : ascii) : (ascii_lower c =? "-")%char = (c =? "-")%char.
Proof. ReFacts.each_char c. Qed.

Lemma lower_eqb_slash (c : ascii) : (ascii_lower c =? "/")%char = (c =? "/")%char.
Proof. ReFacts.each_char c. Qed.

Lemma lower_eqb_star (c : ascii) : (ascii_lower c =? "*")%char = (c =? "*")%char.
Proof. ReFacts.each_char c. Qed.

Lemma lower_eqb_LF (c : ascii) : (ascii_lower c =? LF)%char = (c =? LF)%char.
Proof. ReFacts.each_char c. Qed.

Lemma lower_string_app (a b : string) :
  lower_string (a ++ b) = lower_string a ++ lower_string b.
Proof. induction a as [|x a IH]; simpl; [reflexivity | now rewrite IH]. Qed.

Lemma lower_string_app_inv (s : string) :
  forall a b,
    lower_string s = a ++ b ->
    exists s1 s2, s = s1 ++ s2 /\ lower_string s1 = a /\ lower_string s2 = b.
Proof.
  induction s as [|c s IH]; intros [|x a] b H; simpl in H.
  - exists "", "". now subst b.
  - discriminate.
  - exists "", (String c s). now subst b.
  - injection H as <- H. destruct (IH _ _ H) as (s1 & s2 & -> & <- & <-).
    now exists (String c s1), s2.
Qed.

Lemma lower_all_space (s : string) :
  all_chars is_space (lower_string s) = all_chars is_space s.
Proof.
  induction s as [|c s IH]; simpl; [reflexivity |].
  now rewrite lower_is_space, IH.
Qed.

Lemma lower_strip_empty (s : string) :
  strip (lower_string s) = "" <-> strip s = "".
Proof. now rewrite !ReFacts.strip_empty_iff, lower_all_space. Qed.

Lemma lower_line_rest_len (s : string) :
  line_rest_len (lower_string s) = line_rest_len s.
Proof.
  induction s as [|c s IH]; simpl; [reflexivity |].
  now rewrite lower_eqb_LF, IH.
Qed.

Lemma lower_line_comment_at (s : string) :
  line_comment_at (lower_string s) = line_comment_at s.
Proof.
  destruct s as [|c1 [|c2 r]]; simpl; try reflexivity.
  now rewrite !lower_eqb_dash, lower_line_rest_len.
Qed.

Lemma lower_block_end_len (s : string) :
  block_end_len (lower_string s) = block_end_len s.
Proof.
  induction s as [|c s IH]; simpl; [reflexivity |].
  destruct s as [|d s]; simpl in *; [reflexivity |].
  now rewrite lower_eqb_star, lower_eqb_slash, IH.
Qed.

Lemma lower_block_comment_at (s : string) :
  block_comment_at (lower_string s) = block_comment_at s.
Proof.
  destruct s as [|c1 [|c2 r]]; simpl; try reflexivity.
  now rewrite lower_eqb_slash, lower_eqb_star, lower_block_end_len.
Qed.

Lemma lower_sub_delete (match_len : string -> option nat) :
  (forall t, match_len (lower_string t) = match_len t) ->
  forall s skip,
    sub_delete match_len skip (lower_string s)
    = lower_string (sub_delete match_len skip s).
Proof.
  intros Hml. induction s as [|c s IH]; intros skip; simpl; [reflexivity |].
  destruct skip as [|k]; [| apply IH].
  change (String (ascii_lower c) (lower_string s))
    with (lower_string (String c s)).
  rewrite Hml. destruct (match_len (String c s)) as [[|k]|]; simpl;
    now rewrite IH.
Qed.

Lemma lower_remove_sql_comments (q : string) :
  remove_sql_comments (lower_string q) = lower_string (remove_sql_comments q).
Proof.
  unfold remove_sql_comments.
  rewrite (lower_sub_delete _ lower_line_comment_at).
  apply (lower_sub_delete _ lower_block_comment_at).
Qed.

Lemma lower_ci_equal (kw mid : string) :
  ci_equal kw (lower_string mid) = ci_equal kw mid.
Proof.
  revert mid. induction kw as [|p kw IH]; intros [|c mid]; simpl;
    try reflexivity.
  unfold ci_char_match. now rewrite lower_idem, IH.
Qed.

Lemma lower_last_or (s : string) :
  forall prev,
    is_word_opt (last_or (option_map ascii_lower prev) (lower_string s))
    = is_word_opt (last_or prev s).
Proof.
  induction s as [|c s IH]; intros prev; simpl.
  - destruct prev; simpl; [apply lower_is_word | reflexivity].
  - apply (IH (Some c)).
Qed.

Lemma lower_head (s : string) :
  is_word_opt (head (lower_string s)) = is_word_opt (head s).
Proof. destruct s; simpl; [reflexivity | apply lower_is_word]. Qed.

Lemma lower_occurs_as_word (kw text : string) :
  occurs_as_word kw (lower_string text) <-> occurs_as_word kw text.
Proof.
  unfold occurs_as_word. split.
  - intros (pre & mid & post & H & Hci & Hp & Hq).
    apply lower_string_app_inv in H as (t1 & t23 & -> & <- & H).
    apply lower_string_app_inv in H as (t2 & t3 & -> & <- & <-).
    exists t1, t2, t3. rewrite lower_ci_equal in Hci.
    pose proof (lower_last_or t1 None) as E. simpl in E.
    rewrite E in Hp. rewrite lower_head in Hq. auto.
  - intros (pre & mid & post & -> & Hci & Hp & Hq).
    exists (lower_string pre), (lower_string mid), (lower_string post).
    pose proof (lower_last_or pre None) as E. simpl in E.
    rewrite !lower_string_app, lower_ci_equal, E, lower_head. auto.
Qed.

Lemma find_ext_in {A : Type} (f g : A -> bool) (l : list A) :
  (forall x, In x l -> f x = g x) -> find f l = find g l.
Proof.
  induction l as [|x l IH]; intros H; simpl; [reflexivity |].
  rewrite (H x (or_introl eq_refl)). destruct (g x); [reflexivity |].
  apply IH. intros y Hy. apply H. now right.
Qed.

Lemma validate_query_lower (q : string) :
  validate_query (lower_string q) = validate_query q.
Proof.
  destruct (string_dec (strip q) "") as [Hb | Hb].
  - rewrite (validate_query_blank q Hb).
    apply validate_query_blank. now apply lower_strip_empty.
  - rewrite (validate_query_not_blank q Hb).
    rewrite validate_query_not_blank by (now rewrite lower_strip_empty).
    rewrite lower_remove_sql_comments.
    rewrite (find_ext_in
               (fun keyword =>
                  search_word keyword (lower_string (remove_sql_comments q)))
               (fun keyword => search_word keyword (remove_sql_comments q)));
      [reflexivity |].
    intros kw Hin. apply eq_true_iff_eq.
    rewrite !(search_forbidden_keyword _ _ Hin). apply lower_occurs_as_word.
Qed.

End CaseFacts.

(** X3. The verdict of [validate_query] does not depend on the case of
    the ASCII letters of the query: two queries that are equal once their
    capitals are put in lower case are both accepted, or both refused
    with the same error. *)
Theorem validate_query_ignores_case :
  forall q1 q2,
    lower_string q1 = lower_string q2 -> validate_query q1 = validate_query q2.
Proof.
  intros q1 q2 H.
  rewrite <- (CaseFacts.validate_query_lower q1),
    <- (CaseFacts.validate_query_lower q2).
  now rewrite H.
Qed.

Lemma validate_query_ignores_case_witness :
  validate_query "Select * From t; dRoP tAbLe t"
  = validate_query "SELECT * FROM T; DROP TABLE T".
Proof. apply validate_query_ignores_case. reflexivity. Defined.

(** ** validators.py: what an accepted identifier is made of *)

Lemma all_chars_char_in (p : ascii -> bool) (s : string) (c : ascii) :
  Re.all_chars p s = true -> char_in c s -> p c = true.
Proof.
  induction s as [|d s IH]; simpl; [contradiction |].
  intros H [-> | Hc]; apply andb_true_iff in H as [Hd Hs]; auto.
Qed.

Lemma char_in_app (c : ascii) (a b : string) :
  char_in c (a ++ b) -> char_in c a \/ char_in c b.
Proof.
  induction a as [|x a IH]; simpl; [auto |].
  intros [-> | H]; [auto | destruct (IH H); auto].
Qed.

(** X4. What [sanitize_identifier] returns is its argument, and every
    character of it is a letter, a digit, an underscore, a dot or a line
    feed; no quote, semicolon, space, backslash or parenthesis passes. *)
Theorem sanitize_identifier_safe_characters :
  forall identifier r,
    sanitize_identifier identifier = Ok r ->
    r = identifier
    /\ r <> ""
    /\ (forall c, char_in c r -> Re.is_identifier_char c = true \/ c = Re.LF)
    /\ (forall c, In c ["'"; ";"; " "; "\"; "("; ")"; "-"; "/"; "*";
                        ascii_of_nat 34]%char ->
                  ~ char_in c r).
Proof.
  intros identifier r H.
  assert (Hr : r = identifier).
  { unfold sanitize_identifier in H.
    destruct (_ =? "")%string; [discriminate |].
    destruct (negb _); [discriminate | congruence]. }
  subst r.
  assert (Hchars : forall c, char_in c identifier ->
                             Re.is_identifier_char c = true \/ c = Re.LF).
  { apply sanitize_identifier_ok_iff in H as (body & _ & Hall & [-> | ->]);
      intros c Hc.
    - left. exact (all_chars_char_in _ _ _ Hall Hc).
    - apply char_in_app in Hc as [Hc | Hc].
      + left. exact (all_chars_char_in _ _ _ Hall Hc).
      + right. simpl in Hc. destruct Hc as [<- | []]. reflexivity. }
  repeat split; [| exact Hchars |].
  - intros ->. discriminate.
  - intros c Hin Hc. destruct (Hchars c Hc) as [Hid | Hlf]; simpl in Hin.
    + repeat (destruct Hin as [E | Hin];
              [subst c; vm_compute in Hid; discriminate |]).
      exact Hin.
    + repeat (destruct Hin as [E | Hin];
              [rewrite Hlf in E; vm_compute in E; discriminate |]).
      exact Hin.
Qed.

Lemma sanitize_identifier_safe_characters_witness :
  ~ char_in "'"%char "public.users".
Proof.
  apply (proj2 (proj2 (proj2 (sanitize_identifier_safe_characters
                                "public.users" "public.users" eq_refl)))).
  simpl. now left.
Defined.

(** ** types.py: what the constructors build *)

Module ModelFacts.
Import Pydantic.

Lemma ap_valid_inv {A B : Type} (f : validated (A -> B)) (x : validated A) (v : B) :
  f <*> x = Valid v -> exists g a, f = Valid g /\ x = Valid a /\ v = g a.
Proof.
  destruct f as [g|], x as [a|]; simpl; try discriminate.
  intros [= <-]. now exists g, a.
Qed.

Lemma required_valid_inv {A : Type} (name : string) (raw : option A) (v : A) :
  required name no_validator raw = Valid v -> raw = Some v.
Proof.
  destruct raw as [x|]; simpl; [| discriminate].
  unfold run_validator, no_validator. now intros [= <-].
Qed.

Lemma with_default_valid_inv {A : Type} (name : string) (d : A)
      (validator : A -> result A) (raw : option A) (v : A) :
  with_default name d validator raw = Valid v ->
  (raw = None /\ v = d) \/ (exists x, raw = Some x /\ validator x = Ok v).
Proof.
  destruct raw as [x|]; simpl; [| intros [= <-]; auto].
  unfold run_validator. destruct (validator x) as [y|e] eqn:E.
  - intros [= <-]. right. now exists x.
  - now destruct e.
Qed.

Lemma validate_port_inv (x v : Z) :
  DatabaseConfig.validate_port x = Ok v -> v = x /\ (1 <= v <= 65535)%Z.
Proof.
  unfold DatabaseConfig.validate_port.
  destruct (Z.leb_spec 1 x), (Z.leb_spec x 65535); simpl; try discriminate.
  intros [= <-]. lia.
Qed.

Lemma validate_pool_size_inv (x v : Z) :
  DatabaseConfig.validate_pool_size x = Ok v -> v = x /\ (1 <= v)%Z.
Proof.
  unfold DatabaseConfig.validate_pool_size.
  destruct (Z.ltb_spec x 1); [discriminate |]. intros [= <-]. lia.
Qed.

Lemma validate_config_timeout_inv (x v : pyfloat) :
  DatabaseConfig.validate_timeout x = Ok v -> v = x /\ ~ float_le v 0.
Proof.
  unfold DatabaseConfig.validate_timeout.
  destruct (float_le_int x 0) eqn:E; [discriminate |]. intros [= <-].
  split; [reflexivity |]. rewrite <- float_le_int_spec. congruence.
Qed.

End ModelFacts.

(** X5. The text of an output format is read back as that format, and
    nothing else is read as a format: [json], [csv] and [markdown], in
    lower case, are the only values accepted. *)
Theorem OutputFormat_value_round_trip :
  forall (name s : string) (f : OutputFormat),
    OutputFormat_parse name s = Pydantic.Valid f <-> s = OutputFormat_value f.
Proof.
  intros name s f. unfold OutputFormat_parse. split.
  - destruct (String.eqb_spec s "json"); [intros [= <-]; assumption |].
    destruct (String.eqb_spec s "csv"); [intros [= <-]; assumption |].
    destruct (String.eqb_spec s "markdown"); [intros [= <-]; assumption |].
    discriminate.
  - intros ->. now destruct f.
Qed.

Lemma OutputFormat_value_round_trip_witness :
  OutputFormat_parse "format" "markdown" = Pydantic.Valid MARKDOWN
  /\ OutputFormat_parse "format" "JSON" <> Pydantic.Valid JSON.
Proof.
  split.
  - now apply (proj2 (OutputFormat_value_round_trip "format" "markdown" MARKDOWN)).
  - intros H.
    apply (proj1 (OutputFormat_value_round_trip "format" "JSON" JSON)) in H.
    discriminate.
Defined.

(** X6. The request of [query_database] is built exactly when the query
    is given, the format is absent or one of the three values, and the
    timeout is absent or passes both comparisons; the request then holds
    the query and the timeout as given, and the format given or JSON. *)
Theorem QueryDatabaseInput_construction :
  forall (a : QueryDatabaseInput.kwargs) (i : QueryDatabaseInput.t),
    QueryDatabaseInput.new a = Ok i
    <-> QueryDatabaseInput.kw_query a = Some (QueryDatabaseInput.query i)
        /\ (QueryDatabaseInput.kw_format a = None
            /\ QueryDatabaseInput.format i = JSON
            \/ QueryDatabaseInput.kw_format a
               = Some (OutputFormat_value (QueryDatabaseInput.format i)))
        /\ QueryDatabaseInput.kw_timeout a = QueryDatabaseInput.timeout i
        /\ (forall x, QueryDatabaseInput.kw_timeout a = Some x ->
                      float_le_int x 0 = false /\ float_gt_int x 300 = false).
Proof.
  intros a i. unfold QueryDatabaseInput.new. split.
  - destruct (QueryDatabaseInput.fields a) as [v|] eqn:E; simpl;
      [| discriminate].
    intros [= ->]. unfold QueryDatabaseInput.fields in E.
    apply ModelFacts.ap_valid_inv in E as (g3 & vt & E & Ht & ->).
    apply ModelFacts.ap_valid_inv in E as (g2 & vf & E & Hf & ->).
    apply ModelFacts.ap_valid_inv in E as (g1 & vq & E & Hq & ->).
    injection E as <-. simpl.
    apply ModelFacts.required_valid_inv in Hq.
    destruct a as [q f t]; simpl in *.
    split; [exact Hq |]. split; [| split].
    + unfold QueryDatabaseInput.format_field in Hf.
      destruct f as [s|]; [| injection Hf as <-; auto].
      right. f_equal. now apply (OutputFormat_value_round_trip "format").
    + unfold QueryDatabaseInput.timeout_field in Ht.
      destruct t as [x|]; [| now injection Ht as <-].
      unfold Pydantic.run_validator, QueryDatabaseInput.validate_timeout in Ht.
      destruct (float_le_int x 0); [discriminate |].
      destruct (float_gt_int x 300); [discriminate |].
      now injection Ht as <-.
    + intros y [= ->].
      unfold QueryDatabaseInput.timeout_field, Pydantic.run_validator,
        QueryDatabaseInput.validate_timeout in Ht.
      destruct (float_le_int y 0); [discriminate |].
      destruct (float_gt_int y 300); [discriminate | auto].
  - destruct a as [q f t], i as [iq ifmt it]; simpl.
    intros (-> & Hf & -> & Ht). unfold QueryDatabaseInput.fields. simpl.
    assert (Hfmt : QueryDatabaseInput.format_field f = Pydantic.Valid ifmt).
    { destruct Hf as [[-> ->] | ->]; [reflexivity |].
      now apply (OutputFormat_value_round_trip "format"). }
    assert (Htime : QueryDatabaseInput.timeout_field it = Pydantic.Valid it).
    { destruct it as [x|]; [| reflexivity].
      destruct (Ht x eq_refl) as [H0 H3].
      unfold QueryDatabaseInput.timeout_field, Pydantic.run_validator,
        QueryDatabaseInput.validate_timeout.
      now rewrite H0, H3. }
    now rewrite Hfmt, Htime.
Qed.

Lemma QueryDatabaseInput_construction_witness :
  QueryDatabaseInput.new
    (QueryDatabaseInput.mk_kwargs (Some "SELECT 1") (Some "csv")
                                  (Some (Finite 300)))
  = Ok (QueryDatabaseInput.mk "SELECT 1" CSV (Some (Finite 300))).
Proof.
  apply (proj2 (QueryDatabaseInput_construction _ _)). simpl.
  split; [reflexivity |]. split; [right; reflexivity |].
  split; [reflexivity |]. intros y [= <-]. split; reflexivity.
Defined.

(** X7. A [DatabaseConfig] that is constructed holds the four required
    values as given, each other field as given or its default (5432, 2,
    10, 60, 10), and satisfies the bound of every field: the defaults
    included, the port is within 1..65535, both pool sizes are at least
    1 and neither timeout is below or equal to 0. *)
Theorem DatabaseConfig_constructed_fields :
  forall (a : DatabaseConfig.kwargs) (c : DatabaseConfig.t),
    DatabaseConfig.new a = Ok c ->
    let given {A : Type} (o : option A) (d : A) :=
      match o with Some v => v | None => d end in
    DatabaseConfig.kw_host a = Some (DatabaseConfig.host c)
    /\ DatabaseConfig.kw_database a = Some (DatabaseConfig.database c)
    /\ DatabaseConfig.kw_user a = Some (DatabaseConfig.user c)
    /\ DatabaseConfig.kw_password a = Some (DatabaseConfig.password c)
    /\ DatabaseConfig.port c = given (DatabaseConfig.kw_port a) 5432%Z
    /\ DatabaseConfig.pool_min_size c
       = given (DatabaseConfig.kw_pool_min_size a) 2%Z
    /\ DatabaseConfig.pool_max_size c
       = given (DatabaseConfig.kw_pool_max_size a) 10%Z
    /\ DatabaseConfig.command_timeout c
       = given (DatabaseConfig.kw_command_timeout a) (Finite 60)
    /\ DatabaseConfig.connection_timeout c
       = given (DatabaseConfig.kw_connection_timeout a) (Finite 10)
    /\ (1 <= DatabaseConfig.port c <= 65535)%Z
    /\ (1 <= DatabaseConfig.pool_min_size c)%Z
    /\ (1 <= DatabaseConfig.pool_max_size c)%Z
    /\ ~ float_le (DatabaseConfig.command_timeout c) 0
    /\ ~ float_le (DatabaseConfig.connection_timeout c) 0.
Proof.
  intros a c. unfold DatabaseConfig.new.
  destruct (DatabaseConfig.fields a) as [v|] eqn:E; simpl; [| discriminate].
  intros [= ->]. unfold DatabaseConfig.fields in E.
  apply ModelFacts.ap_valid_inv in E as (g9 & v9 & E & H9 & ->).
  apply ModelFacts.ap_valid_inv in E as (g8 & v8 & E & H8 & ->).
  apply ModelFacts.ap_valid_inv in E as (g7 & v7 & E & H7 & ->).
  apply ModelFacts.ap_valid_inv in E as (g6 & v6 & E & H6 & ->).
  apply ModelFacts.ap_valid_inv in E as (g5 & v5 & E & H5 & ->).
  apply ModelFacts.ap_valid_inv in E as (g4 & v4 & E & H4 & ->).
  apply ModelFacts.ap_valid_inv in E as (g3 & v3 & E & H3 & ->).
  apply ModelFacts.ap_valid_inv in E as (g2 & v2 & E & H2 & ->).
  apply ModelFacts.ap_valid_inv in E as (g1 & v1 & E & H1 & ->).
  injection E as <-.
  destruct a as [h p d u pw mn mx ct cn]; simpl in *.
  apply ModelFacts.required_valid_inv in H1, H3, H4, H5. subst h d u pw.
  apply ModelFacts.with_default_valid_inv in H2, H6, H7, H8, H9.
  assert (Hport : v2 = match p with Some v => v | None => 5432%Z end
                  /\ (1 <= v2 <= 65535)%Z).
  { destruct H2 as [[-> ->] | (x & -> & Hx)]; [split; [reflexivity | lia] |].
    now apply ModelFacts.validate_port_inv in Hx. }
  assert (Hsize : forall o dflt v,
             (1 <= dflt)%Z ->
             (o = None /\ v = dflt)
             \/ (exists x, o = Some x /\ DatabaseConfig.validate_pool_size x = Ok v) ->
             v = match o with Some y => y | None => dflt end /\ (1 <= v)%Z).
  { intros o dflt v Hd [[-> ->] | (x & -> & Hx)]; [auto |].
    now apply ModelFacts.validate_pool_size_inv in Hx. }
  assert (Htime : forall o dflt v,
             ~ float_le dflt 0 ->
             (o = None /\ v = dflt)
             \/ (exists x, o = Some x /\ DatabaseConfig.validate_timeout x = Ok v) ->
             v = match o with Some y => y | None => dflt end /\ ~ float_le v 0).
  { intros o dflt v Hd [[-> ->] | (x & -> & Hx)]; [auto |].
    now apply ModelFacts.validate_config_timeout_inv in Hx. }
  destruct Hport as [-> Hp].
  destruct (Hsize mn 2%Z v6 ltac:(lia) H6) as [-> Hmn].
  destruct (Hsize mx 10%Z v7 ltac:(lia) H7) as [-> Hmx].
  destruct (Htime ct (Finite 60) v8 ltac:(simpl; intros H; now apply H) H8)
    as [-> Hct].
  destruct (Htime cn (Finite 10) v9 ltac:(simpl; intros H; now apply H) H9)
    as [-> Hcn].
  repeat split; auto; lia.
Qed.

Lemma DatabaseConfig_constructed_fields_witness :
  (1 <= 6432 <= 65535)%Z /\ (1 <= 2)%Z.
Proof.
  destruct (DatabaseConfig_constructed_fields
              (DatabaseConfig.mk_kwargs (Some "localhost") (Some 6432%Z)
                                        (Some "app") (Some "reader")
                                        (Some "secret") None None None None)
              (DatabaseConfig.mk "localhost" 6432 "app" "reader" "secret" 2 10
                                 (Finite 60) (Finite 10))
              eq_refl)
    as (_ & _ & _ & _ & _ & _ & _ & _ & _ & Hp & Hmn & _).
  split; [exact Hp | exact Hmn].
Defined.

(** ** history.py: counting and order *)

(** X8. After any number of insertions into a fresh history of capacity
    C, [get_count] is the smaller of C and the number of insertions, and
    [clear] brings it back to 0 with the capacity unchanged. *)
Theorem history_count_after_records :
  forall (C : nat) (entries : list QueryHistoryEntry.t),
    let h := QueryHistory.record_all (QueryHistory.init C) entries in
    QueryHistory.get_count h = Z.of_nat (Nat.min C (length entries))
    /\ QueryHistory.get_count (QueryHistory.clear h) = 0%Z
    /\ QueryHistory.maxlen (QueryHistory.clear h) = C.
Proof.
  intros C entries h.
  assert (Hinit : QueryHistory.bounded (QueryHistory.init C))
    by (unfold QueryHistory.bounded; simpl; lia).
  destruct (HistoryFacts.record_all_history entries _ Hinit) as [Hm Hh].
  fold h in Hm, Hh. simpl in Hm, Hh.
  unfold QueryHistory.get_count. rewrite Hh, HistoryFacts.lastn_length.
  repeat split. simpl. exact Hm.
Qed.

Lemma get_recent_record_head (h : QueryHistory.t) (e : QueryHistoryEntry.t)
      (limit : Z) :
  1 <= QueryHistory.maxlen h -> (1 <= limit)%Z ->
  exists rest,
    QueryHistory.get_recent (QueryHistory.record h e) limit = e :: rest.
Proof.
  intros Hcap Hlimit.
  assert (Hd : exists d, QueryHistory._history (QueryHistory.record h e)
                         = (d ++ [e])%list).
  { unfold QueryHistory.record, deque_append. simpl.
    destruct (Nat.ltb_spec (QueryHistory.maxlen h)
                           (length (QueryHistory._history h ++ [e])%list)).
    - destruct (QueryHistory._history h) as [|x d]; simpl in *; [lia |].
      now exists d.
    - now exists (QueryHistory._history h). }
  destruct Hd as [d Hd].
  rewrite HistoryFacts.get_recent_nonneg by lia.
  rewrite Hd, rev_app_distr. simpl.
  destruct (Z.to_nat limit) as [|n] eqn:E; [lia |].
  simpl. eauto.
Qed.

(** X9. In a history of capacity at least 1, the entry just recorded is
    the first that [get_recent] returns, for every limit of at least 1;
    in a history of capacity 0 nothing is ever kept. *)
Theorem history_newest_entry_first :
  forall (h : QueryHistory.t) (e : QueryHistoryEntry.t) (limit : Z),
    (1 <= QueryHistory.maxlen h -> (1 <= limit)%Z ->
     exists rest,
       QueryHistory.get_recent (QueryHistory.record h e) limit = e :: rest)
    /\ (QueryHistory.maxlen h = 0 -> QueryHistory.bounded h ->
        QueryHistory._history (QueryHistory.record h e) = []).
Proof.
  intros h e limit. split; [apply get_recent_record_head |].
  intros H0 Hb. unfold QueryHistory.bounded in Hb. rewrite H0 in Hb.
  unfold QueryHistory.record, deque_append. simpl. rewrite H0.
  destruct (QueryHistory._history h); simpl in *; [reflexivity | lia].
Qed.

Lemma history_newest_entry_first_witness :
  exists rest,
    QueryHistory.get_recent
      (QueryHistory.record (QueryHistory.init 1) (Sample.entry 7)) 20
    = Sample.entry 7 :: rest.
Proof.
  apply (proj1 (history_newest_entry_first _ _ _)); simpl; lia.
Defined.

(** ** tools.py: what a call does to the world *)

Module WorldFacts.

Section WithRuntime.
Context {rt : PyRuntime} {np : PyNumberParsing}.

(** The history that a handler gets is within its capacity: the one
    that was there, or a new and empty one. *)
Lemma get_query_history_env_bounded (env : Environ) (w w0 : World)
      (h : QueryHistory.t) :
  world_history_bounded w ->
  get_query_history_env env w = Ok (h, w0) ->
  QueryHistory.bounded h.
Proof.
  unfold world_history_bounded, get_query_history_env, new_query_history.
  destruct (_query_history w) as [h0|]; [now intros Hw [= <- _] |].
  intros _.
  destruct (get_query_history_size env) as [n|]; simpl; [| discriminate].
  destruct (deque_maxlen n) as [c|]; simpl; [| discriminate].
  intros [= <- _]. unfold QueryHistory.bounded. simpl. lia.
Qed.

Lemma emit_bounded (w : World) (e : event) :
  world_history_bounded w -> world_history_bounded (emit w e).
Proof. now unfold world_history_bounded, emit. Qed.

End WithRuntime.

End WorldFacts.

(** X10. A call of [query_database] that succeeds appends exactly one
    entry to the history: the query as given, row_count the number of
    rows, success true and no error; and it hands exactly that query,
    comments included, with the timeout of the request, to the pool. *)
Theorem query_database_success_recording :
  forall (rt : PyRuntime) (args : QueryDatabaseInput.kwargs) (clock : Clock)
         (w w' : World) (res : QueryResult.t),
    query_database_tool args clock w = (Ok res, w') ->
    exists input,
      QueryDatabaseInput.new args = Ok input
      /\ let q := QueryDatabaseInput.query input in
         let recorded :=
           QueryHistoryEntry.mk q (now clock) (elapsed_ms clock)
                                (QueryResult.row_count res)
                                (QueryDatabaseInput.format input) true None in
         trace w' = (trace w ++ [DbExecute q (QueryDatabaseInput.timeout input);
                                 HistoryAppend recorded])%list
         /\ _query_history w'
            = Some (QueryHistory.record (history_of w) recorded)
         /\ format_rows (QueryResult.rows res) (QueryDatabaseInput.format input)
            = Ok (QueryResult.formatted_output res)
         /\ QueryResult.format res
            = OutputFormat_value (QueryDatabaseInput.format input).
Proof.
  intros rt args clock w w' res H.
  destruct (ToolFacts.query_database_tool_ok_inv args clock w w' res H)
    as (input & db & Hnew & Hval & Hpool).
  rewrite (ToolFacts.query_database_tool_try args clock w input db Hnew Hval Hpool)
    in H.
  destruct (execute_readonly_query db _ _) as [rows|e]; simpl in H;
    [| discriminate].
  destruct (format_rows rows _) as [out|e] eqn:Hfmt; simpl in H;
    [| discriminate].
  injection H as <- <-. exists input. split; [exact Hnew |]. simpl.
  rewrite ToolFacts.trace_history_add_query,
    ToolFacts.history_history_add_query, ToolFacts.history_of_emit.
  unfold emit; simpl. rewrite <- app_assoc. simpl. auto.
Qed.

Lemma query_database_success_recording_witness :
  let args := QueryDatabaseInput.mk_kwargs (Some "SELECT 1 AS x -- one") None None in
  let run := query_database_tool (rt := Sample.runtime) args Sample.clock
               (Sample.world Sample.pool_one_row) in
  trace (snd run)
  = [DbExecute "SELECT 1 AS x -- one" None;
     HistoryAppend (QueryHistoryEntry.mk "SELECT 1 AS x -- one" Sample.midnight
                                         (Finite 3) 1 JSON true None)].
Proof.
  intros args run.
  pose (res := QueryResult.mk
                 [[("x", VInt 1)]] 1 ["x"] (Finite 3) "json"
                 ("[" ++ NL ++ "  {" ++ NL ++ "    "
                  ++ @json_encode_str Sample.runtime "x" ++ ": 1" ++ NL
                  ++ "  }" ++ NL ++ "]")).
  destruct (query_database_success_recording
              Sample.runtime args Sample.clock
              (Sample.world Sample.pool_one_row) (snd run) res eq_refl)
    as (input & Hnew & Htrace & _).
  injection Hnew as <-. exact Htrace.
Defined.

(** X11. Whatever the arguments and whatever QUERY_HISTORY_SIZE holds, a
    call of [query_database] does one of three things. It raises and
    leaves the world as it was. Or it hands one statement to the pool
    and appends one entry to the history, which is there or can be
    created: the entry is about that statement, its success flag tells
    whether the call returned, and its row_count is 0 when it did not.
    Or it hands one statement to the pool and the history cannot be
    created: it then raises the error of creating it and appends
    nothing. The statement handed to the pool is one that
    [validate_query] accepts, the pool stays, and the history stays
    within its capacity. *)
Theorem query_database_executes_once_and_records :
  forall (rt : PyRuntime) (np : PyNumberParsing) (env : Environ)
         (args : QueryDatabaseInput.kwargs) (clock : Clock) (w : World),
    let run := query_database_tool_env env args clock w in
    ((exists e, fst run = Raise e) /\ snd run = w
     \/ (exists q timeout entry h w0,
            history_usable np env w
            /\ get_query_history_env env w = Ok (h, w0)
            /\ trace (snd run)
               = (trace w ++ [DbExecute q timeout; HistoryAppend entry])%list
            /\ validate_query q = Ok tt
            /\ QueryHistoryEntry.query entry = q
            /\ QueryHistoryEntry.success entry = is_ok (fst run)
            /\ (is_ok (fst run) = false
                -> QueryHistoryEntry.row_count entry = 0%Z)
            /\ _query_history (snd run) = Some (QueryHistory.record h entry)
            /\ _db_pool (snd run) = _db_pool w)
     \/ (exists q timeout e,
            ~ history_usable np env w
            /\ get_query_history_env env w = Raise e
            /\ trace (snd run) = (trace w ++ [DbExecute q timeout])%list
            /\ validate_query q = Ok tt
            /\ fst run = Raise e
            /\ _query_history (snd run) = None
            /\ _db_pool (snd run) = _db_pool w))
    /\ (world_history_bounded w -> world_history_bounded (snd run)).
Proof.
  intros rt np env args clock w run. unfold run.
  destruct (HistoryEnvFacts.query_database_tool_env_cases env args clock w)
    as [[e He] | (input & db & Hnew & Hval & Hpool)].
  - rewrite He. simpl. split; [left; eauto | auto].
  - destruct (get_query_history_env env w) as [[h w0]|e] eqn:Hh.
    + assert (Husable : history_usable np env w)
        by (apply HistoryEnvFacts.get_query_history_env_usable; eauto).
      rewrite (HistoryEnvFacts.query_database_tool_env_try
                 env args clock w w0 input db h Hnew Hval Hpool Hh).
      destruct (_ <- execute_readonly_query db _ _ ;; _) as [[rows out]|e];
        simpl.
      * split.
        -- right. left. eexists _, _, _, h, w0.
           rewrite <- app_assoc. simpl.
           repeat split; try reflexivity; try assumption. discriminate.
        -- intros Hw. unfold world_history_bounded. simpl.
           apply HistoryFacts.record_bounded.
           exact (WorldFacts.get_query_history_env_bounded env w w0 h Hw Hh).
      * split.
        -- right. left. eexists _, _, _, h, w0.
           rewrite <- app_assoc. simpl.
           repeat split; try reflexivity; assumption.
        -- intros Hw. unfold world_history_bounded. simpl.
           apply HistoryFacts.record_bounded.
           exact (WorldFacts.get_query_history_env_bounded env w w0 h Hw Hh).
    + assert (Hno : ~ history_usable np env w).
      { intros Husable.
        apply HistoryEnvFacts.get_query_history_env_usable in Husable
          as (h & w0 & Hh').
        congruence. }
      destruct (HistoryEnvFacts.get_query_history_env_unusable env w Hno)
        as (Hnone & _).
      rewrite (HistoryEnvFacts.query_database_tool_env_no_history
                 env args clock w input db e Hnew Hval Hpool Hh).
      simpl. split.
      * right. right. eexists _, _, e.
        repeat split; try reflexivity; assumption.
      * intros Hw. now apply WorldFacts.emit_bounded.
Qed.

(** A statement that times out, with the history of capacity 2 full: the
    oldest entry makes room. The environment is not looked at, the
    history being there. *)
Lemma query_database_executes_once_and_records_witness :
  let w := SampleHistory.world_full Sample.pool_timeout in
  let run :=
    query_database_tool_env (rt := Sample.runtime) (np := SampleHistory.parsing)
                            SampleHistory.size_negative
                            (QueryDatabaseInput.mk_kwargs (Some "SELECT 1") None None)
                            Sample.clock w in
  world_history_bounded w
  /\ world_history_bounded (snd run)
  /\ option_map (fun h => length (QueryHistory._history h))
                (_query_history (snd run)) = Some 2.
Proof.
  intros w run.
  assert (Hw : world_history_bounded w) by (apply le_n).
  split; [exact Hw | split; [| reflexivity]].
  exact (proj2 (query_database_executes_once_and_records
                  Sample.runtime SampleHistory.parsing
                  SampleHistory.size_negative
                  (QueryDatabaseInput.mk_kwargs (Some "SELECT 1") None None)
                  Sample.clock w) Hw).
Defined.

(** X12. Once a call of [query_database] has reached the pool, whether
    it then returned or raised, a call of [get_query_history] with a
    limit within [1, 100] lists that query first, with the format of the
    request and the outcome of the call, provided the history has room
    for at least one entry. *)
Theorem query_then_history_lists_it_first :
  forall (rt : PyRuntime) (args : QueryDatabaseInput.kwargs) (clock : Clock)
         (w : World) (input : QueryDatabaseInput.t) (db : DatabasePool) (l : Z),
    QueryDatabaseInput.new args = Ok input ->
    validate_query (QueryDatabaseInput.query input) = Ok tt ->
    _db_pool w = Some db ->
    1 <= QueryHistory.maxlen (history_of w) ->
    (1 <= l <= 100)%Z ->
    let run := query_database_tool args clock w in
    exists item rest,
      fst (get_query_history_tool (GetQueryHistoryInput.mk_kwargs (Some l))
                                  (snd run))
      = Ok (item :: rest)
      /\ HistoryItem.query item = QueryDatabaseInput.query input
      /\ HistoryItem.format item
         = OutputFormat_value (QueryDatabaseInput.format input)
      /\ HistoryItem.success item = is_ok (fst run).
Proof.
  intros rt args clock w input db l Hnew Hval Hpool Hcap Hl run.
  assert (Hw : exists entry,
             _query_history (snd run)
             = Some (QueryHistory.record (history_of w) entry)
             /\ QueryHistoryEntry.query entry = QueryDatabaseInput.query input
             /\ QueryHistoryEntry.format entry = QueryDatabaseInput.format input
             /\ QueryHistoryEntry.success entry = is_ok (fst run)).
  { unfold run.
    rewrite (ToolFacts.query_database_tool_try args clock w input db Hnew Hval Hpool).
    destruct (_ <- execute_readonly_query db _ _ ;; _) as [[rows out]|e];
      simpl; eexists;
      rewrite ToolFacts.history_history_add_query, ToolFacts.history_of_emit;
      repeat split. }
  destruct Hw as (entry & Hh & Hq & Hf & Hs).
  unfold get_query_history_tool, GetQueryHistoryInput.new,
    GetQueryHistoryInput.fields. simpl.
  unfold Pydantic.run_validator.
  rewrite (ToolFacts.validate_limit_value l Hl). simpl.
  unfold get_query_history. rewrite Hh. simpl.
  destruct (get_recent_record_head (history_of w) entry l Hcap (proj1 Hl))
    as [rest ->].
  simpl. eexists _, _. split; [reflexivity |]. simpl.
  rewrite Hq, Hf, Hs. auto.
Qed.

Lemma query_then_history_lists_it_first_witness :
  let args := QueryDatabaseInput.mk_kwargs (Some "SELECT pg_sleep(5)")
                                           (Some "csv") (Some (Finite 1)) in
  let w := Sample.world Sample.pool_timeout in
  let run := query_database_tool (rt := Sample.runtime) args Sample.clock w in
  exists item rest,
    fst (get_query_history_tool (rt := Sample.runtime)
           (GetQueryHistoryInput.mk_kwargs (Some 5%Z)) (snd run))
    = Ok (item :: rest)
    /\ HistoryItem.query item = "SELECT pg_sleep(5)"
    /\ HistoryItem.format item = "csv"
    /\ HistoryItem.success item = false.
Proof.
  intros args w run.
  apply (query_then_history_lists_it_first
           Sample.runtime args Sample.clock w
           (QueryDatabaseInput.mk "SELECT pg_sleep(5)" CSV (Some (Finite 1)))
           Sample.pool_timeout 5%Z eq_refl eq_refl eq_refl).
  - simpl. lia.
  - lia.
Defined.

(** X13. A call of [get_query_history] changes neither the entries of
    the history nor the pool and appends nothing; what it returns is a
    prefix of the entries in newest-first order, at most 100 of them and,
    for a history within its capacity, at most that capacity. *)
Theorem get_query_history_reads_only :
  forall (rt : PyRuntime) (args : GetQueryHistoryInput.kwargs) (w : World),
    let run := get_query_history_tool args w in
    history_of (snd run) = history_of w
    /\ _db_pool (snd run) = _db_pool w
    /\ appended (trace (snd run)) = appended (trace w)
    /\ forall items,
        fst run = Ok items ->
        (exists older,
            map history_item (rev (QueryHistory._history (history_of w)))
            = (items ++ older)%list)
        /\ length items <= 100
        /\ (world_history_bounded w ->
            length items <= QueryHistory.maxlen (history_of w)).
Proof.
  intros rt args w run. unfold run, get_query_history_tool.
  destruct (GetQueryHistoryInput.new args) as [input|e] eqn:Hnew; simpl.
  - assert (Hl : (1 <= GetQueryHistoryInput.limit input <= 100)%Z).
    { unfold GetQueryHistoryInput.new in Hnew.
      destruct (GetQueryHistoryInput.fields args) as [v|] eqn:E; simpl in Hnew;
        [| discriminate].
      injection Hnew as ->. unfold GetQueryHistoryInput.fields in E.
      apply ModelFacts.ap_valid_inv in E as (g & v & E & Hv & ->).
      injection E as <-. simpl.
      apply ModelFacts.with_default_valid_inv in Hv
        as [[_ ->] | (x & _ & Hx)]; [lia |].
      assert (Hok : is_ok (GetQueryHistoryInput.validate_limit x) = true)
        by now rewrite Hx.
      apply ToolFacts.validate_limit_ok in Hok.
      unfold GetQueryHistoryInput.validate_limit in Hx.
      destruct (x <? 1)%Z; [discriminate |].
      destruct (x >? 100)%Z; [discriminate |].
      injection Hx as <-. exact Hok. }
    unfold history_of at 1 2, get_query_history.
    destruct (_query_history w) as [h|] eqn:Hh; simpl;
      (split; [now rewrite ?Hh |]); (split; [reflexivity |]);
      (split; [unfold appended; now rewrite flat_map_app, app_nil_r |]);
      intros items [= <-];
      rewrite HistoryFacts.get_recent_nonneg by lia;
      unfold history_of, get_query_history, world_history_bounded;
      rewrite Hh; simpl.
    + split; [| split].
      * exists (map history_item
                    (skipn (Z.to_nat (GetQueryHistoryInput.limit input))
                           (rev (QueryHistory._history h)))).
        now rewrite <- map_app, firstn_skipn.
      * rewrite length_map, length_firstn. lia.
      * intros Hb. unfold QueryHistory.bounded in Hb.
        rewrite length_map, length_firstn, length_rev. lia.
    + split; [| split].
      * exists []. now destruct (Z.to_nat _).
      * rewrite length_map, length_firstn. simpl. lia.
      * intros _. rewrite length_map, length_firstn. simpl. lia.
  - split; [reflexivity |]. split; [reflexivity |]. split; [reflexivity |].
    intros items [=].
Qed.

Lemma get_query_history_reads_only_witness :
  let w := snd (query_database_tool (rt := Sample.runtime)
                  (QueryDatabaseInput.mk_kwargs (Some "SELECT 1") None None)
                  Sample.clock (Sample.world Sample.pool_one_row)) in
  length (map (history_item (rt := Sample.runtime))
              (QueryHistory.get_recent (history_of w) 20)) <= 100.
Proof.
  intros w.
  destruct (proj2 (proj2 (proj2 (get_query_history_reads_only
                                   Sample.runtime
                                   (GetQueryHistoryInput.mk_kwargs None) w)))
                  (map (history_item (rt := Sample.runtime))
                       (QueryHistory.get_recent (history_of w) 20))
                  eq_refl)
    as (_ & H & _).
  exact H.
Defined.

(** ** formatters.py: when a format can be produced *)

Module FormatFacts.

Lemma is_ok_bind {A B : Type} (r : result A) (k : A -> result B) :
  is_ok (x <- r ;; k x) = match r with Ok a => is_ok (k a) | Raise _ => false end.
Proof. now destruct r. Qed.

Lemma mapM_is_ok {A B : Type} (f : A -> result B) (l : list A) :
  is_ok (mapM f l) = forallb (fun x => is_ok (f x)) l.
Proof.
  induction l as [|x l IH]; simpl; [reflexivity |].
  destruct (f x); simpl; [| reflexivity].
  rewrite <- IH. now destruct (mapM f l).
Qed.

Lemma mapM_ok_Forall2 {A B : Type} (f : A -> result B) (l : list A) :
  forall l', mapM f l = Ok l' -> Forall2 (fun x y => f x = Ok y) l l'.
Proof.
  induction l as [|x l IH]; simpl; intros l' H.
  - injection H as <-. constructor.
  - destruct (f x) as [y|] eqn:Hx; simpl in H; [| discriminate].
    destruct (mapM f l) as [ys|]; simpl in H; [| discriminate].
    injection H as <-. constructor; auto.
Qed.

Lemma mapM_length {A B : Type} (f : A -> result B) (l : list A) (l' : list B) :
  mapM f l = Ok l' -> length l' = length l.
Proof.
  intros H. apply mapM_ok_Forall2 in H.
  induction H; simpl; congruence.
Qed.

Lemma is_ok_true {A : Type} (r : result A) :
  is_ok r = true -> exists a, r = Ok a.
Proof. destruct r; [eauto | discriminate]. Qed.

Lemma dict_get_some_in (row : Row) (key : string) (v : value) :
  dict_get row key = Some v -> In (key, v) row.
Proof.
  induction row as [|[k x] row IH]; simpl; [discriminate |].
  destruct (String.eqb_spec k key); [intros [= <-]; subst; auto | auto].
Qed.

Lemma dict_get_none (row : Row) (key : string) :
  dict_get row key = None <-> ~ In key (keys row).
Proof.
  induction row as [|[k x] row IH]; simpl; [tauto |].
  destruct (String.eqb_spec k key); [split; [discriminate | tauto] |].
  rewrite IH. tauto.
Qed.

Section WithRuntime.
Context {rt : PyRuntime}.

(** What [serialize_value] returns has a JSON text, unless it is an
    object of another type, which is for [json.dumps] to know. *)
Lemma serialize_value_json_ok (v w : value) :
  serialize_value v = Ok w ->
  is_ok (json_scalar w)
  = match v with VOther o => is_ok (object_json o) | _ => true end.
Proof.
  destruct v; simpl; try (intros [= <-]; simpl; try reflexivity).
  - now destruct b.
  - destruct (float_of_Decimal d); simpl; [| discriminate].
    intros [= <-]. reflexivity.
Qed.

Lemma serialize_value_is_ok (v : value) :
  is_ok (serialize_value v)
  = match v with VDecimal d => is_ok (float_of_Decimal d) | _ => true end.
Proof.
  destruct v; simpl; try reflexivity.
  now destruct (float_of_Decimal d).
Qed.

Lemma serialize_row_is_ok (row : Row) :
  is_ok (serialize_row row) = true <->
  forall kv, In kv row -> is_ok (serialize_value (snd kv)) = true.
Proof.
  unfold serialize_row, Row. rewrite mapM_is_ok, forallb_forall.
  split; intros H kv Hin; specialize (H kv Hin).
  - now destruct (serialize_value (snd kv)).
  - now destruct (serialize_value (snd kv)).
Qed.

(** A serialized row has the keys of the row, and cell by cell the
    value that [serialize_value] returns. *)
Lemma serialize_row_shape (row srow : Row) :
  serialize_row row = Ok srow ->
  keys srow = keys row
  /\ Forall2 (fun kv skv => serialize_value (snd kv) = Ok (snd skv)) row srow.
Proof.
  intros H. apply mapM_ok_Forall2 in H.
  induction H as [|[k v] [k' v'] row srow Hx _ [IH1 IH2]]; simpl.
  - split; [reflexivity | constructor].
  - simpl in Hx. destruct (serialize_value v) as [w|] eqn:Hv; simpl in Hx;
      [| discriminate].
    injection Hx as <- <-. split; [now rewrite IH1 |].
    constructor; [exact Hv | exact IH2].
Qed.

Lemma is_ok_bind_Ok {A B : Type} (r : result A) (f : A -> B) :
  is_ok (x <- r ;; Ok (f x)) = is_ok r.
Proof. now destruct r. Qed.

Lemma json_object_is_ok (row : Row) :
  is_ok (json_object row)
  = forallb (fun kv => is_ok (json_scalar (snd kv))) row.
Proof.
  unfold json_object. destruct row as [|kv row]; [reflexivity |].
  rewrite is_ok_bind_Ok, mapM_is_ok.
  generalize (kv :: row). intros l.
  induction l as [|x l IH]; cbn [forallb]; [reflexivity |].
  f_equal; [apply is_ok_bind_Ok | exact IH].
Qed.

(** [json.dumps] writes the rows exactly when it can write every cell. *)
Lemma json_dumps_is_ok (rows : list Row) :
  is_ok (json_dumps_indent2 rows) = true <->
  forall row, In row rows ->
  forall kv, In kv row -> is_ok (json_scalar (snd kv)) = true.
Proof.
  assert (E : is_ok (json_dumps_indent2 rows)
              = forallb (fun row => is_ok (json_object row)) rows).
  { unfold json_dumps_indent2. destruct rows as [|r rows]; [reflexivity |].
    now rewrite is_ok_bind_Ok, mapM_is_ok. }
  rewrite E, forallb_forall. split; intros H row Hin.
  - specialize (H row Hin). rewrite json_object_is_ok, forallb_forall in H.
    exact H.
  - rewrite json_object_is_ok, forallb_forall. now apply H.
Qed.

End WithRuntime.

Lemma Forall2_In_l {A B : Type} (R : A -> B -> Prop) (l : list A) (l' : list B) :
  Forall2 R l l' -> forall x, In x l -> exists y, In y l' /\ R x y.
Proof.
  induction 1 as [|a b l l' Hab _ IH]; simpl; [contradiction |].
  intros x [<- | Hin]; [eauto |].
  destruct (IH x Hin) as (y & Hy & Hxy). eauto.
Qed.

Lemma Forall2_In_r {A B : Type} (R : A -> B -> Prop) (l : list A) (l' : list B) :
  Forall2 R l l' -> forall y, In y l' -> exists x, In x l /\ R x y.
Proof.
  induction 1 as [|a b l l' Hab _ IH]; simpl; [contradiction |].
  intros y [<- | Hin]; [eauto |].
  destruct (IH y Hin) as (x & Hx & Hxy). eauto.
Qed.

End FormatFacts.

(** X14. [format_as_json] returns a text exactly when [float] accepts
    every Decimal cell and [json.dumps] can write every cell that is an
    object of another type than those [serialize_value] converts or
    JSON knows. A cell that is None, a bool, an int, a float, a str,
    bytes, a date or a datetime never makes it raise, and neither do the
    keys of the rows. *)
Theorem format_as_json_ok_iff :
  forall (rt : PyRuntime) (rows : list Row),
    is_ok (format_as_json rows) = true <-> json_serializable_rows rt rows.
Proof.
  intros rt rows. unfold format_as_json, json_serializable_rows.
  rewrite FormatFacts.is_ok_bind. split.
  - intros H row Hin kv Hkv.
    destruct (mapM serialize_row rows) as [srows|] eqn:E; [| discriminate].
    rewrite FormatFacts.json_dumps_is_ok in H.
    apply FormatFacts.mapM_ok_Forall2 in E.
    destruct (FormatFacts.Forall2_In_l _ _ _ E row Hin) as (srow & Hsrow & Hrow).
    destruct (FormatFacts.serialize_row_shape _ _ Hrow) as [_ Hcells].
    destruct (FormatFacts.Forall2_In_l _ _ _ Hcells kv Hkv)
      as (skv & Hskv & Hcell).
    specialize (H srow Hsrow skv Hskv).
    rewrite (FormatFacts.serialize_value_json_ok _ _ Hcell) in H.
    assert (Hok : is_ok (serialize_value (snd kv)) = true) by now rewrite Hcell.
    rewrite FormatFacts.serialize_value_is_ok in Hok.
    now destruct (snd kv).
  - intros H.
    assert (Hok : is_ok (mapM serialize_row rows) = true).
    { rewrite FormatFacts.mapM_is_ok. apply forallb_forall. intros row Hin.
      apply FormatFacts.serialize_row_is_ok. intros kv Hkv.
      rewrite FormatFacts.serialize_value_is_ok.
      specialize (H row Hin kv Hkv). now destruct (snd kv). }
    apply FormatFacts.is_ok_true in Hok as [srows E]. rewrite E.
    apply FormatFacts.json_dumps_is_ok. intros srow Hsrow skv Hskv.
    apply FormatFacts.mapM_ok_Forall2 in E.
    destruct (FormatFacts.Forall2_In_r _ _ _ E srow Hsrow) as (row & Hin & Hrow).
    destruct (FormatFacts.serialize_row_shape _ _ Hrow) as [_ Hcells].
    destruct (FormatFacts.Forall2_In_r _ _ _ Hcells skv Hskv)
      as (kv & Hkv & Hcell).
    rewrite (FormatFacts.serialize_value_json_ok _ _ Hcell).
    specialize (H row Hin kv Hkv). now destruct (snd kv).
Qed.

Lemma format_as_json_ok_iff_witness :
  is_ok (format_as_json (rt := Sample.runtime)
           [[("day", VDate (mk_date 2024 1 1)); ("raw", VBytes [])];
            [("other", VDecimal (DecNaN false))]])
  = true
  /\ is_ok (format_as_json (rt := Sample.runtime)
              [[("id", VOther (mk_object "UUID" "6f1c"))]])
     = false.
Proof.
  split.
  - apply (proj2 (format_as_json_ok_iff Sample.runtime _)).
    intros row Hrow kv Hkv. simpl in Hrow.
    destruct Hrow as [<- | [<- | []]]; simpl in Hkv.
    + destruct Hkv as [<- | [<- | []]]; exact I.
    + destruct Hkv as [<- | []]; reflexivity.
  - apply not_true_is_false. intros H.
    apply (proj1 (format_as_json_ok_iff Sample.runtime _)) in H.
    specialize (H _ (or_introl eq_refl) _ (or_introl eq_refl)).
    discriminate H.
Defined.

(** A cell that is a UUID goes through [serialize_value] as it is, and
    [json.dumps] raises on it. *)
Example format_as_json_uuid_cell :
  format_as_json (rt := Sample.runtime)
    [[("id", VOther (mk_object "UUID" "6f1c"))]]
  = Raise (TypeError "Object of type UUID is not JSON serializable").
Proof. reflexivity. Qed.

(** X15. On rows whose cells can all be serialized, [format_as_csv]
    returns a text exactly when no row has a key that is not a key of the
    first row: a row may lack columns, it may not have unknown keys. *)
Theorem format_as_csv_ok_iff :
  forall (rt : PyRuntime) (rows : list Row),
    serializable_rows rt rows ->
    (is_ok (format_as_csv rows) = true
     <-> forall row, In row rows -> incl (keys row) (columns_of rows)).
Proof.
  intros rt rows Hser. destruct rows as [|first more].
  - simpl. split; [intros _ row [] | reflexivity].
  - unfold format_as_csv, columns_of. rewrite FormatFacts.is_ok_bind.
    set (columns := keys first).
    set (F := fun row : Row =>
                serialized_row <- serialize_row row ;;
                cells <- dict_to_list columns serialized_row ;;
                Ok (csv_writerow cells)).
    assert (HF : forall row,
               In row (first :: more) ->
               (is_ok (F row) = true <-> incl (keys row) columns)).
    { intros row Hin. unfold F. rewrite FormatFacts.is_ok_bind.
      assert (Hok : is_ok (serialize_row row) = true)
        by (apply FormatFacts.serialize_row_is_ok; now apply Hser).
      apply FormatFacts.is_ok_true in Hok as [srow E]. rewrite E.
      destruct (FormatFacts.serialize_row_shape _ _ E) as [Hkeys _].
      rewrite FormatFacts.is_ok_bind. unfold dict_to_list. rewrite Hkeys.
      destruct (filter _ (keys row)) as [|k ks] eqn:Hw; simpl.
      - split; [intros _ | reflexivity]. intros k Hk.
        destruct (existsb (String.eqb k) columns) eqn:Hex.
        + apply existsb_exists in Hex as (c & Hc & Heq).
          apply String.eqb_eq in Heq. now subst.
        + assert (Hin' : In k (filter
                                 (fun k0 => negb (existsb (String.eqb k0) columns))
                                 (keys row)))
            by (apply filter_In; now rewrite Hex).
          rewrite Hw in Hin'. contradiction.
      - split; [discriminate |]. intros Hincl.
        assert (Hk : In k (filter
                             (fun k0 => negb (existsb (String.eqb k0) columns))
                             (keys row)))
          by (rewrite Hw; now left).
        apply filter_In in Hk as [Hk Hneg].
        apply negb_true_iff in Hneg.
        assert (Hex : existsb (String.eqb k) columns = true).
        { apply existsb_exists. exists k. split; [now apply Hincl |].
          apply String.eqb_refl. }
        congruence. }
    destruct (mapM F (first :: more)) as [lines|e] eqn:E.
    + split; [| reflexivity]. intros _ row Hin. apply HF; [exact Hin |].
      assert (Hok : is_ok (mapM F (first :: more)) = true) by now rewrite E.
      rewrite FormatFacts.mapM_is_ok, forallb_forall in Hok. now apply Hok.
    + split; [discriminate |]. intros H.
      assert (Hok : is_ok (mapM F (first :: more)) = true).
      { rewrite FormatFacts.mapM_is_ok. apply forallb_forall.
        intros row Hin. apply HF; auto. }
      rewrite E in Hok. discriminate.
Qed.

Lemma format_as_csv_ok_iff_witness :
  is_ok (format_as_csv (rt := Sample.runtime)
           [[("id", VInt 1); ("name", VStr "ada")]; [("name", VNone)]])
  = true.
Proof.
  apply (proj2 (format_as_csv_ok_iff Sample.runtime _
                  ltac:(intros row Hrow kv Hkv; now destruct (snd kv)))).
  intros row Hrow k Hk. simpl in *.
  destruct Hrow as [<- | [<- | []]]; simpl in Hk; tauto.
Defined.

(** X16. On rows whose cells can all be serialized, [format_as_markdown]
    returns a text exactly when every row has every key of the first
    row; further keys of a row are ignored, a missing one raises. *)
Theorem format_as_markdown_ok_iff :
  forall (rt : PyRuntime) (rows : list Row),
    serializable_rows rt rows ->
    (is_ok (format_as_markdown rows) = true
     <-> forall row, In row rows -> incl (columns_of rows) (keys row)).
Proof.
  intros rt rows Hser. destruct rows as [|first more].
  - simpl. split; [intros _ row [] | reflexivity].
  - unfold format_as_markdown, columns_of. rewrite FormatFacts.is_ok_bind.
    set (columns := keys first).
    assert (Hcell : forall row col,
               In row (first :: more) ->
               (is_ok (markdown_cell row col) = true <-> In col (keys row))).
    { intros row col Hin. unfold markdown_cell.
      destruct (dict_get row col) as [v|] eqn:Hget.
      - rewrite FormatFacts.is_ok_bind.
        pose proof (FormatFacts.dict_get_some_in _ _ _ Hget) as Hv.
        pose proof (Hser row Hin _ Hv) as Hok. simpl in Hok.
        apply FormatFacts.is_ok_true in Hok as [w ->].
        split; [intros _ | reflexivity].
        unfold keys. now apply (in_map fst) in Hv.
      - apply FormatFacts.dict_get_none in Hget.
        split; [discriminate | contradiction]. }
    assert (Hrow : forall row,
               In row (first :: more) ->
               (is_ok (mapM (markdown_cell row) columns) = true
                <-> incl columns (keys row))).
    { intros row Hin. rewrite FormatFacts.mapM_is_ok, forallb_forall.
      split; intros H col Hc; now apply (Hcell row col Hin), H. }
    destruct (mapM _ (first :: more)) as [cells|e] eqn:E.
    + split; [| reflexivity]. intros _ row Hin. apply Hrow; [exact Hin |].
      assert (Hok : is_ok (mapM (fun row0 => mapM (markdown_cell row0) columns)
                                (first :: more)) = true) by now rewrite E.
      rewrite FormatFacts.mapM_is_ok, forallb_forall in Hok. now apply Hok.
    + split; [discriminate |]. intros H.
      assert (Hok : is_ok (mapM (fun row0 => mapM (markdown_cell row0) columns)
                                (first :: more)) = true).
      { rewrite FormatFacts.mapM_is_ok. apply forallb_forall.
        intros row Hin. apply Hrow; auto. }
      rewrite E in Hok. discriminate.
Qed.

Lemma format_as_markdown_ok_iff_witness :
  is_ok (format_as_markdown (rt := Sample.runtime)
           [[("id", VInt 1)]; [("extra", VStr "x"); ("id", VInt 2)]])
  = true.
Proof.
  apply (proj2 (format_as_markdown_ok_iff Sample.runtime _
                  ltac:(intros row Hrow kv Hkv; now destruct (snd kv)))).
  intros row Hrow k Hk. simpl in *.
  destruct Hrow as [<- | [<- | []]]; simpl; tauto.
Defined.

(** ** formatters.py: the shape of the Markdown table *)

Module TableFacts.

Lemma repeat_str_length (s : string) (n : nat) :
  String.length (repeat_str s n) = n * String.length s.
Proof.
  induction n as [|n IH]; simpl; [reflexivity |].
  now rewrite string_app_length, IH.
Qed.

Lemma ljust_length (s : string) (width : nat) :
  String.length s <= width -> String.length (ljust s width) = width.
Proof.
  intros H. unfold ljust.
  rewrite string_app_length, repeat_str_length. simpl. lia.
Qed.

(** The length of a joined line depends on the lengths of its parts
    only. *)
Lemma join_length (sep : string) (parts : list string) :
  String.length (join sep parts)
  = list_sum (map String.length parts)
    + String.length sep * (length parts - 1).
Proof.
  induction parts as [|p parts IH]; simpl; [lia |].
  destruct parts as [|p' parts]; [simpl; lia |].
  rewrite !string_app_length, IH. simpl. lia.
Qed.

Lemma markdown_line_length (parts : list string) :
  String.length (markdown_line parts)
  = 2 + list_sum (map String.length parts) + (length parts - 1).
Proof.
  unfold markdown_line. simpl.
  rewrite string_app_length, join_length. simpl. lia.
Qed.

Lemma map2_max_le (w l : list nat) :
  length l = length w ->
  length (map2 Nat.max w l) = length w
  /\ Forall2 le w (map2 Nat.max w l)
  /\ Forall2 le l (map2 Nat.max w l).
Proof.
  revert l. induction w as [|a w IH]; intros [|b l] H; simpl in *;
    try discriminate.
  - repeat split; constructor.
  - destruct (IH l ltac:(lia)) as (H1 & H2 & H3).
    repeat split; [lia | constructor; [lia | exact H2]
                  | constructor; [lia | exact H3]].
Qed.

Lemma Forall2_le_trans (a b c : list nat) :
  Forall2 le a b -> Forall2 le b c -> Forall2 le a c.
Proof.
  intros Hab. revert c. induction Hab; intros c Hbc; inversion Hbc; subst;
    constructor; [lia | auto].
Qed.

Lemma Forall2_le_refl (a : list nat) : Forall2 le a a.
Proof. induction a; constructor; auto. Qed.

(** The widths grow from the header widths and end above every cell. *)
Lemma col_widths_bound (cells : list (list string)) :
  forall w0,
    (forall cs, In cs cells -> length cs = length w0) ->
    let W := fold_left (fun widths row_cells =>
                          map2 Nat.max widths (map String.length row_cells))
                       cells w0 in
    length W = length w0
    /\ Forall2 le w0 W
    /\ forall cs, In cs cells -> Forall2 le (map String.length cs) W.
Proof.
  induction cells as [|c cells IH]; intros w0 Hlen; simpl.
  - repeat split; [apply Forall2_le_refl | contradiction].
  - destruct (map2_max_le w0 (map String.length c)) as (H1 & H2 & H3).
    { rewrite length_map. apply Hlen. now left. }
    destruct (IH (map2 Nat.max w0 (map String.length c))) as (I1 & I2 & I3).
    { intros cs Hin. rewrite H1. apply Hlen. now right. }
    repeat split.
    + congruence.
    + eapply Forall2_le_trans; eassumption.
    + intros cs [<- | Hin]; [eapply Forall2_le_trans; eassumption | auto].
Qed.

(** Padded to the widths, the texts of a line have the lengths the
    widths prescribe. *)
Lemma padded_lengths (texts : list string) (widths : list nat) :
  Forall2 le (map String.length texts) widths ->
  map String.length
      (map2 (fun text width => " " ++ ljust text width ++ " ") texts widths)
  = map (fun w => w + 2) widths.
Proof.
  revert widths. induction texts as [|t texts IH]; intros widths H;
    inversion H; subst; simpl; [reflexivity |].
  rewrite IH by assumption. f_equal.
  rewrite string_app_length, ljust_length by assumption. simpl. lia.
Qed.

End TableFacts.

(** X17. The Markdown table of a non-empty row set is made of a header
    line, a separator line and one line per row, joined by line feeds,
    and all these lines have the same length. *)
Theorem format_as_markdown_rectangular :
  forall (rt : PyRuntime) (rows : list Row) (text : string),
    rows <> [] ->
    format_as_markdown rows = Ok text ->
    exists lines width,
      text = join NL lines
      /\ length lines = 2 + length rows
      /\ forall line, In line lines -> String.length line = width.
Proof.
  intros rt rows text Hne H. destruct rows as [|first more]; [congruence |].
  unfold format_as_markdown in H.
  set (columns := keys first) in *.
  destruct (mapM (fun row => mapM (markdown_cell row) columns) (first :: more))
    as [cells|e] eqn:E; [| discriminate].
  pose (W := fold_left (fun widths row_cells =>
                          map2 Nat.max widths (map String.length row_cells))
                       cells (map String.length columns)).
  pose (pad := fun (t : string) (width : nat) => " " ++ ljust t width ++ " ").
  pose (lines := markdown_line (map2 pad columns W)
                 :: markdown_line (map (fun width => repeat_str "-" (width + 2)) W)
                 :: map (fun row_cells => markdown_line (map2 pad row_cells W))
                        cells).
  assert (Ht : text = join NL lines) by (injection H as <-; reflexivity).
  clear H. subst text.
  assert (Hcells : forall cs, In cs cells ->
                              length cs = length (map String.length columns)).
  { intros cs Hin. rewrite length_map.
    apply FormatFacts.mapM_ok_Forall2 in E. clear -E Hin.
    induction E as [|row c rows' cells' Hx _ IH]; [contradiction |].
    destruct Hin as [<- | Hin]; [| auto].
    exact (FormatFacts.mapM_length _ _ _ Hx). }
  destruct (TableFacts.col_widths_bound cells _ Hcells) as (HW1 & HW2 & HW3).
  fold W in HW1, HW2, HW3.
  exists lines, (2 + list_sum (map (fun w => w + 2) W) + (length W - 1)).
  split; [reflexivity |]. unfold lines, pad. split.
  - cbn [length]. rewrite length_map.
    now rewrite (FormatFacts.mapM_length _ _ _ E).
  - intros line Hin. destruct Hin as [<- | [<- | Hin]].
    + rewrite TableFacts.markdown_line_length,
        (TableFacts.padded_lengths columns W HW2).
      f_equal. f_equal.
      rewrite <- (length_map (fun w => w + 2) W),
        <- (TableFacts.padded_lengths columns W HW2).
      now rewrite length_map.
    + rewrite TableFacts.markdown_line_length, map_map, length_map.
      f_equal. f_equal. f_equal. apply map_ext. intros w.
      rewrite TableFacts.repeat_str_length. simpl. lia.
    + apply in_map_iff in Hin as (cs & <- & Hcs).
      rewrite TableFacts.markdown_line_length,
        (TableFacts.padded_lengths cs W (HW3 cs Hcs)).
      f_equal. f_equal.
      rewrite <- (length_map (fun w => w + 2) W),
        <- (TableFacts.padded_lengths cs W (HW3 cs Hcs)).
      now rewrite length_map.
Qed.

Lemma format_as_markdown_rectangular_witness :
  exists lines width,
    "| id | name |" ++ NL ++ "|----|------|" ++ NL
    ++ "| 7  | ada  |" ++ NL ++ "| 12 | None |" = join NL lines
    /\ length lines = 4
    /\ forall line, In line lines -> String.length line = width.
Proof.
  apply (format_as_markdown_rectangular
           Sample.runtime
           [[("id", VInt 7); ("name", VStr "ada")];
            [("id", VInt 12); ("name", VNone)]]).
  - discriminate.
  - reflexivity.
Defined.

(** ** config.py: loading the configuration *)

Module EnvFacts.

Lemma run_validator_valid_inv {A : Type} (name : string)
      (validator : A -> result A) (x v : A) :
  Pydantic.run_validator name validator x = Pydantic.Valid v ->
  validator x = Ok v.
Proof.
  unfold Pydantic.run_validator. destruct (validator x) as [y|e].
  - now intros [= <-].
  - now destruct e.
Qed.

Lemma str_argument_valid_inv (name : string) (o : option string) (v : string) :
  str_argument name o = Pydantic.Valid v -> o = Some v.
Proof. destruct o; simpl; [now intros [= <-] | discriminate]. Qed.

Lemma truthy_some (o : option string) :
  truthy o = true <-> exists s, o = Some s /\ s <> "".
Proof.
  destruct o as [s|]; simpl.
  - destruct (String.eqb_spec s ""); simpl; split.
    + discriminate.
    + intros (s' & [= <-] & H). contradiction.
    + intros _. eauto.
    + reflexivity.
  - split; [discriminate | intros (s & [=] & _)].
Qed.

End EnvFacts.

(** X18. When POSTGRES_HOST, POSTGRES_DATABASE or POSTGRES_USER is unset
    or empty, [get_config] raises the ValueError whose message lists
    exactly the variables that are, in that order, whatever the other
    variables hold: a missing password or a port that is not a number
    does not come first. *)
Theorem get_config_missing_variables :
  forall (np : PyNumberParsing) (env : Environ),
    let missing := filter (fun name => negb (truthy (env name)))
                          REQUIRED_VARIABLES in
    missing <> [] ->
    get_config env = Raise (ValueError (missing_variables_message missing)).
Proof.
  intros np env missing Hne. unfold get_config.
  unfold missing, REQUIRED_VARIABLES in *. simpl in *.
  destruct (truthy (env "POSTGRES_HOST")),
    (truthy (env "POSTGRES_DATABASE")),
    (truthy (env "POSTGRES_USER")); simpl in *; try reflexivity.
  congruence.
Qed.

Lemma get_config_missing_variables_witness :
  get_config (np := SampleEnv.parsing) SampleEnv.incomplete
  = Raise (ValueError
             (missing_variables_message ["POSTGRES_HOST"; "POSTGRES_USER"])).
Proof.
  apply (get_config_missing_variables SampleEnv.parsing SampleEnv.incomplete).
  discriminate.
Defined.

(** X19. A configuration that [get_config] returns holds a non-empty
    host, database and user and the password, as the environment has
    them, and numbers read from the variables or from the defaults
    5432, 2, 10, 60.0 and 10.0; its port is within 1..65535, its pool
    sizes are at least 1 and its timeouts are not below or equal to 0. *)
Theorem get_config_ok_guarantees :
  forall (np : PyNumberParsing) (env : Environ) (c : DatabaseConfig.t),
    get_config env = Ok c ->
    (env "POSTGRES_HOST" = Some (DatabaseConfig.host c)
     /\ DatabaseConfig.host c <> "")
    /\ (env "POSTGRES_DATABASE" = Some (DatabaseConfig.database c)
        /\ DatabaseConfig.database c <> "")
    /\ (env "POSTGRES_USER" = Some (DatabaseConfig.user c)
        /\ DatabaseConfig.user c <> "")
    /\ env "POSTGRES_PASSWORD" = Some (DatabaseConfig.password c)
    /\ (int_of_str (getenv_default env "POSTGRES_PORT" "5432")
        = Ok (DatabaseConfig.port c)
        /\ (1 <= DatabaseConfig.port c <= 65535)%Z)
    /\ (int_of_str (getenv_default env "POSTGRES_POOL_MIN_SIZE" "2")
        = Ok (DatabaseConfig.pool_min_size c)
        /\ (1 <= DatabaseConfig.pool_min_size c)%Z)
    /\ (int_of_str (getenv_default env "POSTGRES_POOL_MAX_SIZE" "10")
        = Ok (DatabaseConfig.pool_max_size c)
        /\ (1 <= DatabaseConfig.pool_max_size c)%Z)
    /\ (float_of_str (getenv_default env "POSTGRES_COMMAND_TIMEOUT" "60.0")
        = Ok (DatabaseConfig.command_timeout c)
        /\ ~ float_le (DatabaseConfig.command_timeout c) 0)
    /\ (float_of_str (getenv_default env "POSTGRES_CONNECTION_TIMEOUT" "10.0")
        = Ok (DatabaseConfig.connection_timeout c)
        /\ ~ float_le (DatabaseConfig.connection_timeout c) 0).
Proof.
  intros np env c. unfold get_config.
  destruct (truthy (env "POSTGRES_HOST")) eqn:Th; simpl; [| discriminate].
  destruct (truthy (env "POSTGRES_DATABASE")) eqn:Td; simpl; [| discriminate].
  destruct (truthy (env "POSTGRES_USER")) eqn:Tu; simpl; [| discriminate].
  destruct (int_of_str (getenv_default env "POSTGRES_PORT" "5432"))
    as [port|]; simpl; [| discriminate].
  destruct (int_of_str (getenv_default env "POSTGRES_POOL_MIN_SIZE" "2"))
    as [mn|]; simpl; [| discriminate].
  destruct (int_of_str (getenv_default env "POSTGRES_POOL_MAX_SIZE" "10"))
    as [mx|]; simpl; [| discriminate].
  destruct (float_of_str (getenv_default env "POSTGRES_COMMAND_TIMEOUT" "60.0"))
    as [ct|]; simpl; [| discriminate].
  destruct (float_of_str (getenv_default env "POSTGRES_CONNECTION_TIMEOUT" "10.0"))
    as [cn|]; simpl; [| discriminate].
  match goal with
  | |- Pydantic.construct _ ?v = _ -> _ => destruct v as [x|] eqn:E
  end; simpl; [| discriminate].
  intros [= ->].
  apply ModelFacts.ap_valid_inv in E as (g9 & v9 & E & H9 & ->).
  apply ModelFacts.ap_valid_inv in E as (g8 & v8 & E & H8 & ->).
  apply ModelFacts.ap_valid_inv in E as (g7 & v7 & E & H7 & ->).
  apply ModelFacts.ap_valid_inv in E as (g6 & v6 & E & H6 & ->).
  apply ModelFacts.ap_valid_inv in E as (g5 & v5 & E & H5 & ->).
  apply ModelFacts.ap_valid_inv in E as (g4 & v4 & E & H4 & ->).
  apply ModelFacts.ap_valid_inv in E as (g3 & v3 & E & H3 & ->).
  apply ModelFacts.ap_valid_inv in E as (g2 & v2 & E & H2 & ->).
  destruct (str_argument "host" (env "POSTGRES_HOST")) as [v1|] eqn:H1;
    [| discriminate].
  injection E as <-. simpl.
  apply EnvFacts.str_argument_valid_inv in H1, H3, H4, H5.
  apply EnvFacts.run_validator_valid_inv in H2, H6, H7, H8, H9.
  apply ModelFacts.validate_port_inv in H2 as [-> Hp].
  apply ModelFacts.validate_pool_size_inv in H6 as [-> Hmn].
  apply ModelFacts.validate_pool_size_inv in H7 as [-> Hmx].
  apply ModelFacts.validate_config_timeout_inv in H8 as [-> Hct].
  apply ModelFacts.validate_config_timeout_inv in H9 as [-> Hcn].
  apply EnvFacts.truthy_some in Th as (h & Eh & Hh).
  apply EnvFacts.truthy_some in Td as (d & Ed & Hd).
  apply EnvFacts.truthy_some in Tu as (u & Eu & Hu).
  rewrite H1 in Eh. rewrite H3 in Ed. rewrite H4 in Eu.
  injection Eh as <-. injection Ed as <-. injection Eu as <-.
  repeat split; auto; lia.
Qed.

Lemma get_config_ok_guarantees_witness :
  (1 <= 5432 <= 65535)%Z.
Proof.
  destruct (get_config_ok_guarantees
              SampleEnv.parsing SampleEnv.complete
              (DatabaseConfig.mk "localhost" 5432 "app" "reader" "secret" 2 10
                                 (Finite 60) (Finite 10))
              eq_refl)
    as (_ & _ & _ & _ & (_ & Hp) & _).
  exact Hp.
Defined.

(** X20. When host, database and user are set and the five numbers can
    be read, an unset POSTGRES_PASSWORD makes [get_config] fail in the
    construction of the configuration, with an error on the password
    field: the password is not among the variables that the missing
    variables message covers. *)
Theorem get_config_password_unset :
  forall (np : PyNumberParsing) (env : Environ),
    truthy (env "POSTGRES_HOST") = true ->
    truthy (env "POSTGRES_DATABASE") = true ->
    truthy (env "POSTGRES_USER") = true ->
    is_ok (int_of_str (getenv_default env "POSTGRES_PORT" "5432")) = true ->
    is_ok (int_of_str (getenv_default env "POSTGRES_POOL_MIN_SIZE" "2")) = true ->
    is_ok (int_of_str (getenv_default env "POSTGRES_POOL_MAX_SIZE" "10")) = true ->
    is_ok (float_of_str (getenv_default env "POSTGRES_COMMAND_TIMEOUT" "60.0"))
    = true ->
    is_ok (float_of_str (getenv_default env "POSTGRES_CONNECTION_TIMEOUT" "10.0"))
    = true ->
    env "POSTGRES_PASSWORD" = None ->
    exists errors,
      get_config env = Raise (ValidationError "DatabaseConfig" errors)
      /\ In ("password", "Input should be a valid string") errors.
Proof.
  intros np env Th Td Tu Hp Hmn Hmx Hct Hcn Hpw. unfold get_config.
  rewrite Th, Td, Tu, Hpw. simpl.
  apply FormatFacts.is_ok_true in Hp as [port ->].
  apply FormatFacts.is_ok_true in Hmn as [mn ->].
  apply FormatFacts.is_ok_true in Hmx as [mx ->].
  apply FormatFacts.is_ok_true in Hct as [ct ->].
  apply FormatFacts.is_ok_true in Hcn as [cn ->].
  simpl.
  apply EnvFacts.truthy_some in Th as (h & -> & _).
  apply EnvFacts.truthy_some in Td as (d & -> & _).
  apply EnvFacts.truthy_some in Tu as (u & -> & _).
  simpl.
  destruct (Pydantic.run_validator "port" DatabaseConfig.validate_port port);
    destruct (Pydantic.run_validator "pool_min_size"
                DatabaseConfig.validate_pool_size mn);
    destruct (Pydantic.run_validator "pool_max_size"
                DatabaseConfig.validate_pool_size mx);
    destruct (Pydantic.run_validator "command_timeout"
                DatabaseConfig.validate_timeout ct);
    destruct (Pydantic.run_validator "connection_timeout"
                DatabaseConfig.validate_timeout cn);
    simpl; eexists; (split; [reflexivity |]);
    rewrite ?in_app_iff; simpl; auto 10.
Qed.

Lemma get_config_password_unset_witness :
  exists errors,
    get_config (np := SampleEnv.parsing) SampleEnv.no_password
    = Raise (ValidationError "DatabaseConfig" errors)
    /\ In ("password", "Input should be a valid string") errors.
Proof.
  apply (get_config_password_unset SampleEnv.parsing SampleEnv.no_password);
    reflexivity.
Defined.
